(** * notes-api: ownership and lifecycle of notes at the data-access layer

    A shallow embedding of [src/index.js]: the Express handlers become
    functions from a database state to a response and a new database state;
    the identity middleware [userFromHeader] becomes a function that either
    answers 400 or calls the next handler with the parsed user id.

    The storage engine (SQLite behind node-sqlite3) is not part of the
    repository.  It is modelled here as far as the handlers depend on it:
    tables are lists of rows in rowid order, a statement either fails with an
    engine error and changes nothing or runs to completion, [NOT NULL],
    [UNIQUE] and [PRIMARY KEY] are checked, foreign keys are not enforced
    (the engine's default), and a bound parameter is compared with a column
    after the column's type affinity has been applied to it.  Four engine
    functions are left abstract in the class [Engine]: reading text as a
    number, reading text as a key, printing a number as text, and the
    fallback choice of a rowid when the largest one is taken.  Every theorem
    holds for all engines.

    Numbers are integer-valued; a JSON number or numeric text with a
    fractional part, and JSON arrays and objects, are outside the model. *)

From Stdlib Require Import ZArith List String Ascii Bool Lia DecimalString Permutation.
Import ListNotations.

Open Scope string_scope.
Open Scope Z_scope.

(** ** JavaScript values *)

Module JS.

(** A finite number of the model is an integer; [parseInt] and [JSON.parse]
    may also produce an infinity. *)
Inductive num : Type :=
| Int (z : Z)
| Infinity (negative : bool).

Inductive value : Type :=
| Undefined
| Null
| Boolean (b : bool)
| NaN
| Number (n : num)
| Str (s : string).

Definition num_eqb (a b : num) : bool :=
  match a, b with
  | Int x, Int y => Z.eqb x y
  | Infinity s, Infinity t => Bool.eqb s t
  | _, _ => false
  end.

(** [ToBoolean]: what [!v] negates. *)
Definition truthy (v : value) : bool :=
  match v with
  | Undefined | Null | NaN => false
  | Boolean b => b
  | Number (Int z) => negb (Z.eqb z 0)
  | Number (Infinity _) => true
  | Str s => negb (String.eqb s "")
  end.

Definition is_undefined (v : value) : bool :=
  match v with Undefined => true | _ => false end.

(** A destructuring default [{ x = d } = obj] applies when the property is
    [undefined], and only then. *)
Definition or_default (v d : value) : value :=
  match v with Undefined => d | _ => v end.

(** [String.prototype.includes]. *)
Fixpoint starts_with (p s : string) : bool :=
  match p, s with
  | EmptyString, _ => true
  | String a p', String b s' => Ascii.eqb a b && starts_with p' s'
  | String _ _, EmptyString => false
  end.

Fixpoint includes (s p : string) : bool :=
  starts_with p s ||
  match s with
  | EmptyString => false
  | String _ s' => includes s' p
  end.

(** *** [parseInt(s, 10)] *)

Definition is_digit (c : ascii) : bool :=
  let n := Z.of_nat (nat_of_ascii c) in (48 <=? n) && (n <=? 57).

Definition digit_value (c : ascii) : Z := Z.of_nat (nat_of_ascii c) - 48.

(** White space among the code units a header can carry (Latin-1): TAB, LF,
    VT, FF, CR, SP and NBSP. *)
Definition is_white_space (c : ascii) : bool :=
  let n := Z.of_nat (nat_of_ascii c) in
  ((9 <=? n) && (n <=? 13)) || Z.eqb n 32 || Z.eqb n 160.

Fixpoint trim_start (s : string) : string :=
  match s with
  | String c r => if is_white_space c then trim_start r else s
  | EmptyString => s
  end.

Fixpoint leading_digits (s : string) : string :=
  match s with
  | String c r => if is_digit c then String c (leading_digits r) else EmptyString
  | EmptyString => EmptyString
  end.

Fixpoint all_digits (s : string) : bool :=
  match s with
  | String c r => is_digit c && all_digits r
  | EmptyString => true
  end.

Definition starts_with_digit (s : string) : bool :=
  match s with
  | String c _ => is_digit c
  | EmptyString => false
  end.

Fixpoint digits_value (acc : Z) (s : string) : Z :=
  match s with
  | String c r => digits_value (10 * acc + digit_value c) r
  | EmptyString => acc
  end.

(** The Number value for a mathematical integer: the nearest double, ties to
    the even significand, an infinity from [2^1024 - 2^970] on. *)
Definition to_number (z : Z) : num :=
  let a := Z.abs z in
  if a <? 2 ^ 53 then Int z
  else
    let e := Z.log2 a - 52 in
    let q := a / 2 ^ e in
    let r := a mod 2 ^ e in
    let half := 2 ^ (e - 1) in
    let q' := if (half <? r) || (Z.eqb r half && Z.odd q) then q + 1 else q in
    let m := q' * 2 ^ e in
    if 2 ^ 1024 <=? m then Infinity (z <? 0) else Int (Z.sgn z * m).

Definition parseInt (s : string) : value :=
  let t := trim_start s in
  let '(sign, t) :=
    match t with
    | String "-" r => (-1, r)
    | String "+" r => (1, r)
    | _ => (1, t)
    end in
  let ds := leading_digits t in
  match ds with
  | EmptyString => NaN
  | _ => Number (to_number (sign * digits_value 0 ds))
  end.

End JS.

Import JS.

(** ** The storage engine *)

Module Sql.

(** Storage classes that the handlers can produce. *)
Inductive value : Type :=
| SNull
| SNum (n : num)
| SText (s : string).

(** How node-sqlite3 binds a JavaScript argument: [undefined] leaves the
    parameter unbound, which is NULL; a NaN double is bound as NULL; a
    boolean as 1 or 0. *)
Definition bind (v : JS.value) : value :=
  match v with
  | Undefined | Null | NaN => SNull
  | Boolean b => SNum (Int (if b then 1 else 0))
  | Number n => SNum n
  | Str s => SText s
  end.

Inductive affinity : Type := TEXT | NUMERIC | INTEGER.

(** What the model does not fix about the engine. *)
Class Engine : Type := {
  (** the number that a well-formed numeric literal denotes *)
  numeric_of_text : string -> option num;
  (** the integer that text is stored as in an INTEGER PRIMARY KEY column,
      when it is stored as one *)
  key_of_text : string -> option Z;
  (** the text of a number stored in a TEXT column *)
  text_of_numeric : num -> string;
  (** the rowid tried when the largest rowid is already in use *)
  random_rowid : list Z -> option Z
}.

Section WithEngine.
Context {E : Engine}.

Definition apply_affinity (a : affinity) (v : value) : value :=
  match a, v with
  | TEXT, SNum n => SText (text_of_numeric n)
  | (NUMERIC | INTEGER), SText s =>
      match numeric_of_text s with
      | Some n => SNum n
      | None => SText s
      end
  | _, _ => v
  end.

(** [a = b] is true; NULL equals nothing, and a number never equals text. *)
Definition eqb (a b : value) : bool :=
  match a, b with
  | SNum x, SNum y => num_eqb x y
  | SText s, SText t => String.eqb s t
  | _, _ => false
  end.

Definition is_null (v : value) : bool :=
  match v with SNull => true | _ => false end.

(** [column = ?]: the column's affinity is applied to the parameter. *)
Definition column_eqb (a : affinity) (column parameter : value) : bool :=
  eqb column (apply_affinity a parameter).

(** Positional parameters: one that was not supplied is NULL; supplying too
    many is an error. *)
Definition parameter (ps : list value) (i : nat) : value := nth i ps SNull.

Inductive error : Type :=
| UniqueFailed (column : string)
| NotNullFailed (column : string)
| DatatypeMismatch
| Full
| Range.

Definition message (e : error) : string :=
  match e with
  | UniqueFailed c => "SQLITE_CONSTRAINT: UNIQUE constraint failed: " ++ c
  | NotNullFailed c => "SQLITE_CONSTRAINT: NOT NULL constraint failed: " ++ c
  | DatatypeMismatch => "SQLITE_MISMATCH: datatype mismatch"
  | Full => "SQLITE_FULL: database or disk is full"
  | Range => "SQLITE_RANGE: column index out of range"
  end.

Definition result (A : Type) : Type := (error + A)%type.

(** *** Rowids *)

Definition max_rowid : Z := 2 ^ 63 - 1.

Definition is_rowid (z : Z) : bool := (- 2 ^ 63 <=? z) && (z <=? max_rowid).

Definition mem (z : Z) (l : list Z) : bool := existsb (Z.eqb z) l.

(** The rowid of a row inserted with a NULL key: 1 in an empty table, else
    one more than the largest, else whatever unused rowid the engine
    finds. *)
Definition auto_rowid (ids : list Z) : option Z :=
  match ids with
  | [] => Some 1
  | i :: rest =>
      let m := fold_left Z.max rest i in
      if m <? max_rowid then Some (m + 1)
      else
        match random_rowid ids with
        | Some z => if is_rowid z && negb (mem z ids) then Some z else None
        | None => None
        end
  end.

(** The key of an [INTEGER PRIMARY KEY] column, from the bound parameter.
    NULL asks for an automatic rowid.  A JavaScript number is bound as an
    INTEGER when it fits 32 bits and as a REAL otherwise, and a REAL is taken
    for a key only when it is an integer strictly between the least and the
    largest rowid; the 32-bit integers lie strictly between the two, so one
    test serves both.  Text is a key when the engine stores it as an integer.
    Anything else is a datatype mismatch. *)
Definition rowid_of (v : value) : result (option Z) :=
  match v with
  | SNull => inr None
  | SNum (Int z) =>
      if (- 2 ^ 63 <? z) && (z <? max_rowid) then inr (Some z)
      else inl DatatypeMismatch
  | SNum (Infinity _) => inl DatatypeMismatch
  | SText s =>
      match key_of_text s with
      | Some z => if is_rowid z then inr (Some z) else inl DatatypeMismatch
      | None => inl DatatypeMismatch
      end
  end.

Fixpoint insert_by {A : Type} (key : A -> Z) (x : A) (l : list A) : list A :=
  match l with
  | [] => [x]
  | y :: l' => if key x <? key y then x :: l else y :: insert_by key x l'
  end.

End WithEngine.
End Sql.

Import Sql.

(** ** The schema *)

(** [users (id INTEGER PRIMARY KEY, username TEXT UNIQUE, password TEXT)] *)
Module User.
Record row : Type := {
  id : Z;
  username : Sql.value;
  password : Sql.value
}.
End User.

(** [notes (id INTEGER PRIMARY KEY, title TEXT NOT NULL, content TEXT NOT NULL,
    created_at DATETIME NOT NULL, updated_at DATETIME NOT NULL,
    deleted_at DATETIME, is_hidden BOOLEAN NOT NULL, user_id INTEGER)].
    DATETIME and BOOLEAN columns have NUMERIC affinity. *)
Module Note.
Record row : Type := {
  id : Z;
  title : Sql.value;
  content : Sql.value;
  created_at : Sql.value;
  updated_at : Sql.value;
  deleted_at : Sql.value;
  is_hidden : Sql.value;
  user_id : Sql.value
}.

Definition with_title (v : Sql.value) (r : row) : row :=
  {| id := id r; title := v; content := content r; created_at := created_at r;
     updated_at := updated_at r; deleted_at := deleted_at r;
     is_hidden := is_hidden r; user_id := user_id r |}.

Definition with_content (v : Sql.value) (r : row) : row :=
  {| id := id r; title := title r; content := v; created_at := created_at r;
     updated_at := updated_at r; deleted_at := deleted_at r;
     is_hidden := is_hidden r; user_id := user_id r |}.

Definition with_updated_at (v : Sql.value) (r : row) : row :=
  {| id := id r; title := title r; content := content r; created_at := created_at r;
     updated_at := v; deleted_at := deleted_at r;
     is_hidden := is_hidden r; user_id := user_id r |}.

Definition with_deleted_at (v : Sql.value) (r : row) : row :=
  {| id := id r; title := title r; content := content r; created_at := created_at r;
     updated_at := updated_at r; deleted_at := v;
     is_hidden := is_hidden r; user_id := user_id r |}.

Definition with_is_hidden (v : Sql.value) (r : row) : row :=
  {| id := id r; title := title r; content := content r; created_at := created_at r;
     updated_at := updated_at r; deleted_at := deleted_at r;
     is_hidden := v; user_id := user_id r |}.

(** The left-hand sides that the handlers put in a SET clause. *)
Inductive assignment : Type :=
| set_title        (* 'title = ?' *)
| set_content      (* 'content = ?' *)
| set_is_hidden    (* 'is_hidden = ?' *)
| set_updated_at   (* 'updated_at = ?' *)
| set_deleted_at.  (* 'deleted_at = ?' *)
End Note.

Record database : Type := {
  users : list User.row;
  notes : list Note.row
}.

(** ** The statements of [src/index.js] *)

Section Statements.
Context {E : Engine}.

(** [INSERT INTO users (username) VALUES (?)]; the result is [this.lastID]
    and the new table. *)
Definition insert_user (ps : list Sql.value) (rows : list User.row)
  : result (Z * list User.row) :=
  if (1 <? List.length ps)%nat then inl Range
  else
    let u := apply_affinity TEXT (parameter ps 0) in
    if existsb (fun r => eqb (User.username r) u) rows
    then inl (UniqueFailed "users.username")
    else
      match auto_rowid (map User.id rows) with
      | None => inl Full
      | Some i =>
          inr (i, insert_by User.id
                    {| User.id := i; User.username := u; User.password := SNull |}
                    rows)
      end.

(** [SELECT * FROM users WHERE username = ?], first row ([db.get]). *)
Definition select_user_by_username (ps : list Sql.value) (rows : list User.row)
  : result (option User.row) :=
  if (1 <? List.length ps)%nat then inl Range
  else inr (find (fun r => column_eqb TEXT (User.username r) (parameter ps 0)) rows).

(** [SELECT * FROM users WHERE id = ?], first row. *)
Definition select_user_by_id (ps : list Sql.value) (rows : list User.row)
  : result (option User.row) :=
  if (1 <? List.length ps)%nat then inl Range
  else
    inr (find (fun r => column_eqb INTEGER (SNum (Int (User.id r))) (parameter ps 0))
              rows).

(** [WHERE user_id = ? AND deleted_at IS NULL] *)
Definition owned_and_live (owner : Sql.value) (r : Note.row) : bool :=
  column_eqb INTEGER (Note.user_id r) owner && is_null (Note.deleted_at r).

(** [SELECT * FROM notes WHERE user_id = ? AND deleted_at IS NULL] ([db.all]) *)
Definition select_visible_notes (ps : list Sql.value) (rows : list Note.row)
  : result (list Note.row) :=
  if (1 <? List.length ps)%nat then inl Range
  else inr (filter (owned_and_live (parameter ps 0)) rows).

(** A NOT NULL column refuses NULL. *)
Definition not_null (column : string) (v : Sql.value) : option error :=
  if is_null v then Some (NotNullFailed column) else None.

Fixpoint first_error (checks : list (option error)) : option error :=
  match checks with
  | [] => None
  | Some e :: _ => Some e
  | None :: rest => first_error rest
  end.

(** [INSERT INTO notes (id, title, content, created_at, updated_at, is_hidden,
    user_id) VALUES (?, ?, ?, ?, ?, ?, ?)]; [deleted_at] is NULL in the new
    row.  The result is [this.lastID] and the new table. *)
Definition insert_note (ps : list Sql.value) (rows : list Note.row)
  : result (Z * list Note.row) :=
  if (7 <? List.length ps)%nat then inl Range
  else
    let r i := {|
      Note.id := i;
      Note.title := apply_affinity TEXT (parameter ps 1);
      Note.content := apply_affinity TEXT (parameter ps 2);
      Note.created_at := apply_affinity NUMERIC (parameter ps 3);
      Note.updated_at := apply_affinity NUMERIC (parameter ps 4);
      Note.deleted_at := SNull;
      Note.is_hidden := apply_affinity NUMERIC (parameter ps 5);
      Note.user_id := apply_affinity INTEGER (parameter ps 6) |} in
    match rowid_of (parameter ps 0) with
    | inl e => inl e
    | inr key =>
        match first_error [ not_null "notes.title" (Note.title (r 0));
                            not_null "notes.content" (Note.content (r 0));
                            not_null "notes.created_at" (Note.created_at (r 0));
                            not_null "notes.updated_at" (Note.updated_at (r 0));
                            not_null "notes.is_hidden" (Note.is_hidden (r 0)) ] with
        | Some e => inl e
        | None =>
            match key with
            | Some i =>
                if mem i (map Note.id rows) then inl (UniqueFailed "notes.id")
                else inr (i, insert_by Note.id (r i) rows)
            | None =>
                match auto_rowid (map Note.id rows) with
                | Some i => inr (i, insert_by Note.id (r i) rows)
                | None => inl Full
                end
            end
        end
    end.

(** One [column = ?] of a SET clause, applied to a row. *)
Definition assign (a : Note.assignment) (v : Sql.value) (r : Note.row) : Note.row :=
  match a with
  | Note.set_title => Note.with_title (apply_affinity TEXT v) r
  | Note.set_content => Note.with_content (apply_affinity TEXT v) r
  | Note.set_is_hidden => Note.with_is_hidden (apply_affinity NUMERIC v) r
  | Note.set_updated_at => Note.with_updated_at (apply_affinity NUMERIC v) r
  | Note.set_deleted_at => Note.with_deleted_at (apply_affinity NUMERIC v) r
  end.

Definition assign_check (a : Note.assignment) (v : Sql.value) : option error :=
  match a with
  | Note.set_title => not_null "notes.title" (apply_affinity TEXT v)
  | Note.set_content => not_null "notes.content" (apply_affinity TEXT v)
  | Note.set_is_hidden => not_null "notes.is_hidden" (apply_affinity NUMERIC v)
  | Note.set_updated_at => not_null "notes.updated_at" (apply_affinity NUMERIC v)
  | Note.set_deleted_at => None
  end.

Definition assign_all (sets : list (Note.assignment * Sql.value)) (r : Note.row)
  : Note.row :=
  fold_left (fun r' s => assign (fst s) (snd s) r') sets r.

(** [UPDATE notes SET ... WHERE ...]: the rows that satisfy [matching] are
    rewritten; a constraint violated in one of them aborts the statement.  The
    result is [this.changes] and the new table. *)
Definition update_notes (sets : list (Note.assignment * Sql.value))
  (matching : Note.row -> bool) (rows : list Note.row) : result (Z * list Note.row) :=
  match filter matching rows with
  | [] => inr (0, rows)
  | hit =>
      match first_error (map (fun s => assign_check (fst s) (snd s)) sets) with
      | Some e => inl e
      | None =>
          inr (Z.of_nat (List.length hit),
               map (fun r => if matching r then assign_all sets r else r) rows)
      end
  end.

(** [WHERE id = ? AND user_id = ? AND deleted_at IS NULL] *)
Definition where_live (key owner : Sql.value) (r : Note.row) : bool :=
  column_eqb INTEGER (SNum (Int (Note.id r))) key
  && column_eqb INTEGER (Note.user_id r) owner
  && is_null (Note.deleted_at r).

(** [WHERE id = ? AND user_id = ?] *)
Definition where_owned (key owner : Sql.value) (r : Note.row) : bool :=
  column_eqb INTEGER (SNum (Int (Note.id r))) key
  && column_eqb INTEGER (Note.user_id r) owner.

(** [UPDATE notes SET ${fields.join(', ')} WHERE id = ? AND user_id = ? AND
    deleted_at IS NULL]: one parameter for each field, then the two of the
    WHERE clause. *)
Definition update_live_note (fields : list Note.assignment) (ps : list Sql.value)
  (rows : list Note.row) : result (Z * list Note.row) :=
  let k := List.length fields in
  if (k + 2 <? List.length ps)%nat then inl Range
  else
    update_notes (combine fields (map (parameter ps) (seq 0 k)))
                 (where_live (parameter ps k) (parameter ps (k + 1)))
                 rows.

(** [UPDATE notes SET deleted_at = ? WHERE id = ? AND user_id = ?] *)
Definition mark_note_deleted (ps : list Sql.value) (rows : list Note.row)
  : result (Z * list Note.row) :=
  if (3 <? List.length ps)%nat then inl Range
  else
    update_notes [(Note.set_deleted_at, parameter ps 0)]
                 (where_owned (parameter ps 1) (parameter ps 2))
                 rows.

End Statements.

(** ** Requests, responses and the clock *)

Module Req.
(** The properties that the handlers read from [req.body]; a property that
    the JSON body does not have is [Undefined]. *)
Record body : Type := {
  username : JS.value;
  id : JS.value;
  title : JS.value;
  content : JS.value;
  is_hidden : JS.value;
  createdAt : JS.value
}.

Record t : Type := {
  x_user_id : option string;   (* req.headers['x-user-id'] *)
  params_id : string;          (* req.params.id *)
  json : body                  (* req.body *)
}.

Definition header (r : t) : JS.value :=
  match x_user_id r with
  | Some s => Str s
  | None => Undefined
  end.
End Req.

Module Res.
Record note : Type := {
  id : JS.value;
  title : JS.value;
  content : JS.value;
  created_at : JS.value;
  updated_at : JS.value;
  is_hidden : JS.value;
  user_id : JS.value
}.

Inductive json : Type :=
| error (msg : string)                          (* { error: msg } *)
| message (msg : string)                        (* { message: msg } *)
| user_created (id username : JS.value)         (* { id, username } *)
| user_row (row : option User.row)              (* the selected row *)
| user_found (row : User.row)                   (* { status: 'ok', user: row } *)
| user_not_found                                (* { status: 'not found' } *)
| note_rows (rows : list Note.row)              (* the selected rows *)
| note_created (n : note).

Record t : Type := {
  status : Z;
  body : json
}.
End Res.

(** What [Date.now()] and [new Date().toISOString()] return while a request
    is handled. *)
Record clock : Type := {
  now_ms : Z;
  now_iso : string
}.

(** ** The handlers *)

Section Handlers.
Context {E : Engine}.

Definition handler : Type := Req.t -> clock -> database -> Res.t * database.

Definition respond (status : Z) (body : Res.json) (db : database)
  : Res.t * database :=
  ({| Res.status := status; Res.body := body |}, db).

Definition with_users (db : database) (rows : list User.row) : database :=
  {| users := rows; notes := notes db |}.

Definition with_notes (db : database) (rows : list Note.row) : database :=
  {| users := users db; notes := rows |}.

(** [this.lastID] is a JavaScript number. *)
Definition lastID (rowid : Z) : JS.value := Number (to_number rowid).

Definition userFromHeader (next : JS.value -> handler) : handler :=
  fun req c db =>
    let userId := Req.header req in
    if negb (truthy userId) then
      respond 400 (Res.error "User ID header is required.") db
    else
      match userId with
      | Str s => next (parseInt s) req c db
      | _ => next NaN req c db   (* not reached: a truthy header is a string *)
      end.

(** [app.post('/users')] *)
Definition post_users : handler :=
  fun req c db =>
    let username := Req.username (Req.json req) in
    if negb (truthy username) then
      respond 400 (Res.error "Username is required.") db
    else
      match insert_user [bind username] (users db) with
      | inl err =>
          if includes (Sql.message err) "UNIQUE constraint failed" then
            match select_user_by_username [bind username] (users db) with
            | inl err' => respond 500 (Res.error (Sql.message err')) db
            | inr row => respond 200 (Res.user_row row) db
            end
          else respond 500 (Res.error (Sql.message err)) db
      | inr (rowid, rows) =>
          respond 201 (Res.user_created (lastID rowid) username) (with_users db rows)
      end.

(** [app.get('/users/:id')] *)
Definition get_user : handler :=
  fun req c db =>
    let id := Str (Req.params_id req) in
    match select_user_by_id [bind id] (users db) with
    | inl err => respond 500 (Res.error (Sql.message err)) db
    | inr (Some row) => respond 200 (Res.user_found row) db
    | inr None => respond 404 Res.user_not_found db
    end.

(** [app.get('/notes')], after [userFromHeader] *)
Definition get_notes (userId : JS.value) : handler :=
  fun req c db =>
    match select_visible_notes [bind userId] (notes db) with
    | inl err => respond 500 (Res.error (Sql.message err)) db
    | inr rows => respond 200 (Res.note_rows rows) db
    end.

(** [app.post('/notes')], after [userFromHeader] *)
Definition post_notes (userId : JS.value) : handler :=
  fun req c db =>
    let id := or_default (Req.id (Req.json req)) (Number (to_number (now_ms c))) in
    let title := Req.title (Req.json req) in
    let content := Req.content (Req.json req) in
    let is_hidden := or_default (Req.is_hidden (Req.json req)) (Boolean false) in
    let createdAt := or_default (Req.createdAt (Req.json req)) (Str (now_iso c)) in
    if negb (truthy title) || negb (truthy content) then
      respond 400 (Res.error "Title and content are required.") db
    else
      let params := [id; title; content; createdAt; createdAt; is_hidden; userId] in
      match insert_note (map bind params) (notes db) with
      | inl err => respond 500 (Res.error (Sql.message err)) db
      | inr (rowid, rows) =>
          respond 201
            (Res.note_created
               {| Res.id := lastID rowid;
                  Res.title := title;
                  Res.content := content;
                  Res.created_at := createdAt;
                  Res.updated_at := createdAt;
                  Res.is_hidden := is_hidden;
                  Res.user_id := userId |})
            (with_notes db rows)
      end.

(** [fields.push(f); params.push(p)] when [v !== undefined] *)
Definition push_if_defined (v : JS.value) (f : Note.assignment)
  (acc : list Note.assignment * list JS.value)
  : list Note.assignment * list JS.value :=
  if negb (is_undefined v) then ((fst acc ++ [f])%list, (snd acc ++ [v])%list) else acc.

(** [app.patch('/notes/:id')], after [userFromHeader] *)
Definition patch_note (userId : JS.value) : handler :=
  fun req c db =>
    let id := Str (Req.params_id req) in
    let title := Req.title (Req.json req) in
    let content := Req.content (Req.json req) in
    let is_hidden := Req.is_hidden (Req.json req) in
    let updatedAt := Str (now_iso c) in
    if is_undefined title && is_undefined content && is_undefined is_hidden then
      respond 400
        (Res.error "At least one field (title, content, is_hidden) must be provided.")
        db
    else
      let acc := ([], []) in
      let acc := push_if_defined title Note.set_title acc in
      let acc := push_if_defined content Note.set_content acc in
      let acc := push_if_defined is_hidden Note.set_is_hidden acc in
      let fields := (fst acc ++ [Note.set_updated_at])%list in
      let params := (snd acc ++ [updatedAt])%list in
      let params := (params ++ [id; userId])%list in
      match update_live_note fields (map bind params) (notes db) with
      | inl err => respond 500 (Res.error (Sql.message err)) db
      | inr (changes, rows) =>
          if Z.eqb changes 0 then
            respond 404
              (Res.error "Note not found or you do not have permission to edit it.")
              (with_notes db rows)
          else
            respond 200 (Res.message "Note updated successfully.") (with_notes db rows)
      end.

(** [app.delete('/notes/:id')], after [userFromHeader] *)
Definition delete_note (userId : JS.value) : handler :=
  fun req c db =>
    let id := Str (Req.params_id req) in
    let deletedAt := Str (now_iso c) in
    match mark_note_deleted (map bind [deletedAt; id; userId]) (notes db) with
    | inl err => respond 500 (Res.error (Sql.message err)) db
    | inr (changes, rows) =>
        if Z.eqb changes 0 then
          respond 404
            (Res.error "Note not found or you do not have permission to delete it.")
            (with_notes db rows)
        else
          respond 200 (Res.message "Note deleted successfully.") (with_notes db rows)
    end.

(** The same request handled once at each of the given times. *)
Fixpoint repeatedly (h : handler) (req : Req.t) (cs : list clock) (db : database)
  : list Res.t * database :=
  match cs with
  | [] => ([], db)
  | c :: cs' =>
      let '(res, db') := h req c db in
      let '(rs, db'') := repeatedly h req cs' db' in
      (res :: rs, db'')
  end.

(** The routes of the application. *)
Inductive route : Type :=
| POST_users
| GET_users_id
| GET_notes
| POST_notes
| PATCH_notes_id
| DELETE_notes_id.

Definition app (r : route) : handler :=
  match r with
  | POST_users => post_users
  | GET_users_id => get_user
  | GET_notes => userFromHeader get_notes
  | POST_notes => userFromHeader post_notes
  | PATCH_notes_id => userFromHeader patch_note
  | DELETE_notes_id => userFromHeader delete_note
  end.

(** Requests served one after the other, as the single serialized
    connection runs their statements. *)
Fixpoint serve (requests : list (route * Req.t * clock)) (db : database)
  : list Res.t * database :=
  match requests with
  | [] => ([], db)
  | (r, req, c) :: rest =>
      let '(res, db') := app r req c db in
      let '(rs, db'') := serve rest db' in
      (res :: rs, db'')
  end.

End Handlers.


(** ** Vocabulary of the statements below *)

Section Vocabulary.
Context {E : Engine}.

(** The SET clause that [patch_note] assembles in [fields] and [params]. *)
Definition patch_sets (title content is_hidden : JS.value) (updatedAt : string)
  : list (Note.assignment * Sql.value) :=
  ((if is_undefined title then [] else [(Note.set_title, bind title)])
   ++ (if is_undefined content then [] else [(Note.set_content, bind content)])
   ++ (if is_undefined is_hidden then [] else [(Note.set_is_hidden, bind is_hidden)])
   ++ [(Note.set_updated_at, SText updatedAt)])%list.

(** The value that a DATETIME column holds for the time of a request. *)
Definition stamp (c : clock) : Sql.value :=
  apply_affinity NUMERIC (SText (now_iso c)).

(** The row with a given id, if any. *)
Definition find_note (i : Z) (rows : list Note.row) : option Note.row :=
  find (fun r => Z.eqb (Note.id r) i) rows.

(** The rows in the answer of GET /notes. *)
Definition listed (res : Res.t) : list Note.row :=
  match Res.body res with
  | Res.note_rows rows => rows
  | _ => []
  end.

(** The row that a successful POST /notes stores, given the answer. *)
Definition stored (rowid : Z) (n : Res.note) : Note.row :=
  {| Note.id := rowid;
     Note.title := apply_affinity TEXT (bind (Res.title n));
     Note.content := apply_affinity TEXT (bind (Res.content n));
     Note.created_at := apply_affinity NUMERIC (bind (Res.created_at n));
     Note.updated_at := apply_affinity NUMERIC (bind (Res.updated_at n));
     Note.deleted_at := SNull;
     Note.is_hidden := apply_affinity NUMERIC (bind (Res.is_hidden n));
     Note.user_id := apply_affinity INTEGER (bind (Res.user_id n)) |}.

(** Every row that can be found by its id can still be found, with the
    created_at it had. *)
Definition created_at_kept (rows rows' : list Note.row) : Prop :=
  forall i r,
    find_note i rows = Some r ->
    exists r', find_note i rows' = Some r' /\ Note.created_at r' = Note.created_at r.

(** The user id that an answer of POST /users carries: the [id] property of
    the body, a row's INTEGER read back as a JavaScript number. *)
Definition returned_user_id (res : Res.t) : option JS.value :=
  match Res.body res with
  | Res.user_created id _ => Some id
  | Res.user_row (Some row) => Some (lastID (User.id row))
  | _ => None
  end.

(** The row of a user registered under rowid [i]. *)
Definition registered (i : Z) (name : string) : User.row :=
  {| User.id := i; User.username := SText name; User.password := SNull |}.

(** The keys of the schema hold: no two notes share an id, no two users share
    an id, and no two users share a username that is not NULL. *)
Definition keys_intact (db : database) : Prop :=
  NoDup (map Note.id (notes db)) /\
  NoDup (map User.id (users db)) /\
  NoDup (filter (fun v => negb (is_null v)) (map User.username (users db))).

(** Every row that can be found by its id can still be found, with the owner
    it had, and deleted if it was. *)
Definition owner_and_deletion_kept (rows rows' : list Note.row) : Prop :=
  forall i r,
    find_note i rows = Some r ->
    exists r',
      find_note i rows' = Some r' /\
      Note.user_id r' = Note.user_id r /\
      (Note.deleted_at r <> SNull -> Note.deleted_at r' <> SNull).

(** White space only. *)
Fixpoint all_white_space (s : string) : bool :=
  match s with
  | String ch r => is_white_space ch && all_white_space r
  | EmptyString => true
  end.

End Vocabulary.

(** ** An engine for running examples

    Decimal integer literals are numeric and are keys; the fallback rowid
    search finds nothing. *)

Module Sample.

Definition decimal_of_text (s : string) : option num :=
  match s with
  | EmptyString => None
  | String "-" (String c r) =>
      if all_digits (String c r) then Some (Int (- digits_value 0 (String c r)))
      else None
  | _ => if all_digits s then Some (Int (digits_value 0 s)) else None
  end.

Definition text_of_decimal (n : num) : string :=
  match n with
  | Int z => DecimalString.NilZero.string_of_int (Z.to_int z)
  | Infinity false => "Inf"
  | Infinity true => "-Inf"
  end.

#[export] Instance engine : Engine := {|
  numeric_of_text := decimal_of_text;
  key_of_text := fun s =>
    match decimal_of_text s with
    | Some (Int z) => Some z
    | _ => None
    end;
  text_of_numeric := text_of_decimal;
  random_rowid := fun _ => None
|}.

Definition empty : database := {| users := []; notes := [] |}.

Definition no_body : Req.body := {|
  Req.username := Undefined; Req.id := Undefined; Req.title := Undefined;
  Req.content := Undefined; Req.is_hidden := Undefined; Req.createdAt := Undefined |}.

Definition request (header : option string) (id : string) (b : Req.body) : Req.t :=
  {| Req.x_user_id := header; Req.params_id := id; Req.json := b |}.

Definition at_time (ms : Z) (iso : string) : clock :=
  {| now_ms := ms; now_iso := iso |}.

(** Two users with one live note each, created at [t0]. *)
Definition t0 : clock := at_time 1700000000000 "2023-11-14T22:13:20.000Z".
Definition t1 : clock := at_time 1700000060000 "2023-11-14T22:14:20.000Z".
Definition t2 : clock := at_time 1700000120000 "2023-11-14T22:15:20.000Z".

Definition note_of (i owner : Z) (deleted_at : Sql.value) : Note.row :=
  {| Note.id := i;
     Note.title := SText "T";
     Note.content := SText "C";
     Note.created_at := SText "2023-11-14T22:13:20.000Z";
     Note.updated_at := SText "2023-11-14T22:13:20.000Z";
     Note.deleted_at := deleted_at;
     Note.is_hidden := SNum (Int 0);
     Note.user_id := SNum (Int owner) |}.

Definition db0 : database :=
  {| users := [registered 1 "alice"; registered 2 "bob"];
     notes := [note_of 1 1 SNull; note_of 2 2 SNull] |}.

(** The same, with the first note soft-deleted at [t1]. *)
Definition db1 : database :=
  {| users := users db0;
     notes := [note_of 1 1 (SText "2023-11-14T22:14:20.000Z"); note_of 2 2 SNull] |}.

Definition body_username (v : JS.value) : Req.body := {|
  Req.username := v; Req.id := Undefined; Req.title := Undefined;
  Req.content := Undefined; Req.is_hidden := Undefined; Req.createdAt := Undefined |}.

Definition body_title (v : JS.value) : Req.body := {|
  Req.username := Undefined; Req.id := Undefined; Req.title := v;
  Req.content := Undefined; Req.is_hidden := Undefined; Req.createdAt := Undefined |}.

Definition body_content (v : JS.value) : Req.body := {|
  Req.username := Undefined; Req.id := Undefined; Req.title := Undefined;
  Req.content := v; Req.is_hidden := Undefined; Req.createdAt := Undefined |}.

Definition new_note (title content : string) : Req.body := {|
  Req.username := Undefined; Req.id := Undefined; Req.title := Str title;
  Req.content := Str content; Req.is_hidden := Undefined;
  Req.createdAt := Undefined |}.

(** A note that was created under a header without digits: its user_id is
    NULL. *)
Definition stray : Note.row :=
  {| Note.id := 3;
     Note.title := SText "T";
     Note.content := SText "C";
     Note.created_at := SText "2023-11-14T22:13:20.000Z";
     Note.updated_at := SText "2023-11-14T22:13:20.000Z";
     Note.deleted_at := SNull;
     Note.is_hidden := SNum (Int 0);
     Note.user_id := SNull |}.

Definition db2 : database :=
  {| users := users db0; notes := (notes db0 ++ [stray])%list |}.

(** A live note of user 1 whose is_hidden is true, as the engine stores it. *)
Definition hidden : Note.row :=
  {| Note.id := 4;
     Note.title := SText "T";
     Note.content := SText "C";
     Note.created_at := SText "2023-11-14T22:13:20.000Z";
     Note.updated_at := SText "2023-11-14T22:13:20.000Z";
     Note.deleted_at := SNull;
     Note.is_hidden := SNum (Int 1);
     Note.user_id := SNum (Int 1) |}.

Definition db3 : database :=
  {| users := users db0; notes := (notes db0 ++ [hidden])%list |}.

(** A note whose id is the least rowid. *)
Definition least : Note.row :=
  {| Note.id := - 2 ^ 63;
     Note.title := SText "T";
     Note.content := SText "C";
     Note.created_at := SText "2023-11-14T22:13:20.000Z";
     Note.updated_at := SText "2023-11-14T22:13:20.000Z";
     Note.deleted_at := SNull;
     Note.is_hidden := SNum (Int 0);
     Note.user_id := SNum (Int 1) |}.

Definition db4 : database :=
  {| users := users db0; notes := (least :: notes db0)%list |}.

Definition with_id (v : JS.value) (b : Req.body) : Req.body := {|
  Req.username := Req.username b; Req.id := v; Req.title := Req.title b;
  Req.content := Req.content b; Req.is_hidden := Req.is_hidden b;
  Req.createdAt := Req.createdAt b |}.

Definition with_flag (v : JS.value) (b : Req.body) : Req.body := {|
  Req.username := Req.username b; Req.id := Req.id b; Req.title := Req.title b;
  Req.content := Req.content b; Req.is_hidden := v;
  Req.createdAt := Req.createdAt b |}.

End Sample.

(** * Properties *)

Section Properties.
Context {E : Engine}.

(** ** Lists and the UPDATE statement *)

Lemma filter_nil_iff {A : Type} (p : A -> bool) (l : list A) :
  filter p l = [] <-> forall x, In x l -> p x = false.
Proof.
  induction l as [|a l IH]; simpl.
  - split; [intros _ x [] | reflexivity].
  - destruct (p a) eqn:Pa.
    + split; [discriminate |].
      intros H. rewrite (H a) in Pa by (now left). discriminate.
    + rewrite IH. split.
      * intros H x [<- | Hx]; auto.
      * intros H x Hx. apply H. now right.
Qed.

Lemma map_unless_hit {A : Type} (p : A -> bool) (g : A -> A) (l : list A) :
  (forall x, In x l -> p x = false) ->
  map (fun r => if p r then g r else r) l = l.
Proof.
  induction l as [|a l IH]; simpl; intros H; [reflexivity |].
  rewrite (H a) by (now left). f_equal. apply IH. intros x Hx. apply H. now right.
Qed.

Lemma update_notes_inv sets matching rows n rows' :
  update_notes sets matching rows = inr (n, rows') ->
  n = Z.of_nat (List.length (filter matching rows)) /\
  rows' = map (fun r => if matching r then assign_all sets r else r) rows.
Proof.
  unfold update_notes. destruct (filter matching rows) as [|h t] eqn:F.
  - intros H. injection H as <- <-. split; [reflexivity |].
    symmetry. apply map_unless_hit. now apply filter_nil_iff.
  - destruct (first_error _); [discriminate |].
    intros H. injection H as <- <-. split; reflexivity.
Qed.

Lemma update_notes_miss sets matching rows :
  (forall r, In r rows -> matching r = false) ->
  update_notes sets matching rows = inr (0, rows).
Proof.
  intros H. unfold update_notes.
  now rewrite (proj2 (filter_nil_iff matching rows) H).
Qed.

Lemma update_notes_changes_zero sets matching rows rows' :
  update_notes sets matching rows = inr (0, rows') ->
  rows' = rows /\ forall r, In r rows -> matching r = false.
Proof.
  intros H. destruct (update_notes_inv _ _ _ _ _ H) as [Hn ->].
  assert (F : filter matching rows = []).
  { destruct (filter matching rows); [reflexivity | simpl in Hn; lia]. }
  split; [apply map_unless_hit |]; now apply filter_nil_iff.
Qed.

Lemma with_notes_same (db : database) : with_notes db (notes db) = db.
Proof. now destruct db. Qed.

(** ** Update without fields *)

(** C6: a PATCH whose body has none of [title], [content], [is_hidden] is
    answered 400 whatever the user id, the note id and the tables are, and
    the database is returned as it was; no statement is run. *)
Theorem patch_without_fields_rejected (userId : JS.value) (req : Req.t)
  (c : clock) (db : database) :
  Req.title (Req.json req) = Undefined ->
  Req.content (Req.json req) = Undefined ->
  Req.is_hidden (Req.json req) = Undefined ->
  patch_note userId req c db =
  respond 400
    (Res.error "At least one field (title, content, is_hidden) must be provided.")
    db.
Proof.
  intros Ht Hc Hh. unfold patch_note. now rewrite Ht, Hc, Hh.
Qed.

(** ** What PATCH runs *)

Lemma patch_note_statement (userId : JS.value) (req : Req.t) (c : clock)
  (db : database) :
  is_undefined (Req.title (Req.json req))
  && is_undefined (Req.content (Req.json req))
  && is_undefined (Req.is_hidden (Req.json req)) = false ->
  patch_note userId req c db =
  match update_notes
          (patch_sets (Req.title (Req.json req)) (Req.content (Req.json req))
                      (Req.is_hidden (Req.json req)) (now_iso c))
          (where_live (SText (Req.params_id req)) (bind userId))
          (notes db) with
  | inl err => respond 500 (Res.error (Sql.message err)) db
  | inr (changes, rows) =>
      if Z.eqb changes 0 then
        respond 404
          (Res.error "Note not found or you do not have permission to edit it.")
          (with_notes db rows)
      else
        respond 200 (Res.message "Note updated successfully.") (with_notes db rows)
  end.
Proof.
  intros Hdef. unfold patch_note. rewrite Hdef.
  unfold patch_sets, push_if_defined, update_live_note.
  destruct (is_undefined (Req.title (Req.json req)));
    destruct (is_undefined (Req.content (Req.json req)));
    destruct (is_undefined (Req.is_hidden (Req.json req)));
    reflexivity.
Qed.

Lemma where_live_true (key owner : Sql.value) (r : Note.row) :
  where_live key owner r = true <->
  column_eqb INTEGER (SNum (Int (Note.id r))) key = true /\
  column_eqb INTEGER (Note.user_id r) owner = true /\
  Note.deleted_at r = SNull.
Proof.
  unfold where_live. rewrite !andb_true_iff.
  destruct (Note.deleted_at r); simpl; intuition congruence.
Qed.

Lemma Forall2_same {A : Type} (R : A -> A -> Prop) (l : list A) :
  (forall x, R x x) -> Forall2 R l l.
Proof. intros H. induction l; constructor; auto. Qed.

Lemma Forall2_map_hit {A : Type} (p : A -> bool) (g : A -> A) (R : A -> A -> Prop)
  (l : list A) :
  (forall x, p x = true -> R x (g x)) ->
  (forall x, p x = false -> R x x) ->
  Forall2 R l (map (fun r => if p r then g r else r) l).
Proof.
  intros Hhit Hmiss. induction l as [|a l IH]; simpl; constructor; auto.
  destruct (p a) eqn:Pa; auto.
Qed.

(** ** Update is scoped to the caller's live note *)

(** C1: for every resolved user id, note id and patch with at least one
    field, PATCH leaves the users alone and rewrites a note row only if the
    row's id equals the note id, its user_id equals the user id and its
    deleted_at is NULL; when no row satisfies the three conditions the answer
    is the one 404 and the database is unchanged. *)
Theorem patch_alters_only_live_owned_rows (userId : JS.value) (req : Req.t)
  (c : clock) (db : database) :
  is_undefined (Req.title (Req.json req))
  && is_undefined (Req.content (Req.json req))
  && is_undefined (Req.is_hidden (Req.json req)) = false ->
  let scoped (r : Note.row) :=
    column_eqb INTEGER (SNum (Int (Note.id r))) (SText (Req.params_id req)) = true /\
    column_eqb INTEGER (Note.user_id r) (bind userId) = true /\
    Note.deleted_at r = SNull in
  let res := fst (patch_note userId req c db) in
  let db' := snd (patch_note userId req c db) in
  users db' = users db /\
  Forall2 (fun r r' => r' = r \/ scoped r) (notes db) (notes db') /\
  ((forall r, In r (notes db) -> ~ scoped r) ->
   res = {| Res.status := 404;
            Res.body := Res.error
              "Note not found or you do not have permission to edit it." |} /\
   db' = db).
Proof.
  intros Hdef scoped res db'. subst res db'.
  rewrite (patch_note_statement _ _ _ _ Hdef).
  set (sets := patch_sets _ _ _ _).
  set (m := where_live _ _).
  assert (Hm : forall r, m r = true <-> scoped r) by (intro r; apply where_live_true).
  destruct (update_notes sets m (notes db)) as [err | [n rows]] eqn:U.
  - simpl. split; [reflexivity |]. split.
    + apply Forall2_same. now left.
    + intros Hnone. rewrite update_notes_miss in U; [discriminate |].
      intros r Hr. destruct (m r) eqn:Mr; [| reflexivity].
      exfalso. apply (Hnone r Hr). now apply Hm.
  - destruct (update_notes_inv _ _ _ _ _ U) as [Hn Hrows].
    assert (Hshape : Forall2 (fun r r' => r' = r \/ scoped r) (notes db) rows).
    { rewrite Hrows. apply Forall2_map_hit.
      - intros x Hx. right. now apply Hm.
      - intros x _. now left. }
    assert (Hnone : (forall r, In r (notes db) -> ~ scoped r) ->
                    n = 0 /\ rows = notes db).
    { intros Hnot.
      assert (Hmiss : forall r, In r (notes db) -> m r = false).
      { intros r Hr. destruct (m r) eqn:Mr; [| reflexivity].
        exfalso. apply (Hnot r Hr). now apply Hm. }
      rewrite (update_notes_miss _ _ _ Hmiss) in U. injection U as <- <-. auto. }
    destruct (Z.eqb n 0) eqn:N0; simpl; (split; [reflexivity |]); (split; [exact Hshape |]);
      intros Hnot; destruct (Hnone Hnot) as [-> ->].
    + split; [reflexivity | apply with_notes_same].
    + discriminate.
Qed.

(** ** Facts about values and rows *)

Lemma num_eqb_refl (n : num) : num_eqb n n = true.
Proof. destruct n as [z | b]; simpl; [apply Z.eqb_refl | now destruct b]. Qed.

Lemma num_eqb_eq (a b : num) : num_eqb a b = true <-> a = b.
Proof.
  destruct a as [x | s], b as [y | t]; simpl; split; try discriminate.
  - intros H. apply Z.eqb_eq in H. now subst.
  - intros H. injection H as ->. apply Z.eqb_refl.
  - intros H. apply Bool.eqb_prop in H. now subst.
  - intros H. injection H as ->. now destruct t.
Qed.

Lemma owner_eqb (v : Sql.value) (U : num) :
  column_eqb INTEGER v (SNum U) = true <-> v = SNum U.
Proof.
  unfold column_eqb. simpl. destruct v as [| n | s]; simpl; split; try discriminate.
  - intros H. apply num_eqb_eq in H. now subst.
  - intros H. injection H as ->. apply num_eqb_refl.
Qed.

Lemma stamp_not_null (c : clock) : is_null (stamp c) = false.
Proof. unfold stamp. simpl. now destruct (numeric_of_text (now_iso c)). Qed.

Lemma stamp_neq_null (c : clock) : stamp c <> SNull.
Proof. intros H. pose proof (stamp_not_null c) as N. now rewrite H in N. Qed.

Lemma update_notes_hit sets matching rows :
  (exists r, In r rows /\ matching r = true) ->
  first_error (map (fun s => assign_check (fst s) (snd s)) sets) = None ->
  exists n,
    n <> 0 /\
    update_notes sets matching rows =
    inr (n, map (fun r => if matching r then assign_all sets r else r) rows).
Proof.
  intros [r [Hr Mr]] Hchk. unfold update_notes.
  destruct (filter matching rows) as [|h t] eqn:F.
  - rewrite filter_nil_iff in F. rewrite (F r Hr) in Mr. discriminate.
  - rewrite Hchk. eexists. split; [| reflexivity]. simpl List.length. lia.
Qed.

(** ** Update checks presence, create checks content *)

Lemma patch_one_text_field (U : num) (req : Req.t) (c : clock) (db : database)
  (a : Note.assignment) (s : string) :
  patch_sets (Req.title (Req.json req)) (Req.content (Req.json req))
             (Req.is_hidden (Req.json req)) (now_iso c)
  = [(a, SText s); (Note.set_updated_at, SText (now_iso c))] ->
  a = Note.set_title \/ a = Note.set_content ->
  (exists r, In r (notes db) /\
             where_live (SText (Req.params_id req)) (SNum U) r = true) ->
  patch_note (Number U) req c db =
  respond 200 (Res.message "Note updated successfully.")
    (with_notes db
       (map (fun r => if where_live (SText (Req.params_id req)) (SNum U) r
                      then Note.with_updated_at (stamp c) (assign a (SText s) r)
                      else r)
            (notes db))).
Proof.
  intros Hsets Ha Hex.
  assert (Hdef : is_undefined (Req.title (Req.json req))
                 && is_undefined (Req.content (Req.json req))
                 && is_undefined (Req.is_hidden (Req.json req)) = false).
  { unfold patch_sets in Hsets.
    destruct (is_undefined (Req.title (Req.json req)));
      destruct (is_undefined (Req.content (Req.json req)));
      destruct (is_undefined (Req.is_hidden (Req.json req)));
      try reflexivity; discriminate. }
  rewrite (patch_note_statement _ _ _ _ Hdef), Hsets. simpl bind.
  destruct (update_notes_hit
              [(a, SText s); (Note.set_updated_at, SText (now_iso c))]
              _ _ Hex) as [n [Hn ->]].
  - destruct Ha as [-> | ->]; cbn [map fst snd assign_check];
      change (apply_affinity NUMERIC (SText (now_iso c))) with (stamp c);
      unfold not_null; rewrite stamp_not_null; reflexivity.
  - destruct (Z.eqb_spec n 0) as [-> | _]; [contradiction | reflexivity].
Qed.

(** C9: PATCH accepts an empty string.  For a live note of the caller, a
    patch that consists of [title: ""] (or of [content: ""]) is answered 200
    and the title (or the content) of the stored row then is the empty text,
    its updated_at the time of the request and every other column as it was,
    while POST /notes answers 400 to an empty title or content. *)
Theorem patch_stores_empty_text (U : num) (req : Req.t) (c : clock) (db : database)
  (note : Note.row) :
  In note (notes db) ->
  column_eqb INTEGER (SNum (Int (Note.id note))) (SText (Req.params_id req)) = true ->
  Note.user_id note = SNum U ->
  Note.deleted_at note = SNull ->
  let scoped := where_live (SText (Req.params_id req)) (SNum U) in
  let ok := Res.message "Note updated successfully." in
  (Req.title (Req.json req) = Str "" ->
   Req.content (Req.json req) = Undefined ->
   Req.is_hidden (Req.json req) = Undefined ->
   patch_note (Number U) req c db =
   respond 200 ok
     (with_notes db
        (map (fun r => if scoped r
                       then Note.with_updated_at (stamp c) (Note.with_title (SText "") r)
                       else r)
             (notes db))) /\
   In (Note.with_updated_at (stamp c) (Note.with_title (SText "") note))
      (notes (snd (patch_note (Number U) req c db))) /\
   Forall2
     (fun r r' =>
        if scoped r then
          Note.title r' = SText "" /\
          Note.updated_at r' = stamp c /\
          Note.id r' = Note.id r /\
          Note.content r' = Note.content r /\
          Note.created_at r' = Note.created_at r /\
          Note.deleted_at r' = Note.deleted_at r /\
          Note.is_hidden r' = Note.is_hidden r /\
          Note.user_id r' = Note.user_id r
        else r' = r)
     (notes db) (notes (snd (patch_note (Number U) req c db))) /\
   exists r',
     In r' (notes (snd (patch_note (Number U) req c db))) /\
     Note.id r' = Note.id note /\
     Note.title r' = SText "" /\
     Note.content r' = Note.content note) /\
  (Req.title (Req.json req) = Undefined ->
   Req.content (Req.json req) = Str "" ->
   Req.is_hidden (Req.json req) = Undefined ->
   patch_note (Number U) req c db =
   respond 200 ok
     (with_notes db
        (map (fun r => if scoped r
                       then Note.with_updated_at (stamp c) (Note.with_content (SText "") r)
                       else r)
             (notes db))) /\
   In (Note.with_updated_at (stamp c) (Note.with_content (SText "") note))
      (notes (snd (patch_note (Number U) req c db))) /\
   Forall2
     (fun r r' =>
        if scoped r then
          Note.content r' = SText "" /\
          Note.updated_at r' = stamp c /\
          Note.id r' = Note.id r /\
          Note.title r' = Note.title r /\
          Note.created_at r' = Note.created_at r /\
          Note.deleted_at r' = Note.deleted_at r /\
          Note.is_hidden r' = Note.is_hidden r /\
          Note.user_id r' = Note.user_id r
        else r' = r)
     (notes db) (notes (snd (patch_note (Number U) req c db))) /\
   exists r',
     In r' (notes (snd (patch_note (Number U) req c db))) /\
     Note.id r' = Note.id note /\
     Note.content r' = SText "" /\
     Note.title r' = Note.title note) /\
  (forall userId : JS.value,
     Req.title (Req.json req) = Str "" \/ Req.content (Req.json req) = Str "" ->
     post_notes userId req c db =
     respond 400 (Res.error "Title and content are required.") db).
Proof.
  intros Hin Hid Hown Hlive scoped ok.
  assert (Hsc : scoped note = true).
  { apply where_live_true. repeat split; auto. now apply owner_eqb. }
  assert (Hex : exists r, In r (notes db) /\ scoped r = true) by eauto.
  split; [| split].
  - intros Ht Hc Hh.
    assert (Eq := patch_one_text_field U req c db Note.set_title "").
    unfold patch_sets in Eq. rewrite Ht, Hc, Hh in Eq.
    specialize (Eq eq_refl (or_introl eq_refl) Hex).
    split; [exact Eq |]. rewrite Eq. unfold respond. cbn [snd with_notes notes].
    assert (Hthere : In (Note.with_updated_at (stamp c)
                           (assign Note.set_title (SText "") note))
                        (map (fun r => if scoped r
                                       then Note.with_updated_at (stamp c)
                                              (assign Note.set_title (SText "") r)
                                       else r) (notes db))).
    { apply in_map_iff. exists note. now rewrite Hsc. }
    split; [exact Hthere |]. split.
    + apply (Forall2_map_hit scoped); intros x Hx; cbv beta; rewrite Hx;
        [repeat split | reflexivity].
    + eexists. split; [exact Hthere |]. repeat split.
  - intros Ht Hc Hh.
    assert (Eq := patch_one_text_field U req c db Note.set_content "").
    unfold patch_sets in Eq. rewrite Ht, Hc, Hh in Eq.
    specialize (Eq eq_refl (or_intror eq_refl) Hex).
    split; [exact Eq |]. rewrite Eq. unfold respond. cbn [snd with_notes notes].
    assert (Hthere : In (Note.with_updated_at (stamp c)
                           (assign Note.set_content (SText "") note))
                        (map (fun r => if scoped r
                                       then Note.with_updated_at (stamp c)
                                              (assign Note.set_content (SText "") r)
                                       else r) (notes db))).
    { apply in_map_iff. exists note. now rewrite Hsc. }
    split; [exact Hthere |]. split.
    + apply (Forall2_map_hit scoped); intros x Hx; cbv beta; rewrite Hx;
        [repeat split | reflexivity].
    + eexists. split; [exact Hthere |]. repeat split.
  - intros userId [H | H]; unfold post_notes; rewrite H; simpl.
    + reflexivity.
    + now rewrite orb_true_r.
Qed.

(** ** What each handler does to the tables *)

Lemma fold_max_ge (l : list Z) (a : Z) :
  a <= fold_left Z.max l a /\ forall x, In x l -> x <= fold_left Z.max l a.
Proof.
  revert a. induction l as [|b l IH]; intros a; simpl.
  - split; [lia | intros x []].
  - destruct (IH (Z.max a b)) as [H1 H2]. split; [lia |].
    intros x [<- | Hx]; [lia | auto].
Qed.

Lemma mem_false (z : Z) (l : list Z) : mem z l = false <-> ~ In z l.
Proof.
  unfold mem. split.
  - intros H Hin. assert (T : existsb (Z.eqb z) l = true).
    { apply existsb_exists. exists z. split; [exact Hin | apply Z.eqb_refl]. }
    rewrite H in T. discriminate.
  - intros H. destruct (existsb (Z.eqb z) l) eqn:X; [| reflexivity].
    apply existsb_exists in X. destruct X as [x [Hx Ex]].
    apply Z.eqb_eq in Ex. subst. contradiction.
Qed.

Lemma auto_rowid_fresh (ids : list Z) (i : Z) :
  auto_rowid ids = Some i -> ~ In i ids.
Proof.
  unfold auto_rowid. destruct ids as [|a rest]; [intros _ [] |].
  destruct (fold_max_ge rest a) as [Ha Hrest].
  destruct (fold_left Z.max rest a <? max_rowid).
  - intros H. injection H as <-. intros [Hin | Hin]; [lia |].
    specialize (Hrest _ Hin). lia.
  - destruct (random_rowid (a :: rest)) as [z|]; [| discriminate].
    destruct (is_rowid z && negb (mem z (a :: rest))) eqn:C; [| discriminate].
    intros H. injection H as <-. apply andb_true_iff in C. destruct C as [_ C].
    apply negb_true_iff in C. now apply mem_false.
Qed.

Lemma insert_note_inv (ps : list Sql.value) (rows : list Note.row) (i : Z)
  (rows' : list Note.row) :
  insert_note ps rows = inr (i, rows') ->
  ~ In i (map Note.id rows) /\
  rows' =
  insert_by Note.id
    {| Note.id := i;
       Note.title := apply_affinity TEXT (parameter ps 1);
       Note.content := apply_affinity TEXT (parameter ps 2);
       Note.created_at := apply_affinity NUMERIC (parameter ps 3);
       Note.updated_at := apply_affinity NUMERIC (parameter ps 4);
       Note.deleted_at := SNull;
       Note.is_hidden := apply_affinity NUMERIC (parameter ps 5);
       Note.user_id := apply_affinity INTEGER (parameter ps 6) |}
    rows.
Proof.
  unfold insert_note. destruct (7 <? List.length ps)%nat; [discriminate |].
  destruct (rowid_of (parameter ps 0)) as [e | key]; [discriminate |].
  destruct (first_error _); [discriminate |].
  destruct key as [k |].
  - destruct (mem k (map Note.id rows)) eqn:M; [discriminate |].
    intros H. injection H as <- <-. split; [now apply mem_false | reflexivity].
  - destruct (auto_rowid (map Note.id rows)) as [k |] eqn:A; [| discriminate].
    intros H. injection H as <- <-. split; [now apply auto_rowid_fresh | reflexivity].
Qed.

Lemma post_notes_inv (userId : JS.value) (req : Req.t) (c : clock) (db : database) :
  (snd (post_notes userId req c db) = db /\
   Res.status (fst (post_notes userId req c db)) <> 201) \/
  (exists rowid,
     let n := {| Res.id := lastID rowid;
                 Res.title := Req.title (Req.json req);
                 Res.content := Req.content (Req.json req);
                 Res.created_at :=
                   or_default (Req.createdAt (Req.json req)) (Str (now_iso c));
                 Res.updated_at :=
                   or_default (Req.createdAt (Req.json req)) (Str (now_iso c));
                 Res.is_hidden :=
                   or_default (Req.is_hidden (Req.json req)) (Boolean false);
                 Res.user_id := userId |} in
     post_notes userId req c db =
     respond 201 (Res.note_created n)
             (with_notes db (insert_by Note.id (stored rowid n) (notes db))) /\
     ~ In rowid (map Note.id (notes db))).
Proof.
  unfold post_notes.
  destruct (negb (truthy (Req.title (Req.json req)))
            || negb (truthy (Req.content (Req.json req)))).
  - left. simpl. split; [reflexivity | discriminate].
  - destruct (insert_note _ (notes db)) as [err | [i rows]] eqn:I.
    + left. simpl. split; [reflexivity | discriminate].
    + right. exists i. apply insert_note_inv in I. destruct I as [Hfresh ->].
      split; [reflexivity | exact Hfresh].
Qed.

Lemma patch_note_inv (userId : JS.value) (req : Req.t) (c : clock) (db : database) :
  (snd (patch_note userId req c db) = db /\
   Res.status (fst (patch_note userId req c db)) <> 200) \/
  (let scoped := where_live (SText (Req.params_id req)) (bind userId) in
   let sets := patch_sets (Req.title (Req.json req)) (Req.content (Req.json req))
                          (Req.is_hidden (Req.json req)) (now_iso c) in
   patch_note userId req c db =
   respond 200 (Res.message "Note updated successfully.")
     (with_notes db
        (map (fun r => if scoped r then assign_all sets r else r) (notes db))) /\
   exists r, In r (notes db) /\ scoped r = true).
Proof.
  destruct (is_undefined (Req.title (Req.json req))
            && is_undefined (Req.content (Req.json req))
            && is_undefined (Req.is_hidden (Req.json req))) eqn:Hdef.
  - left. unfold patch_note. rewrite Hdef. simpl. split; [reflexivity | discriminate].
  - rewrite (patch_note_statement _ _ _ _ Hdef).
    destruct (update_notes _ _ (notes db)) as [err | [n rows]] eqn:U.
    + left. simpl. split; [reflexivity | discriminate].
    + destruct (Z.eqb_spec n 0) as [-> | Hn].
      * left. apply update_notes_changes_zero in U. destruct U as [-> _].
        simpl. split; [apply with_notes_same | discriminate].
      * right. destruct (update_notes_inv _ _ _ _ _ U) as [Hlen ->].
        split; [reflexivity |].
        destruct (filter _ (notes db)) as [|h t] eqn:F; [simpl in Hlen; lia |].
        exists h. apply filter_In. rewrite F. now left.
Qed.

Lemma delete_note_statement (userId : JS.value) (req : Req.t) (c : clock)
  (db : database) :
  delete_note userId req c db =
  match update_notes [(Note.set_deleted_at, SText (now_iso c))]
          (where_owned (SText (Req.params_id req)) (bind userId))
          (notes db) with
  | inl err => respond 500 (Res.error (Sql.message err)) db
  | inr (changes, rows) =>
      if Z.eqb changes 0 then
        respond 404
          (Res.error "Note not found or you do not have permission to delete it.")
          (with_notes db rows)
      else
        respond 200 (Res.message "Note deleted successfully.") (with_notes db rows)
  end.
Proof. reflexivity. Qed.

Lemma delete_note_inv (userId : JS.value) (req : Req.t) (c : clock) (db : database) :
  (snd (delete_note userId req c db) = db /\
   Res.status (fst (delete_note userId req c db)) <> 200) \/
  (let owned := where_owned (SText (Req.params_id req)) (bind userId) in
   delete_note userId req c db =
   respond 200 (Res.message "Note deleted successfully.")
     (with_notes db
        (map (fun r => if owned r then Note.with_deleted_at (stamp c) r else r)
             (notes db))) /\
   exists r, In r (notes db) /\ owned r = true).
Proof.
  rewrite delete_note_statement.
  destruct (update_notes _ _ (notes db)) as [err | [n rows]] eqn:U.
  - left. simpl. split; [reflexivity | discriminate].
  - destruct (Z.eqb_spec n 0) as [-> | Hn].
    + left. apply update_notes_changes_zero in U. destruct U as [-> _].
      simpl. split; [apply with_notes_same | discriminate].
    + right. destruct (update_notes_inv _ _ _ _ _ U) as [Hlen ->].
      split; [reflexivity |].
      destruct (filter _ (notes db)) as [|h t] eqn:F; [simpl in Hlen; lia |].
      exists h. apply filter_In. rewrite F. now left.
Qed.

(** ** Timestamps *)

Lemma assign_keeps (a : Note.assignment) (v : Sql.value) (r : Note.row) :
  Note.id (assign a v r) = Note.id r /\
  Note.created_at (assign a v r) = Note.created_at r /\
  Note.user_id (assign a v r) = Note.user_id r.
Proof. destruct a; repeat split. Qed.

Lemma assign_all_keeps (sets : list (Note.assignment * Sql.value)) (r : Note.row) :
  Note.id (assign_all sets r) = Note.id r /\
  Note.created_at (assign_all sets r) = Note.created_at r /\
  Note.user_id (assign_all sets r) = Note.user_id r.
Proof.
  unfold assign_all. revert r.
  induction sets as [|[a v] sets IH]; intros r; simpl; [repeat split |].
  destruct (IH (assign a v r)) as [H1 [H2 H3]].
  destruct (assign_keeps a v r) as [K1 [K2 K3]].
  repeat split; congruence.
Qed.

Lemma find_note_some (i : Z) (rows : list Note.row) (r : Note.row) :
  find_note i rows = Some r -> In r rows /\ Note.id r = i.
Proof.
  unfold find_note. intros H. apply find_some in H.
  destruct H as [Hin Hid]. apply Z.eqb_eq in Hid. auto.
Qed.

Lemma find_note_map (g : Note.row -> Note.row) (i : Z) (rows : list Note.row) :
  (forall r, Note.id (g r) = Note.id r) ->
  find_note i (map g rows) = option_map g (find_note i rows).
Proof.
  intros Hg. unfold find_note.
  induction rows as [|a rows IH]; simpl; [reflexivity |].
  rewrite Hg. destruct (Z.eqb (Note.id a) i); [reflexivity | exact IH].
Qed.

Lemma find_note_insert_other (x : Note.row) (i : Z) (rows : list Note.row) :
  Note.id x <> i ->
  find_note i (insert_by Note.id x rows) = find_note i rows.
Proof.
  intros Hx. apply Z.eqb_neq in Hx. unfold find_note.
  induction rows as [|a rows IH]; simpl.
  - now rewrite Hx.
  - destruct (Note.id x <? Note.id a); simpl.
    + now rewrite Hx.
    + destruct (Z.eqb (Note.id a) i); [reflexivity | exact IH].
Qed.

Lemma created_at_kept_refl (rows : list Note.row) : created_at_kept rows rows.
Proof. intros i r H. eauto. Qed.

Lemma created_at_kept_map (g : Note.row -> Note.row) (rows : list Note.row) :
  (forall r, Note.id (g r) = Note.id r) ->
  (forall r, Note.created_at (g r) = Note.created_at r) ->
  created_at_kept rows (map g rows).
Proof.
  intros Hid Hca i r H. rewrite (find_note_map g i rows Hid), H. simpl. eauto.
Qed.

Lemma created_at_kept_insert (x : Note.row) (rows : list Note.row) :
  ~ In (Note.id x) (map Note.id rows) ->
  created_at_kept rows (insert_by Note.id x rows).
Proof.
  intros Hfresh i r H. exists r. split; [| reflexivity].
  rewrite find_note_insert_other; [exact H |].
  destruct (find_note_some _ _ _ H) as [Hin <-].
  intros Heq. apply Hfresh. rewrite Heq. now apply in_map.
Qed.

Lemma post_notes_keeps_created_at userId req c db :
  created_at_kept (notes db) (notes (snd (post_notes userId req c db))).
Proof.
  destruct (post_notes_inv userId req c db) as [[-> _] | [i [-> Hfresh]]].
  - apply created_at_kept_refl.
  - simpl. now apply created_at_kept_insert.
Qed.

Lemma patch_note_keeps_created_at userId req c db :
  created_at_kept (notes db) (notes (snd (patch_note userId req c db))).
Proof.
  destruct (patch_note_inv userId req c db) as [[-> _] | [-> _]].
  - apply created_at_kept_refl.
  - simpl. apply created_at_kept_map; intros r;
      destruct (where_live _ _ r); try reflexivity; apply assign_all_keeps.
Qed.

Lemma delete_note_keeps_created_at userId req c db :
  created_at_kept (notes db) (notes (snd (delete_note userId req c db))).
Proof.
  destruct (delete_note_inv userId req c db) as [[-> _] | [-> _]].
  - apply created_at_kept_refl.
  - simpl. apply created_at_kept_map; intros r;
      destruct (where_owned _ _ r); reflexivity.
Qed.

Lemma userFromHeader_cases (next : JS.value -> handler) (req : Req.t) (c : clock)
  (db : database) :
  userFromHeader next req c db =
    respond 400 (Res.error "User ID header is required.") db \/
  exists s, Req.x_user_id req = Some s /\ s <> "" /\
            userFromHeader next req c db = next (parseInt s) req c db.
Proof.
  unfold userFromHeader, Req.header.
  destruct (Req.x_user_id req) as [s |]; simpl; [| now left].
  destruct (String.eqb_spec s ""); simpl; [now left |].
  right. exists s. auto.
Qed.

Lemma patch_sets_stamp (title content is_hidden : JS.value) (c : clock)
  (r : Note.row) :
  Note.updated_at (assign_all (patch_sets title content is_hidden (now_iso c)) r)
  = stamp c.
Proof.
  unfold patch_sets.
  destruct (is_undefined title); destruct (is_undefined content);
    destruct (is_undefined is_hidden); reflexivity.
Qed.

(** C5 (as amended): no route revises the created_at of a stored note; a
    PATCH answered 200 sets updated_at to the time of the request in every
    row it rewrites, of which there is at least one, and leaves the other
    rows as they were; DELETE leaves the updated_at of every row as it was,
    and when answered 200 sets deleted_at to the time of the request in
    every row it rewrites. *)
Theorem created_at_fixed_updated_at_stamped_by_patch :
  (forall (r : route) (req : Req.t) (c : clock) (db : database),
     created_at_kept (notes db) (notes (snd (app r req c db)))) /\
  (forall (userId : JS.value) (req : Req.t) (c : clock) (db : database),
     Res.status (fst (patch_note userId req c db)) = 200 ->
     let scoped := where_live (SText (Req.params_id req)) (bind userId) in
     Forall2 (fun r r' => if scoped r then Note.updated_at r' = stamp c else r' = r)
             (notes db) (notes (snd (patch_note userId req c db))) /\
     exists r, In r (notes db) /\ scoped r = true) /\
  (forall (userId : JS.value) (req : Req.t) (c : clock) (db : database),
     map Note.updated_at (notes (snd (delete_note userId req c db)))
     = map Note.updated_at (notes db)) /\
  (forall (userId : JS.value) (req : Req.t) (c : clock) (db : database),
     Res.status (fst (delete_note userId req c db)) = 200 ->
     let owned := where_owned (SText (Req.params_id req)) (bind userId) in
     Forall2 (fun r r' => if owned r
                          then Note.deleted_at r' = stamp c /\
                               Note.updated_at r' = Note.updated_at r
                          else r' = r)
             (notes db) (notes (snd (delete_note userId req c db))) /\
     exists r, In r (notes db) /\ owned r = true).
Proof.
  split; [| split; [| split]].
  - intros r req c db. destruct r; simpl.
    + unfold post_users.
      destruct (negb (truthy (Req.username (Req.json req))));
        [apply created_at_kept_refl |].
      destruct (insert_user _ _) as [err | [i rows]].
      * destruct (includes _ _); [| apply created_at_kept_refl].
        destruct (select_user_by_username _ _); apply created_at_kept_refl.
      * apply created_at_kept_refl.
    + unfold get_user. destruct (select_user_by_id _ _) as [err | [row |]];
        apply created_at_kept_refl.
    + destruct (userFromHeader_cases get_notes req c db) as [-> | [s [_ [_ ->]]]];
        [apply created_at_kept_refl |].
      unfold get_notes. destruct (select_visible_notes _ _);
        apply created_at_kept_refl.
    + destruct (userFromHeader_cases post_notes req c db) as [-> | [s [_ [_ ->]]]];
        [apply created_at_kept_refl | apply post_notes_keeps_created_at].
    + destruct (userFromHeader_cases patch_note req c db) as [-> | [s [_ [_ ->]]]];
        [apply created_at_kept_refl | apply patch_note_keeps_created_at].
    + destruct (userFromHeader_cases delete_note req c db) as [-> | [s [_ [_ ->]]]];
        [apply created_at_kept_refl | apply delete_note_keeps_created_at].
  - intros userId req c db Hok scoped.
    destruct (patch_note_inv userId req c db) as [[_ Hno] | [Heq Hex]];
      [contradiction |].
    split; [| exact Hex]. rewrite Heq. simpl.
    apply Forall2_map_hit; intros x Hx; fold scoped in Hx |- *; rewrite Hx;
      [apply patch_sets_stamp | reflexivity].
  - intros userId req c db.
    destruct (delete_note_inv userId req c db) as [[-> _] | [-> _]];
      [reflexivity |].
    simpl. rewrite map_map. apply map_ext. intros r.
    now destruct (where_owned _ _ r).
  - intros userId req c db Hok owned.
    destruct (delete_note_inv userId req c db) as [[_ Hno] | [Heq Hex]];
      [contradiction |].
    split; [| exact Hex]. rewrite Heq. simpl.
    apply (Forall2_map_hit owned); intros x Hx; cbv beta; rewrite Hx;
      [split; reflexivity | reflexivity].
Qed.

(** ** Soft delete *)

Lemma get_notes_statement (userId : JS.value) (req : Req.t) (c : clock)
  (db : database) :
  get_notes userId req c db =
  respond 200 (Res.note_rows (filter (owned_and_live (bind userId)) (notes db))) db.
Proof. reflexivity. Qed.

Lemma delete_note_hit (userId : JS.value) (req : Req.t) (c : clock) (db : database) :
  (exists r, In r (notes db) /\
             where_owned (SText (Req.params_id req)) (bind userId) r = true) ->
  delete_note userId req c db =
  respond 200 (Res.message "Note deleted successfully.")
    (with_notes db
       (map (fun r => if where_owned (SText (Req.params_id req)) (bind userId) r
                      then Note.with_deleted_at (stamp c) r else r)
            (notes db))).
Proof.
  intros Hex. rewrite delete_note_statement.
  destruct (update_notes_hit [(Note.set_deleted_at, SText (now_iso c))] _ _ Hex)
    as [n [Hn ->]]; [reflexivity |].
  destruct (Z.eqb_spec n 0) as [-> | _]; [contradiction | reflexivity].
Qed.

Lemma delete_twice_rows (owned : Note.row -> bool) (v w : Sql.value)
  (rows : list Note.row) :
  (forall u r, owned (Note.with_deleted_at u r) = owned r) ->
  map (fun r => if owned r then Note.with_deleted_at w r else r)
      (map (fun r => if owned r then Note.with_deleted_at v r else r) rows)
  = map (fun r => if owned r then Note.with_deleted_at w r else r) rows.
Proof.
  intros Hown. rewrite map_map. apply map_ext. intros r.
  destruct (owned r) eqn:O; [| now rewrite O].
  now rewrite Hown, O.
Qed.

Lemma repeated_delete (userId : JS.value) (req : Req.t) (cs : list clock)
  (c : clock) (db : database) :
  (exists r, In r (notes db) /\
             where_owned (SText (Req.params_id req)) (bind userId) r = true) ->
  repeatedly (delete_note userId) req (cs ++ [c])%list db =
  (map (fun _ => {| Res.status := 200;
                    Res.body := Res.message "Note deleted successfully." |})
       (cs ++ [c])%list,
   with_notes db
     (map (fun r => if where_owned (SText (Req.params_id req)) (bind userId) r
                    then Note.with_deleted_at (stamp c) r else r)
          (notes db))).
Proof.
  revert db. induction cs as [|c1 cs IH]; intros db Hex.
  - simpl. now rewrite (delete_note_hit _ _ _ _ Hex).
  - cbn [app repeatedly List.app]. rewrite (delete_note_hit _ _ c1 _ Hex).
    unfold respond. rewrite IH.
    + cbn [map notes with_notes users]. f_equal. unfold with_notes. simpl. f_equal.
      apply delete_twice_rows. reflexivity.
    + destruct Hex as [r [Hr Or]]. simpl.
      exists (Note.with_deleted_at (stamp c1) r). split; [| exact Or].
      apply in_map_iff. exists r. now rewrite Or.
Qed.

(** C3: DELETE is scoped by id and user_id only.  For a note that the caller
    owns, deleted already or not, every one of any number of DELETE requests
    is answered 200; afterwards the deleted_at of every row of that id and
    owner equals the time of the last request, which is not NULL, every other
    column and every other row is as it was, and GET /notes for the caller
    lists no row with that id. *)
Theorem delete_is_repeatable (U : num) (req : Req.t) (cs : list clock) (c : clock)
  (db : database) (note : Note.row) :
  In note (notes db) ->
  column_eqb INTEGER (SNum (Int (Note.id note))) (SText (Req.params_id req)) = true ->
  Note.user_id note = SNum U ->
  let owned := where_owned (SText (Req.params_id req)) (SNum U) in
  let run := repeatedly (delete_note (Number U)) req (cs ++ [c])%list db in
  fst run =
    map (fun _ => {| Res.status := 200;
                     Res.body := Res.message "Note deleted successfully." |})
        (cs ++ [c])%list /\
  users (snd run) = users db /\
  notes (snd run) =
    map (fun r => if owned r then Note.with_deleted_at (stamp c) r else r) (notes db) /\
  In (Note.with_deleted_at (stamp c) note) (notes (snd run)) /\
  Forall2
    (fun r r' =>
       if owned r then
         Note.deleted_at r' = stamp c /\
         Note.id r' = Note.id r /\
         Note.title r' = Note.title r /\
         Note.content r' = Note.content r /\
         Note.created_at r' = Note.created_at r /\
         Note.updated_at r' = Note.updated_at r /\
         Note.is_hidden r' = Note.is_hidden r /\
         Note.user_id r' = Note.user_id r
       else r' = r)
    (notes db) (notes (snd run)) /\
  (exists r',
     In r' (notes (snd run)) /\
     Note.id r' = Note.id note /\
     Note.user_id r' = SNum U /\
     Note.deleted_at r' = stamp c /\
     Note.deleted_at r' <> SNull) /\
  forall req' c' r,
    In r (listed (fst (get_notes (Number U) req' c' (snd run)))) -> owned r = false.
Proof.
  intros Hin Hid Hown owned run.
  assert (Ho : owned note = true).
  { unfold owned, where_owned. rewrite Hid. simpl. now apply owner_eqb. }
  assert (Hex : exists r, In r (notes db) /\ owned r = true) by eauto.
  subst run. rewrite (repeated_delete (Number U) req cs c db Hex). cbn [fst snd].
  split; [reflexivity |]. split; [reflexivity |]. split; [reflexivity |].
  split; [| split; [| split]].
  - simpl. apply in_map_iff. exists note. fold owned. now rewrite Ho.
  - cbn [with_notes notes bind].
    apply (Forall2_map_hit owned); intros x Hx; cbv beta; rewrite Hx;
      [repeat split | reflexivity].
  - exists (Note.with_deleted_at (stamp c) note). split.
    + simpl. apply in_map_iff. exists note. fold owned. now rewrite Ho.
    + split; [reflexivity |]. split; [exact Hown |]. split; [reflexivity |].
      apply stamp_neq_null.
  - intros req' c' r. rewrite get_notes_statement.
    unfold respond, listed, with_notes. cbn [fst snd Res.body notes bind].
    rewrite filter_In, in_map_iff. intros [[r0 [Hr0 _]] Hvis].
    fold owned in Hr0. destruct (owned r0) eqn:O0.
    + subst r. unfold owned_and_live in Hvis. simpl in Hvis.
      rewrite stamp_not_null, andb_false_r in Hvis. discriminate.
    + now subst r.
Qed.

(** ** The visible notes of a user *)

Lemma In_insert_by {A : Type} (key : A -> Z) (x y : A) (l : list A) :
  In y (insert_by key x l) <-> y = x \/ In y l.
Proof.
  induction l as [|a l IH]; simpl.
  - intuition.
  - destruct (key x <? key a); simpl; [intuition |].
    rewrite IH. intuition.
Qed.

Lemma owned_and_live_true (U : num) (r : Note.row) :
  owned_and_live (SNum U) r = true <->
  Note.user_id r = SNum U /\ Note.deleted_at r = SNull.
Proof.
  unfold owned_and_live. rewrite andb_true_iff, owner_eqb.
  destruct (Note.deleted_at r); simpl; intuition congruence.
Qed.

Lemma patch_sets_keeps_deleted_at (title content is_hidden : JS.value)
  (now : string) (r : Note.row) :
  Note.deleted_at (assign_all (patch_sets title content is_hidden now) r)
  = Note.deleted_at r.
Proof.
  unfold patch_sets.
  destruct (is_undefined title); destruct (is_undefined content);
    destruct (is_undefined is_hidden); reflexivity.
Qed.

Lemma parseInt_cases (s : string) :
  parseInt s = NaN \/ exists n, parseInt s = Number n.
Proof.
  unfold parseInt.
  destruct (match trim_start s with
            | String "-" r => (-1, r)
            | String "+" r => (1, r)
            | _ => (1, trim_start s)
            end) as [sign t].
  destruct (leading_digits t); eauto.
Qed.

Lemma owner_of_match (U : num) (p : JS.value) :
  (p = NaN \/ exists n, p = Number n) ->
  column_eqb INTEGER (SNum U) (bind p) = true -> p = Number U.
Proof.
  intros [-> | [n ->]]; unfold column_eqb; simpl; [discriminate |].
  intros H. apply num_eqb_eq in H. now subst.
Qed.

(** What a request can do to a row that GET /notes lists for [U]. *)
Lemma listed_row_after (U : num) (r : route) (req : Req.t) (c : clock)
  (db : database) (row : Note.row) :
  In row (notes db) ->
  owned_and_live (SNum U) row = true ->
  (exists row', In row' (notes (snd (app r req c db))) /\
                owned_and_live (SNum U) row' = true /\
                Note.id row' = Note.id row) \/
  (r = DELETE_notes_id /\
   (exists s, Req.x_user_id req = Some s /\ parseInt s = Number U) /\
   column_eqb INTEGER (SNum (Int (Note.id row))) (SText (Req.params_id req)) = true /\
   Res.status (fst (app r req c db)) = 200).
Proof.
  intros Hin Hvis.
  assert (Same : forall db', notes db' = notes db ->
            exists row', In row' (notes db') /\
                         owned_and_live (SNum U) row' = true /\
                         Note.id row' = Note.id row).
  { intros db' ->. eauto. }
  destruct r; simpl.
  - left. apply Same. unfold post_users.
    destruct (negb (truthy (Req.username (Req.json req)))); [reflexivity |].
    destruct (insert_user _ _) as [err | [i rows]]; [| reflexivity].
    destruct (includes _ _); [| reflexivity].
    now destruct (select_user_by_username _ _).
  - left. apply Same. unfold get_user.
    now destruct (select_user_by_id _ _) as [err | [u |]].
  - left. apply Same.
    now destruct (userFromHeader_cases get_notes req c db) as [-> | [s [_ [_ ->]]]].
  - left.
    destruct (userFromHeader_cases post_notes req c db) as [-> | [s [_ [_ ->]]]];
      [now apply Same |].
    destruct (post_notes_inv (parseInt s) req c db) as [[-> _] | [i [-> _]]];
      [now apply Same |].
    exists row. simpl. rewrite In_insert_by. auto.
  - left.
    destruct (userFromHeader_cases patch_note req c db) as [-> | [s [_ [_ ->]]]];
      [now apply Same |].
    destruct (patch_note_inv (parseInt s) req c db) as [[-> _] | [-> _]];
      [now apply Same |].
    simpl. set (g := fun r : Note.row => if where_live _ _ r then _ else r).
    exists (g row). split; [now apply in_map |].
    subst g. simpl. destruct (where_live _ _ row); [| auto].
    unfold owned_and_live in *.
    rewrite patch_sets_keeps_deleted_at.
    destruct (assign_all_keeps (patch_sets (Req.title (Req.json req))
                (Req.content (Req.json req)) (Req.is_hidden (Req.json req))
                (now_iso c)) row) as [K1 [_ K3]].
    rewrite K3. auto.
  - destruct (userFromHeader_cases delete_note req c db) as [-> | [s [Hs [_ Heq]]]];
      [left; now apply Same |].
    rewrite Heq.
    destruct (delete_note_inv (parseInt s) req c db) as [[-> _] | [-> _]];
      [left; now apply Same |].
    simpl.
    destruct (where_owned (SText (Req.params_id req)) (bind (parseInt s)) row) eqn:O.
    + right. unfold where_owned in O. apply andb_true_iff in O. destruct O as [Oid Oown].
      apply owned_and_live_true in Hvis. destruct Hvis as [Hu _]. rewrite Hu in Oown.
      split; [reflexivity |]. split; [| split; [exact Oid | reflexivity]].
      exists s. split; [exact Hs |].
      apply owner_of_match; [apply parseInt_cases | exact Oown].
    + left. exists row. split; [| auto].
      apply in_map_iff. exists row. now rewrite O.
Qed.

(** C2: GET /notes is answered 200 with the stored rows whose user_id equals
    the caller's id and whose deleted_at is NULL, in storage order, and
    changes nothing; for the NaN sentinel that is no row.  A note created by [U] is listed for [U];
    a listed note stays listed after every request other than a DELETE by [U]
    of that note answered 200; after such a DELETE no row with that id is
    listed for [U], and the row is still stored, with deleted_at set. *)
Theorem listing_is_owned_and_live (U : num) :
  (forall (userId : JS.value) (req : Req.t) (c : clock) (db : database),
     Res.status (fst (get_notes userId req c db)) = 200 /\
     snd (get_notes userId req c db) = db /\
     listed (fst (get_notes userId req c db))
     = filter (fun r => column_eqb INTEGER (Note.user_id r) (bind userId)
                        && is_null (Note.deleted_at r))
              (notes db) /\
     forall r, In r (listed (fst (get_notes userId req c db))) <->
               In r (notes db) /\
               column_eqb INTEGER (Note.user_id r) (bind userId) = true /\
               Note.deleted_at r = SNull) /\
  (forall (req : Req.t) (c : clock) (db : database) (r : Note.row),
     (In r (listed (fst (get_notes (Number U) req c db))) <->
      In r (notes db) /\ Note.user_id r = SNum U /\ Note.deleted_at r = SNull) /\
     listed (fst (get_notes NaN req c db)) = []) /\
  (forall (req req' : Req.t) (c c' : clock) (db : database) (n : Res.note),
     fst (post_notes (Number U) req c db)
     = {| Res.status := 201; Res.body := Res.note_created n |} ->
     exists rowid,
       Res.id n = lastID rowid /\
       In (stored rowid n)
          (listed (fst (get_notes (Number U) req' c'
                                  (snd (post_notes (Number U) req c db)))))) /\
  (forall (rt : route) (req req' : Req.t) (c c' : clock) (db : database)
          (r : Note.row),
     In r (listed (fst (get_notes (Number U) req' c' db))) ->
     (exists r', In r' (listed (fst (get_notes (Number U) req' c'
                                               (snd (app rt req c db))))) /\
                 Note.id r' = Note.id r) \/
     (rt = DELETE_notes_id /\
      (exists s, Req.x_user_id req = Some s /\ parseInt s = Number U) /\
      column_eqb INTEGER (SNum (Int (Note.id r))) (SText (Req.params_id req)) = true /\
      Res.status (fst (app rt req c db)) = 200)) /\
  (forall (req req' : Req.t) (c c' : clock) (db : database) (r : Note.row),
     In r (listed (fst (get_notes (Number U) req' c' db))) ->
     column_eqb INTEGER (SNum (Int (Note.id r))) (SText (Req.params_id req)) = true ->
     let db' := snd (delete_note (Number U) req c db) in
     Res.status (fst (delete_note (Number U) req c db)) = 200 /\
     In (Note.with_deleted_at (stamp c) r) (notes db') /\
     stamp c <> SNull /\
     forall r', In r' (listed (fst (get_notes (Number U) req' c' db'))) ->
                column_eqb INTEGER (SNum (Int (Note.id r')))
                           (SText (Req.params_id req)) = false).
Proof.
  split; [| split; [| split; [| split]]].
  - intros userId req c db. rewrite get_notes_statement.
    unfold respond, listed. cbn [fst snd Res.status Res.body].
    split; [reflexivity |]. split; [reflexivity |]. split; [reflexivity |].
    intros r. rewrite filter_In. unfold owned_and_live.
    rewrite andb_true_iff. destruct (Note.deleted_at r); simpl; intuition congruence.
  - intros req c db r. rewrite !get_notes_statement.
    unfold respond, listed. cbn [fst snd Res.body bind]. split.
    + rewrite filter_In, owned_and_live_true. reflexivity.
    + apply filter_nil_iff. intros x _. unfold owned_and_live, column_eqb.
      simpl. now destruct (Note.user_id x).
  - intros req req' c c' db n Hres.
    destruct (post_notes_inv (Number U) req c db) as [[_ Hno] | [i [Heq Hfresh]]].
    + rewrite Hres in Hno. simpl in Hno. contradiction.
    + rewrite Heq in Hres |- *. unfold respond in Hres. cbn [fst] in Hres.
      injection Hres as <-. exists i. split; [reflexivity |].
      rewrite get_notes_statement. unfold respond, listed, with_notes.
      cbn [fst snd Res.body notes bind].
      rewrite filter_In, In_insert_by. split; [now left |].
      apply owned_and_live_true. split; reflexivity.
  - intros rt req req' c c' db r. rewrite !get_notes_statement.
    unfold respond, listed. cbn [fst snd Res.body bind].
    rewrite filter_In. intros [Hin Hvis].
    destruct (listed_row_after U rt req c db r Hin Hvis)
      as [[r' [H1 [H2 H3]]] | Hdel]; [left | right; exact Hdel].
    exists r'. rewrite filter_In. auto.
  - intros req req' c c' db r. rewrite get_notes_statement.
    unfold respond, listed. cbn [fst snd Res.body bind].
    rewrite filter_In. intros [Hin Hvis] Hid.
    apply owned_and_live_true in Hvis. destruct Hvis as [Hu Hlive].
    assert (Ho : where_owned (SText (Req.params_id req)) (SNum U) r = true).
    { unfold where_owned. rewrite Hid. simpl. now apply owner_eqb. }
    assert (Heq := delete_note_hit (Number U) req c db
                     (ex_intro _ r (conj Hin Ho))).
    rewrite Heq. unfold respond, with_notes.
    cbn [fst snd Res.status notes bind].
    split; [reflexivity |]. split; [| split; [apply stamp_neq_null |]].
    + apply in_map_iff. exists r. now rewrite Ho.
    + intros r'. rewrite get_notes_statement.
      unfold respond. cbn [fst snd Res.body notes bind].
      rewrite filter_In, in_map_iff. intros [[r0 [Hr0 _]] Hv'].
      destruct (where_owned (SText (Req.params_id req)) (SNum U) r0) eqn:O0.
      * subst r'. unfold owned_and_live in Hv'. simpl in Hv'.
        rewrite stamp_not_null, andb_false_r in Hv'. discriminate.
      * subst r'. apply owned_and_live_true in Hv'. destruct Hv' as [Hu' _].
        unfold where_owned in O0. apply andb_false_iff in O0.
        destruct O0 as [O0 | O0]; [exact O0 |].
        rewrite Hu' in O0. assert (T := proj2 (owner_eqb (SNum U) U) eq_refl).
        simpl bind in O0. rewrite T in O0. discriminate.
Qed.

(** ** Creation *)

Lemma insert_by_split {A : Type} (key : A -> Z) (x : A) (l : list A) :
  exists before after,
    l = (before ++ after)%list /\ insert_by key x l = (before ++ x :: after)%list.
Proof.
  induction l as [|a l IH]; simpl.
  - exists [], []. auto.
  - destruct (key x <? key a).
    + exists [], (a :: l). auto.
    + destruct IH as [b [f [-> ->]]]. exists (a :: b), f. auto.
Qed.

(** C7: a POST /notes answered 201 returns the note with its defaults
    applied (is_hidden false and created_at the time of the request when the
    body omits them, the body's values otherwise), updated_at equal to
    created_at, user_id the caller's resolved id and id the new rowid; the
    row stored is that note, it is the one row added to the table, under a
    rowid that was not in use, and the users are untouched. *)
Theorem create_returns_resolved_note (userId : JS.value) (req : Req.t) (c : clock)
  (db : database) :
  Res.status (fst (post_notes userId req c db)) = 201 ->
  exists (rowid : Z) (n : Res.note),
    post_notes userId req c db =
      respond 201 (Res.note_created n)
              (with_notes db (insert_by Note.id (stored rowid n) (notes db))) /\
    (Req.is_hidden (Req.json req) = Undefined ->
       Res.is_hidden n = Boolean false /\
       Note.is_hidden (stored rowid n) = SNum (Int 0)) /\
    (Req.is_hidden (Req.json req) <> Undefined ->
       Res.is_hidden n = Req.is_hidden (Req.json req)) /\
    (Req.createdAt (Req.json req) = Undefined ->
       Res.created_at n = Str (now_iso c) /\
       Note.created_at (stored rowid n) = stamp c) /\
    (Req.createdAt (Req.json req) <> Undefined ->
       Res.created_at n = Req.createdAt (Req.json req)) /\
    Res.updated_at n = Res.created_at n /\
    Note.updated_at (stored rowid n) = Note.created_at (stored rowid n) /\
    Res.title n = Req.title (Req.json req) /\
    Res.content n = Req.content (Req.json req) /\
    Res.user_id n = userId /\
    Note.user_id (stored rowid n) = apply_affinity INTEGER (bind userId) /\
    Note.deleted_at (stored rowid n) = SNull /\
    Res.id n = lastID rowid /\
    Note.id (stored rowid n) = rowid /\
    ~ In rowid (map Note.id (notes db)) /\
    users (snd (post_notes userId req c db)) = users db /\
    exists before after,
      notes db = (before ++ after)%list /\
      notes (snd (post_notes userId req c db))
      = (before ++ stored rowid n :: after)%list.
Proof.
  intros Hok.
  destruct (post_notes_inv userId req c db) as [[_ Hno] | [i [Heq Hfresh]]];
    [contradiction |].
  eexists i, _. split; [exact Heq |]. rewrite Heq. cbn [snd respond users with_notes notes].
  repeat match goal with |- _ /\ _ => split end;
    try reflexivity; try exact Hfresh.
  - intros ->. split; reflexivity.
  - intros H. cbn [Res.is_hidden]. now destruct (Req.is_hidden (Req.json req)).
  - intros ->. split; reflexivity.
  - intros H. cbn [Res.created_at]. now destruct (Req.createdAt (Req.json req)).
  - apply insert_by_split.
Qed.

(** ** Registration *)

Lemma find_insert_by_first {A : Type} (key : A -> Z) (p : A -> bool) (x : A)
  (l : list A) :
  p x = true ->
  (forall y, In y l -> p y = false) ->
  find p (insert_by key x l) = Some x.
Proof.
  intros Px Hl. induction l as [|a l IH]; simpl.
  - now rewrite Px.
  - destruct (key x <? key a); simpl.
    + now rewrite Px.
    + rewrite (Hl a) by (now left). apply IH. intros y Hy. apply Hl. now right.
Qed.

Lemma existsb_false_iff {A : Type} (p : A -> bool) (l : list A) :
  existsb p l = false <-> forall x, In x l -> p x = false.
Proof.
  induction l as [|a l IH]; simpl.
  - split; [intros _ x [] | reflexivity].
  - rewrite orb_false_iff, IH. split.
    + intros [Ha Hl] x [<- | Hx]; auto.
    + intros H. split; [apply H; now left | intros x Hx; apply H; now right].
Qed.

Lemma existsb_find {A : Type} (p : A -> bool) (l : list A) :
  existsb p l = true -> exists x, find p l = Some x /\ In x l /\ p x = true.
Proof.
  induction l as [|a l IH]; simpl; [discriminate |].
  destruct (p a) eqn:Pa; simpl.
  - intros _. exists a. auto.
  - intros H. destruct (IH H) as [x [F [Hin Px]]]. exists x. auto.
Qed.

Lemma text_eqb (v : Sql.value) (s : string) :
  eqb v (SText s) = true <-> v = SText s.
Proof.
  destruct v as [| n | t]; simpl; split; try discriminate.
  - intros H. apply String.eqb_eq in H. now subst.
  - intros H. injection H as ->. apply String.eqb_refl.
Qed.

(** POST /users for a name that some row already has. *)
Lemma post_users_existing (name : string) (req : Req.t) (c : clock) (db : database) :
  Req.username (Req.json req) = Str name ->
  name <> "" ->
  existsb (fun r => eqb (User.username r) (SText name)) (users db) = true ->
  exists row,
    find (fun r => eqb (User.username r) (SText name)) (users db) = Some row /\
    In row (users db) /\
    User.username row = SText name /\
    post_users req c db = respond 200 (Res.user_row (Some row)) db.
Proof.
  intros Hu Hne Hex. destruct (existsb_find _ _ Hex) as [row [F [Hin Prow]]].
  exists row. split; [exact F |]. split; [exact Hin |].
  split; [now apply text_eqb |].
  unfold post_users. rewrite Hu. simpl truthy.
  destruct (String.eqb_spec name ""); [contradiction |]. simpl negb. cbv iota.
  unfold insert_user, select_user_by_username, column_eqb, parameter. simpl.
  rewrite Hex. simpl. now rewrite F.
Qed.

(** POST /users for a name that no row has. *)
Lemma post_users_fresh (name : string) (req : Req.t) (c : clock) (db : database) :
  Req.username (Req.json req) = Str name ->
  name <> "" ->
  existsb (fun r => eqb (User.username r) (SText name)) (users db) = false ->
  match auto_rowid (map User.id (users db)) with
  | Some i =>
      post_users req c db =
      respond 201 (Res.user_created (lastID i) (Str name))
              (with_users db (insert_by User.id (registered i name) (users db)))
  | None =>
      post_users req c db =
      respond 500 (Res.error "SQLITE_FULL: database or disk is full") db
  end.
Proof.
  intros Hu Hne Hex.
  unfold post_users. rewrite Hu. simpl truthy.
  destruct (String.eqb_spec name ""); [contradiction |]. simpl negb. cbv iota.
  unfold insert_user, parameter. simpl. rewrite Hex.
  destruct (auto_rowid (map User.id (users db))); reflexivity.
Qed.

(** C4: for a non-empty name, unless the engine cannot assign a rowid, two
    POST /users in a row carry the same user id, and the second one changes
    nothing and is answered 200 with the stored row of that name.  When no
    row has the name, the first request is answered 201 and adds exactly that
    row; when one has, the first request already is answered as the second. *)
Theorem register_twice_same_user (name : string) (req : Req.t) (c1 c2 : clock)
  (db : database) :
  Req.username (Req.json req) = Str name ->
  name <> "" ->
  let first := post_users req c1 db in
  let second := post_users req c2 (snd first) in
  Res.status (fst first) <> 500 ->
  snd second = snd first /\
  returned_user_id (fst first) = returned_user_id (fst second) /\
  exists row,
    fst second = {| Res.status := 200; Res.body := Res.user_row (Some row) |} /\
    returned_user_id (fst second) = Some (lastID (User.id row)) /\
    In row (users (snd first)) /\
    User.username row = SText name /\
    ((fst first = {| Res.status := 201;
                     Res.body := Res.user_created (lastID (User.id row)) (Str name) |} /\
      row = registered (User.id row) name /\
      (forall u, In u (users db) -> User.username u <> SText name) /\
      ~ In (User.id row) (map User.id (users db)) /\
      (exists before after,
         users db = (before ++ after)%list /\
         users (snd first) = (before ++ row :: after)%list) /\
      notes (snd first) = notes db)
     \/
     (fst first = fst second /\ snd first = db /\ In row (users db))).
Proof.
  intros Hu Hne first second Hinfra. subst first second.
  destruct (existsb (fun r => eqb (User.username r) (SText name)) (users db)) eqn:Hex.
  - destruct (post_users_existing name req c1 db Hu Hne Hex)
      as [row [F [Hin [Hname Heq1]]]].
    destruct (post_users_existing name req c2 db Hu Hne Hex)
      as [row2 [F2 [_ [_ Heq2]]]].
    rewrite F in F2. injection F2 as <-.
    rewrite Heq1. cbn [snd fst respond]. rewrite Heq2. cbn [snd fst respond].
    split; [reflexivity |]. split; [reflexivity |].
    exists row. repeat split; auto.
  - pose proof (post_users_fresh name req c1 db Hu Hne Hex) as Heq1.
    destruct (auto_rowid (map User.id (users db))) as [i |] eqn:A.
    + rewrite Heq1. cbn [snd fst respond].
      set (db1 := with_users db _).
      assert (Hfirst : find (fun r => eqb (User.username r) (SText name)) (users db1)
                       = Some (registered i name)).
      { apply find_insert_by_first.
        - simpl. apply String.eqb_refl.
        - now apply existsb_false_iff. }
      assert (Hex1 : existsb (fun r => eqb (User.username r) (SText name)) (users db1)
                     = true).
      { apply existsb_exists. exists (registered i name).
        apply find_some in Hfirst. exact Hfirst. }
      destruct (post_users_existing name req c2 db1 Hu Hne Hex1)
        as [row [F [Hin [Hname Heq2]]]].
      rewrite Hfirst in F. injection F as <-.
      rewrite Heq2. cbn [snd fst respond].
      split; [reflexivity |]. split; [reflexivity |].
      exists (registered i name). repeat split; auto.
      left. repeat split.
      * intros u Hin' Hname'.
        rewrite existsb_false_iff in Hex. specialize (Hex u Hin').
        rewrite Hname' in Hex. simpl in Hex. rewrite String.eqb_refl in Hex.
        discriminate.
      * now apply auto_rowid_fresh.
      * apply insert_by_split.
    + rewrite Heq1 in Hinfra. simpl in Hinfra. contradiction.
Qed.

(** ** The is_hidden flag *)

Lemma filter_map_same {A : Type} (p : A -> bool) (g : A -> A) (l : list A) :
  (forall x, p (g x) = p x) ->
  filter p (map g l) = map g (filter p l).
Proof.
  intros H. induction l as [|a l IH]; simpl; [reflexivity |].
  rewrite H. destruct (p a); simpl; now rewrite IH.
Qed.

Lemma Forall2_filter {A : Type} (R : A -> A -> Prop) (p : A -> bool)
  (l l' : list A) :
  (forall x y, R x y -> p y = p x) ->
  Forall2 R l l' -> Forall2 R (filter p l) (filter p l').
Proof.
  intros Hp H. induction H as [| x y l l' Hxy _ IH]; simpl; [constructor |].
  rewrite (Hp x y Hxy). destruct (p x); [constructor |]; assumption.
Qed.

(** C8: what GET /notes lists does not depend on is_hidden.  A stored note
    of the caller with deleted_at NULL is in the answer whatever its
    is_hidden holds, a hidden one like any other.  Overwrite the flag of
    every stored row with any value at all, or take any table whose rows
    differ from the stored ones in is_hidden only: the answer lists the same
    rows, in the same order, with the other flags. *)
Theorem listing_ignores_is_hidden (userId : JS.value) (req : Req.t) (c : clock)
  (db : database) (flag : Note.row -> Sql.value) :
  let reflag := fun r => Note.with_is_hidden (flag r) r in
  let same_but_flag := fun r r' : Note.row =>
    Note.id r' = Note.id r /\
    Note.title r' = Note.title r /\
    Note.content r' = Note.content r /\
    Note.created_at r' = Note.created_at r /\
    Note.updated_at r' = Note.updated_at r /\
    Note.deleted_at r' = Note.deleted_at r /\
    Note.user_id r' = Note.user_id r in
  listed (fst (get_notes userId req c (with_notes db (map reflag (notes db)))))
  = map reflag (listed (fst (get_notes userId req c db))) /\
  (forall rows',
     Forall2 same_but_flag (notes db) rows' ->
     Forall2 same_but_flag
             (listed (fst (get_notes userId req c db)))
             (listed (fst (get_notes userId req c
                                     {| users := users db; notes := rows' |})))) /\
  (forall (U : num) (r : Note.row),
     In r (notes db) ->
     Note.user_id r = SNum U ->
     Note.deleted_at r = SNull ->
     In r (listed (fst (get_notes (Number U) req c db)))) /\
  (forall (U : num) (i : Z) (title content created_at updated_at hidden : Sql.value),
     let r := {| Note.id := i; Note.title := title; Note.content := content;
                 Note.created_at := created_at; Note.updated_at := updated_at;
                 Note.deleted_at := SNull; Note.is_hidden := hidden;
                 Note.user_id := SNum U |} in
     In r (notes db) ->
     exists r',
       In r' (listed (fst (get_notes (Number U) req c db))) /\
       Note.id r' = i /\ Note.is_hidden r' = hidden).
Proof.
  intros reflag same_but_flag.
  assert (Hin : forall (U : num) (r : Note.row),
            In r (notes db) -> Note.user_id r = SNum U -> Note.deleted_at r = SNull ->
            In r (listed (fst (get_notes (Number U) req c db)))).
  { intros U r Hr Hu Hd. rewrite get_notes_statement.
    unfold respond, listed. cbn [fst Res.body bind].
    apply filter_In. split; [exact Hr |]. now apply owned_and_live_true. }
  split; [| split; [| split]].
  - rewrite !get_notes_statement.
    unfold respond, listed, with_notes. cbn [fst Res.body notes].
    apply filter_map_same. reflexivity.
  - intros rows' Hrows. rewrite !get_notes_statement.
    unfold respond, listed. cbn [fst Res.body notes].
    apply Forall2_filter; [| exact Hrows].
    intros x y [_ [_ [_ [_ [_ [Hd Hu]]]]]]. unfold owned_and_live.
    now rewrite Hd, Hu.
  - exact Hin.
  - intros U i title content created_at updated_at hidden r Hr.
    exists r. split; [| split; reflexivity].
    apply Hin; [exact Hr | reflexivity | reflexivity].
Qed.

(** ** The identity header *)

Lemma digit_is_not_space_or_sign (ch : ascii) (t : string) :
  is_digit ch = true ->
  parseInt (String ch t)
  = Number (to_number (digits_value 0 (String ch (leading_digits t)))).
Proof.
  intros H. unfold parseInt.
  destruct ch as [[] [] [] [] [] [] [] []]; try (vm_compute in H; discriminate H).
  all: cbn [trim_start].
  all: match goal with
       | |- context [is_white_space ?a] =>
           replace (is_white_space a) with false by (vm_compute; reflexivity)
       end.
  all: cbv beta iota; cbn [leading_digits]; rewrite H; cbv beta iota.
  all: now rewrite Z.mul_1_l.
Qed.

Lemma leading_digits_app (ds rest : string) :
  all_digits ds = true -> starts_with_digit rest = false ->
  leading_digits (ds ++ rest) = ds.
Proof.
  intros Hds Hrest. induction ds as [|ch ds IH]; cbn [all_digits append] in *.
  - destruct rest as [|ch r]; [reflexivity |].
    cbn [starts_with_digit leading_digits] in *. now rewrite Hrest.
  - apply andb_true_iff in Hds. destruct Hds as [Hc Hds].
    cbn [leading_digits]. rewrite Hc. f_equal. auto.
Qed.

Lemma digits_value_nonneg (s : string) (acc : Z) :
  0 <= acc -> all_digits s = true -> 0 <= digits_value acc s.
Proof.
  revert acc. induction s as [|ch s IH]; intros acc Hacc Hs;
    cbn [all_digits digits_value] in *; [exact Hacc |].
  apply andb_true_iff in Hs. destruct Hs as [Hc Hs]. apply IH; [| exact Hs].
  unfold is_digit, digit_value in *. apply andb_true_iff in Hc. lia.
Qed.

Lemma to_number_exact (z : Z) : Z.abs z <= 2 ^ 53 -> to_number z = Int z.
Proof.
  intros H. unfold to_number. destruct (Z.ltb_spec (Z.abs z) (2 ^ 53)); [reflexivity |].
  assert (Ha : Z.abs z = 2 ^ 53) by lia.
  destruct (Z.abs_eq_or_opp z) as [Hz | Hz]; rewrite Hz in Ha.
  - rewrite Hz. subst z. reflexivity.
  - assert (z = - 2 ^ 53) by lia. subst z. reflexivity.
Qed.

Lemma parseInt_digits_prefix (ds rest : string) :
  ds <> "" -> all_digits ds = true -> starts_with_digit rest = false ->
  parseInt (ds ++ rest) = Number (to_number (digits_value 0 ds)).
Proof.
  intros Hne Hds Hrest. destruct ds as [|ch ds]; [contradiction |].
  cbn [all_digits] in Hds. apply andb_true_iff in Hds. destruct Hds as [Hc Hds].
  change (String ch ds ++ rest)%string with (String ch (ds ++ rest)).
  rewrite (digit_is_not_space_or_sign ch _ Hc).
  now rewrite (leading_digits_app ds rest Hds Hrest).
Qed.

(** C10 (as amended): a header that starts with decimal digits, followed by
    the end of the header or by a character that is not a digit, resolves to
    the value of the digits rounded to a double, and the handler of every
    note route then runs with that id, for every such header; up to 2^53 the
    rounded value is the value of the digits itself.  A header that resolves
    to NaN does not start with a digit, and NaN matches no row in any
    statement. *)
Theorem header_resolves_to_digit_prefix (ds rest : string) :
  ds <> "" -> all_digits ds = true -> starts_with_digit rest = false ->
  parseInt (ds ++ rest) = Number (to_number (digits_value 0 ds)) /\
  (forall (req : Req.t) (c : clock) (db : database),
     Req.x_user_id req = Some (ds ++ rest) ->
     let U := Number (to_number (digits_value 0 ds)) in
     app GET_notes req c db = get_notes U req c db /\
     app POST_notes req c db = post_notes U req c db /\
     app PATCH_notes_id req c db = patch_note U req c db /\
     app DELETE_notes_id req c db = delete_note U req c db) /\
  (digits_value 0 ds <= 2 ^ 53 ->
   to_number (digits_value 0 ds) = Int (digits_value 0 ds) /\
   parseInt (ds ++ rest) = Number (Int (digits_value 0 ds)) /\
   forall (req : Req.t) (c : clock) (db : database),
     Req.x_user_id req = Some (ds ++ rest) ->
     let U := Number (Int (digits_value 0 ds)) in
     app GET_notes req c db = get_notes U req c db /\
     app POST_notes req c db = post_notes U req c db /\
     app PATCH_notes_id req c db = patch_note U req c db /\
     app DELETE_notes_id req c db = delete_note U req c db) /\
  (forall h : string, parseInt h = NaN -> starts_with_digit h = false) /\
  (forall (key : Sql.value) (r : Note.row),
     owned_and_live (bind NaN) r = false /\
     where_live key (bind NaN) r = false /\
     where_owned key (bind NaN) r = false).
Proof.
  intros Hne Hds Hrest.
  pose proof (parseInt_digits_prefix ds rest Hne Hds Hrest) as Hp.
  assert (Hscope : forall (req : Req.t) (c : clock) (db : database),
            Req.x_user_id req = Some (ds ++ rest) ->
            let U := Number (to_number (digits_value 0 ds)) in
            app GET_notes req c db = get_notes U req c db /\
            app POST_notes req c db = post_notes U req c db /\
            app PATCH_notes_id req c db = patch_note U req c db /\
            app DELETE_notes_id req c db = delete_note U req c db).
  { intros req c db Hh U.
    assert (Hmw : forall next, userFromHeader next req c db = next U req c db).
    { intros next. unfold userFromHeader, Req.header. rewrite Hh. simpl truthy.
      destruct (String.eqb_spec (ds ++ rest) "") as [He | _].
      - destruct ds; [contradiction | discriminate He].
      - simpl negb. cbv iota. now rewrite Hp. }
    simpl. rewrite !Hmw. auto. }
  split; [exact Hp |]. split; [exact Hscope |]. split; [| split].
  - intros Hle.
    assert (Hexact : to_number (digits_value 0 ds) = Int (digits_value 0 ds)).
    { apply to_number_exact.
      pose proof (digits_value_nonneg ds 0 (Z.le_refl 0) Hds). lia. }
    split; [exact Hexact |]. split; [now rewrite Hp, Hexact |].
    intros req c db Hh. cbv zeta. rewrite <- Hexact. now apply Hscope.
  - intros h Hnan. destruct h as [|ch t]; [reflexivity |]. simpl.
    destruct (is_digit ch) eqn:D; [| reflexivity].
    rewrite (digit_is_not_space_or_sign ch t D) in Hnan. discriminate.
  - intros key r. unfold owned_and_live, where_live, where_owned, column_eqb. simpl.
    destruct (Note.user_id r); simpl; rewrite ?andb_false_r; auto.
Qed.

End Properties.

(** * The properties at work on the sample database *)

Section Instances.
Import Sample.

(** User 2 patches the note of user 1: 404, nothing changed. *)
Lemma patch_foreign_note_not_found :
  fst (patch_note (Number (Int 2)) (request (Some "2") "1" (body_title (Str "X"))) t1 db0)
  = {| Res.status := 404;
       Res.body := Res.error
         "Note not found or you do not have permission to edit it." |} /\
  snd (patch_note (Number (Int 2)) (request (Some "2") "1" (body_title (Str "X"))) t1 db0)
  = db0.
Proof.
  apply (patch_alters_only_live_owned_rows
           (Number (Int 2)) (request (Some "2") "1" (body_title (Str "X"))) t1 db0
           eq_refl).
  intros r [<- | [<- | []]] [H1 [H2 H3]]; vm_compute in H1, H2; discriminate.
Defined.

(** User 1 deletes the own note 1, which was listed. *)
Lemma delete_listed_note_ok :
  In (note_of 1 1 SNull)
     (listed (fst (get_notes (Number (Int 1)) (request (Some "1") "" no_body) t0 db0))) /\
  Res.status (fst (delete_note (Number (Int 1)) (request (Some "1") "1" no_body) t1 db0))
  = 200.
Proof.
  assert (L : In (note_of 1 1 SNull)
                 (listed (fst (get_notes (Number (Int 1))
                                         (request (Some "1") "" no_body) t0 db0))))
    by (left; reflexivity).
  split; [exact L |].
  exact (proj1 (proj2 (proj2 (proj2 (proj2 (listing_is_owned_and_live (Int 1)))))
                  (request (Some "1") "1" no_body) (request (Some "1") "" no_body)
                  t1 t0 db0 (note_of 1 1 SNull) L eq_refl)).
Defined.

(** Note 1 was deleted at [t1]; its owner deletes it again at [t1] and [t2],
    and deleted_at then holds [t2]. *)
Lemma delete_deleted_note_twice :
  In (note_of 1 1 (SText "2023-11-14T22:14:20.000Z")) (notes db1) /\
  fst (repeatedly (delete_note (Number (Int 1))) (request (Some "1") "1" no_body)
                  ([t1] ++ [t2])%list db1)
  = [ {| Res.status := 200; Res.body := Res.message "Note deleted successfully." |};
      {| Res.status := 200; Res.body := Res.message "Note deleted successfully." |} ] /\
  exists r',
    In r' (notes (snd (repeatedly (delete_note (Number (Int 1)))
                                  (request (Some "1") "1" no_body)
                                  ([t1] ++ [t2])%list db1))) /\
    Note.id r' = 1 /\
    Note.deleted_at r' = SText "2023-11-14T22:15:20.000Z".
Proof.
  assert (L : In (note_of 1 1 (SText "2023-11-14T22:14:20.000Z")) (notes db1))
    by (left; reflexivity).
  split; [exact L |].
  assert (Hid0 : column_eqb INTEGER (SNum (Int 1)) (SText "1") = true)
    by reflexivity.
  destruct (delete_is_repeatable (Int 1) (request (Some "1") "1" no_body)
              [t1] t2 db1 (note_of 1 1 (SText "2023-11-14T22:14:20.000Z"))
              L Hid0 (eq_refl (SNum (Int 1))))
    as [Hres [_ [_ [_ [_ [[r' [Hin' [Hid' [_ [Hd _]]]]] _]]]]]].
  split; [exact Hres |].
  exists r'. split; [exact Hin' |]. split; [exact Hid' | exact Hd].
Defined.

(** "carol" registers twice. *)
Lemma carol_registers_twice :
  returned_user_id (fst (post_users (request None "" (body_username (Str "carol"))) t0 db0))
  = returned_user_id
      (fst (post_users (request None "" (body_username (Str "carol"))) t1
              (snd (post_users (request None "" (body_username (Str "carol"))) t0 db0)))).
Proof.
  refine (proj1 (proj2 (register_twice_same_user "carol"
                          (request None "" (body_username (Str "carol"))) t0 t1 db0
                          eq_refl _ _))).
  - discriminate.
  - vm_compute. discriminate.
Defined.

(** User 1 retitles the own note at [t1]. *)
Lemma patch_own_note_stamps :
  Res.status (fst (patch_note (Number (Int 1))
                              (request (Some "1") "1" (body_title (Str "T2"))) t1 db0))
  = 200 /\
  exists r, In r (notes db0) /\
            where_live (SText "1") (SNum (Int 1)) r = true.
Proof.
  split; [reflexivity |].
  exact (proj2 (proj1 (proj2 created_at_fixed_updated_at_stamped_by_patch)
                  (Number (Int 1)) (request (Some "1") "1" (body_title (Str "T2")))
                  t1 db0 eq_refl)).
Defined.

(** A soft delete answered 200 leaves updated_at as it was: the deleted row
    carries the time of the request in deleted_at and the time of its
    creation in updated_at. *)
Lemma delete_leaves_updated_at :
  Res.status (fst (delete_note (Number (Int 1)) (request (Some "1") "1" no_body) t1 db0))
  = 200 /\
  find_note 1 (notes (snd (delete_note (Number (Int 1))
                                       (request (Some "1") "1" no_body) t1 db0)))
  = Some (note_of 1 1 (SText "2023-11-14T22:14:20.000Z")) /\
  stamp t1 = SText "2023-11-14T22:14:20.000Z" /\
  Note.updated_at (note_of 1 1 (SText "2023-11-14T22:14:20.000Z"))
  = SText "2023-11-14T22:13:20.000Z" /\
  Note.updated_at (note_of 1 1 (SText "2023-11-14T22:14:20.000Z")) <> stamp t1.
Proof.
  repeat split; try reflexivity. vm_compute. discriminate.
Defined.

(** An empty patch. *)
Lemma empty_patch_rejected :
  patch_note (Number (Int 1)) (request (Some "1") "1" no_body) t1 db0
  = respond 400
      (Res.error "At least one field (title, content, is_hidden) must be provided.")
      db0.
Proof.
  exact (patch_without_fields_rejected (Number (Int 1))
           (request (Some "1") "1" no_body) t1 db0 eq_refl eq_refl eq_refl).
Defined.

(** User 1 creates a note with title and content only. *)
Lemma create_with_defaults :
  Res.status (fst (post_notes (Number (Int 1)) (request (Some "1") "" (new_note "A" "B"))
                              t1 db0))
  = 201 /\
  exists rowid n,
    post_notes (Number (Int 1)) (request (Some "1") "" (new_note "A" "B")) t1 db0
    = respond 201 (Res.note_created n)
        (with_notes db0 (insert_by Note.id (stored rowid n) (notes db0))) /\
    Res.is_hidden n = Boolean false /\
    Res.created_at n = Str "2023-11-14T22:14:20.000Z".
Proof.
  assert (Hok : Res.status (fst (post_notes (Number (Int 1))
                                   (request (Some "1") "" (new_note "A" "B")) t1 db0))
                = 201) by (vm_compute; reflexivity).
  split; [exact Hok |].
  destruct (create_returns_resolved_note (Number (Int 1))
              (request (Some "1") "" (new_note "A" "B")) t1 db0 Hok)
    as [rowid [n [Heq [Hhid [_ [Hca _]]]]]].
  exists rowid, n. split; [exact Heq |]. split.
  - exact (proj1 (Hhid eq_refl)).
  - exact (proj1 (Hca eq_refl)).
Defined.

(** User 1 empties the title of the own note: the stored title is empty, the
    content is kept. *)
Lemma empty_title_stored :
  In (Note.with_updated_at (stamp t1) (Note.with_title (SText "") (note_of 1 1 SNull)))
     (notes (snd (patch_note (Number (Int 1))
                             (request (Some "1") "1" (body_title (Str ""))) t1 db0))) /\
  exists r',
    In r' (notes (snd (patch_note (Number (Int 1))
                                  (request (Some "1") "1" (body_title (Str ""))) t1 db0))) /\
    Note.id r' = 1 /\
    Note.title r' = SText "" /\
    Note.content r' = SText "C".
Proof.
  assert (Hid0 : column_eqb INTEGER (SNum (Int 1)) (SText "1") = true)
    by reflexivity.
  destruct (proj1 (patch_stores_empty_text (Int 1)
                     (request (Some "1") "1" (body_title (Str ""))) t1 db0
                     (note_of 1 1 SNull)
                     (or_introl eq_refl) Hid0 (eq_refl (SNum (Int 1)))
                     (eq_refl SNull))
                  (eq_refl (Str "")) (eq_refl Undefined) (eq_refl Undefined))
    as [_ [Hin [_ [r' [Hin' [Hid [Ht Hc]]]]]]].
  split; [exact Hin |].
  exists r'. split; [exact Hin' |]. split; [exact Hid |]. split; [exact Ht | exact Hc].
Defined.

(** The header "7abc", and a header whose digits are rounded. *)
Lemma header_7abc :
  parseInt ("7" ++ "abc") = Number (Int 7) /\
  app GET_notes (request (Some "7abc") "" no_body) t0 db0
  = get_notes (Number (Int 7)) (request (Some "7abc") "" no_body) t0 db0 /\
  app DELETE_notes_id (request (Some "9007199254740993x") "1" no_body) t0 db0
  = delete_note (Number (Int 9007199254740992))
                (request (Some "9007199254740993x") "1" no_body) t0 db0.
Proof.
  destruct (header_resolves_to_digit_prefix "7" "abc") as [_ [_ [H _]]];
    [discriminate | reflexivity | reflexivity |].
  destruct H as [_ [Hp Hscope]]; [vm_compute; discriminate |].
  split; [exact Hp |].
  split; [exact (proj1 (Hscope (request (Some "7abc") "" no_body) t0 db0 eq_refl)) |].
  destruct (header_resolves_to_digit_prefix "9007199254740993" "x")
    as [_ [Hlong _]]; [discriminate | reflexivity | reflexivity |].
  exact (proj2 (proj2 (proj2 (Hlong (request (Some "9007199254740993x") "1" no_body)
                                    t0 db0 eq_refl)))).
Defined.

(** A 16-digit prefix above 2^53 does not resolve to its value. *)
Lemma header_long_prefix_is_rounded :
  all_digits "9007199254740993" = true /\
  starts_with_digit "x" = false /\
  digits_value 0 "9007199254740993" = 9007199254740993 /\
  parseInt ("9007199254740993" ++ "x") = Number (Int 9007199254740992) /\
  parseInt ("9007199254740993" ++ "x")
  <> Number (Int (digits_value 0 "9007199254740993")).
Proof.
  repeat split; try (vm_compute; reflexivity). vm_compute. discriminate.
Defined.

(** The hidden note of user 1 is listed for user 1. *)
Lemma hidden_note_is_listed :
  In hidden (notes db3) /\
  Note.is_hidden hidden = bind (Boolean true) /\
  In hidden
     (listed (fst (get_notes (Number (Int 1)) (request (Some "1") "" no_body) t1 db3))).
Proof.
  assert (L : In hidden (notes db3)) by (right; right; left; reflexivity).
  split; [exact L |]. split; [reflexivity |].
  exact (proj1 (proj2 (proj2 (listing_ignores_is_hidden
                                (Number (Int 1)) (request (Some "1") "" no_body) t1 db3
                                Note.is_hidden)))
               (Int 1) hidden L (eq_refl (SNum (Int 1))) (eq_refl SNull)).
Defined.

(** The two scenarios of the specification's section 8. *)
Example scenario_lifecycle :
  let note := "1700000000000" in
  let out :=
    serve [ (POST_users, request None "" (body_username (Str "alice")), t0);
            (POST_notes, request (Some "1") "" (new_note "T" "C"), t0);
            (GET_notes, request (Some "1") "" no_body, t0);
            (PATCH_notes_id, request (Some "1") note (body_title (Str "T2")), t1);
            (GET_notes, request (Some "1") "" no_body, t1);
            (DELETE_notes_id, request (Some "1") note no_body, t2);
            (GET_notes, request (Some "1") "" no_body, t2);
            (PATCH_notes_id, request (Some "1") note (body_title (Str "T3")), t2) ]
          empty in
  map Res.status (fst out) = [201; 201; 200; 200; 200; 200; 200; 404] /\
  map listed (fst out) =
    [ []; [];
      [ {| Note.id := 1700000000000; Note.title := SText "T"; Note.content := SText "C";
           Note.created_at := SText "2023-11-14T22:13:20.000Z";
           Note.updated_at := SText "2023-11-14T22:13:20.000Z";
           Note.deleted_at := SNull; Note.is_hidden := SNum (Int 0);
           Note.user_id := SNum (Int 1) |} ];
      [];
      [ {| Note.id := 1700000000000; Note.title := SText "T2"; Note.content := SText "C";
           Note.created_at := SText "2023-11-14T22:13:20.000Z";
           Note.updated_at := SText "2023-11-14T22:14:20.000Z";
           Note.deleted_at := SNull; Note.is_hidden := SNum (Int 0);
           Note.user_id := SNum (Int 1) |} ];
      []; []; [] ] /\
  notes (snd out) =
    [ {| Note.id := 1700000000000; Note.title := SText "T2"; Note.content := SText "C";
         Note.created_at := SText "2023-11-14T22:13:20.000Z";
         Note.updated_at := SText "2023-11-14T22:14:20.000Z";
         Note.deleted_at := SText "2023-11-14T22:15:20.000Z";
         Note.is_hidden := SNum (Int 0); Note.user_id := SNum (Int 1) |} ].
Proof. vm_compute. repeat split. Qed.

Example scenario_same_id_two_users :
  let body := {| Req.username := Undefined; Req.id := Number (Int 42);
                 Req.title := Str "T"; Req.content := Str "C";
                 Req.is_hidden := Undefined; Req.createdAt := Undefined |} in
  fst (serve [ (POST_notes, request (Some "1") "" body, t0);
               (POST_notes, request (Some "2") "" body, t1) ]
             empty)
  = [ {| Res.status := 201;
         Res.body := Res.note_created
           {| Res.id := Number (Int 42); Res.title := Str "T"; Res.content := Str "C";
              Res.created_at := Str "2023-11-14T22:13:20.000Z";
              Res.updated_at := Str "2023-11-14T22:13:20.000Z";
              Res.is_hidden := Boolean false; Res.user_id := Number (Int 1) |} |};
      {| Res.status := 500;
         Res.body := Res.error "SQLITE_CONSTRAINT: UNIQUE constraint failed: notes.id" |} ].
Proof. vm_compute. reflexivity. Qed.

End Instances.

(** * Further properties of the handlers *)

Section Coverage.
Context {E : Engine}.

(** ** Validation *)

Lemma post_users_inv (req : Req.t) (c : clock) (db : database) :
  (snd (post_users req c db) = db /\
   Res.status (fst (post_users req c db)) <> 201 /\
   (Res.status (fst (post_users req c db)) = 400 <->
    truthy (Req.username (Req.json req)) = false)) \/
  (exists i,
     let u := apply_affinity TEXT (bind (Req.username (Req.json req))) in
     let row := {| User.id := i; User.username := u; User.password := SNull |} in
     truthy (Req.username (Req.json req)) = true /\
     post_users req c db =
     respond 201 (Res.user_created (lastID i) (Req.username (Req.json req)))
             (with_users db (insert_by User.id row (users db))) /\
     ~ In i (map User.id (users db)) /\
     existsb (fun r => eqb (User.username r) u) (users db) = false).
Proof.
  unfold post_users.
  destruct (truthy (Req.username (Req.json req))) eqn:T; simpl negb; cbv iota.
  - unfold insert_user, parameter. simpl.
    destruct (existsb _ (users db)) eqn:X.
    + left. simpl. unfold select_user_by_username. simpl.
      split; [reflexivity |]. split; [discriminate |]. split; discriminate.
    + destruct (auto_rowid (map User.id (users db))) as [i |] eqn:A.
      * right. exists i. repeat split; auto. now apply auto_rowid_fresh.
      * left. simpl. split; [reflexivity |]. split; [discriminate |].
        split; discriminate.
  - left. simpl. split; [reflexivity |]. split; [discriminate |]. split; reflexivity.
Qed.

(** X1: without a user id header, or with an empty one, every note route
    answers 400 with the header's own message and its handler does not run:
    the database is returned as it was, whatever the body and the note id. *)
Theorem note_routes_require_header (r : route) (req : Req.t) (c : clock)
  (db : database) :
  Req.x_user_id req = None \/ Req.x_user_id req = Some "" ->
  r <> POST_users -> r <> GET_users_id ->
  app r req c db = respond 400 (Res.error "User ID header is required.") db.
Proof.
  intros Hh H1 H2.
  assert (Hmw : forall next, userFromHeader next req c db
                = respond 400 (Res.error "User ID header is required.") db).
  { intros next. unfold userFromHeader, Req.header.
    destruct Hh as [-> | ->]; reflexivity. }
  destruct r; try contradiction; simpl; apply Hmw.
Qed.

(** X2: POST /users answers 400 exactly when the username is falsy
    (undefined, null, false, 0, NaN or the empty string); it then leaves the
    database as it was. *)
Theorem register_requires_username (req : Req.t) (c : clock) (db : database) :
  (Res.status (fst (post_users req c db)) = 400 <->
   truthy (Req.username (Req.json req)) = false) /\
  (truthy (Req.username (Req.json req)) = false ->
   post_users req c db = respond 400 (Res.error "Username is required.") db) /\
  (truthy (Req.username (Req.json req)) = false <->
   In (Req.username (Req.json req))
      [Undefined; Null; Boolean false; Number (Int 0); NaN; Str ""]).
Proof.
  split; [| split].
  - destruct (post_users_inv req c db) as [[_ [_ H]] | [i [T [Heq _]]]]; [exact H |].
    rewrite Heq. simpl. rewrite T. split; discriminate.
  - intros T. unfold post_users. now rewrite T.
  - destruct (Req.username (Req.json req)) as [| | [] | | [z | b] | s]; simpl;
      try (split; [intros _; tauto | reflexivity]);
      try (split; [discriminate |
                   intros H; repeat (destruct H as [H | H]; try discriminate H);
                   contradiction]).
    + destruct (Z.eqb_spec z 0) as [-> | Hz]; simpl.
      * split; [intros _; tauto | reflexivity].
      * split; [discriminate |].
        intros H; repeat (destruct H as [H | H]; try discriminate H);
          [injection H as H; congruence | contradiction].
    + destruct (String.eqb_spec s "") as [-> | Hs]; simpl.
      * split; [intros _; tauto | reflexivity].
      * split; [discriminate |].
        intros H; repeat (destruct H as [H | H]; try discriminate H);
          [injection H as H; congruence | contradiction].
Qed.

(** X3: POST /notes answers 400 exactly when the title or the content is
    falsy, whoever the caller is and whatever else the body holds; it then
    leaves the database as it was. *)
Theorem create_requires_title_and_content (userId : JS.value) (req : Req.t)
  (c : clock) (db : database) :
  (Res.status (fst (post_notes userId req c db)) = 400 <->
   truthy (Req.title (Req.json req)) = false \/
   truthy (Req.content (Req.json req)) = false) /\
  (truthy (Req.title (Req.json req)) = false \/
   truthy (Req.content (Req.json req)) = false ->
   post_notes userId req c db =
   respond 400 (Res.error "Title and content are required.") db).
Proof.
  assert (H400 : truthy (Req.title (Req.json req)) = false \/
                 truthy (Req.content (Req.json req)) = false ->
                 post_notes userId req c db =
                 respond 400 (Res.error "Title and content are required.") db).
  { intros [T | T]; unfold post_notes; rewrite T; simpl; [reflexivity |].
    now rewrite orb_true_r. }
  split; [| exact H400]. split.
  - intros Hs. unfold post_notes in Hs.
    destruct (truthy (Req.title (Req.json req))); [| now left].
    destruct (truthy (Req.content (Req.json req))); [| now right].
    simpl in Hs. destruct (insert_note _ _) as [e | [i rows]]; simpl in Hs;
      discriminate.
  - intros H. now rewrite (H400 H).
Qed.

(** ** Fetching a user *)

Lemma id_matches_text (i : Z) (s : string) :
  column_eqb INTEGER (SNum (Int i)) (SText s) = true <->
  numeric_of_text s = Some (Int i).
Proof.
  unfold column_eqb. simpl. destruct (numeric_of_text s) as [[z | b] |]; simpl.
  - rewrite Z.eqb_eq. split; [intros -> | intros H; injection H as ->]; reflexivity.
  - split; discriminate.
  - split; discriminate.
Qed.

Lemma get_user_statement (req : Req.t) (c : clock) (db : database) :
  get_user req c db =
  match find (fun r => column_eqb INTEGER (SNum (Int (User.id r)))
                                  (SText (Req.params_id req)))
             (users db) with
  | Some row => respond 200 (Res.user_found row) db
  | None => respond 404 Res.user_not_found db
  end.
Proof. reflexivity. Qed.

(** X4: GET /users/:id never changes the database and never fails: it
    answers 200 with the first stored user whose id the path segment denotes,
    and 404 when the segment denotes no stored id, in particular when it is
    not numeric. *)
Theorem fetch_user_by_id (req : Req.t) (c : clock) (db : database) :
  snd (get_user req c db) = db /\
  ((exists row,
      fst (get_user req c db)
      = {| Res.status := 200; Res.body := Res.user_found row |} /\
      In row (users db) /\
      numeric_of_text (Req.params_id req) = Some (Int (User.id row))) \/
   (fst (get_user req c db)
    = {| Res.status := 404; Res.body := Res.user_not_found |} /\
    forall row, In row (users db) ->
                numeric_of_text (Req.params_id req) <> Some (Int (User.id row)))) /\
  (numeric_of_text (Req.params_id req) = None ->
   Res.status (fst (get_user req c db)) = 404).
Proof.
  rewrite get_user_statement.
  destruct (find _ (users db)) as [row |] eqn:F.
  - split; [reflexivity |]. split.
    + left. exists row. apply find_some in F. destruct F as [Hin Hid].
      split; [reflexivity |]. split; [exact Hin |]. now apply id_matches_text.
    + intros Hnone. apply find_some in F. destruct F as [_ Hid].
      apply id_matches_text in Hid. congruence.
  - split; [reflexivity |]. split; [| reflexivity].
    right. split; [reflexivity |]. intros row Hin Hid.
    apply id_matches_text in Hid.
    pose proof (find_none _ _ F row Hin) as N. cbv beta in N. congruence.
Qed.

(** X5: a user registered by POST /users can be fetched.  After a 201, GET
    /users/:id with a path segment that denotes the new rowid answers 200 with
    the row that was stored: the new id, the username as text, no password. *)
Theorem registered_user_can_be_fetched (req req' : Req.t) (c c' : clock)
  (db : database) :
  Res.status (fst (post_users req c db)) = 201 ->
  exists i,
    let row := {| User.id := i;
                  User.username :=
                    apply_affinity TEXT (bind (Req.username (Req.json req)));
                  User.password := SNull |} in
    Res.body (fst (post_users req c db))
    = Res.user_created (lastID i) (Req.username (Req.json req)) /\
    In row (users (snd (post_users req c db))) /\
    (numeric_of_text (Req.params_id req') = Some (Int i) ->
     get_user req' c' (snd (post_users req c db)) =
     respond 200 (Res.user_found row) (snd (post_users req c db))).
Proof.
  intros Hok.
  destruct (post_users_inv req c db) as [[_ [Hno _]] | [i [_ [Heq [Hfresh _]]]]];
    [contradiction |].
  exists i. cbv zeta. rewrite Heq. cbn [fst snd respond Res.body with_users users].
  split; [reflexivity |]. split; [apply In_insert_by; now left |].
  intros Hden. rewrite get_user_statement.
  change (users (with_users db ?l)) with l.
  rewrite (find_insert_by_first User.id _ _ (users db)); [reflexivity | |].
  - simpl. now apply id_matches_text.
  - intros y Hy. destruct (column_eqb _ _ _) eqn:M; [| reflexivity].
    apply id_matches_text in M. rewrite Hden in M. injection M as M.
    exfalso. apply Hfresh. rewrite M. now apply in_map.
Qed.

(** ** Creation that the engine refuses *)

Lemma first_error_some (checks : list (option error)) (e : error) :
  In (Some e) checks -> first_error checks <> None.
Proof.
  induction checks as [|[e' |] checks IH]; simpl; [intros [] | discriminate |].
  intros [H | H]; [discriminate | auto].
Qed.

Lemma insert_note_key_taken (ps : list Sql.value) (rows : list Note.row) (i : Z) :
  rowid_of (parameter ps 0) = inr (Some i) ->
  In i (map Note.id rows) ->
  exists e, insert_note ps rows = inl e.
Proof.
  intros Hkey Hin. unfold insert_note.
  destruct (7 <? List.length ps)%nat; [eauto |].
  rewrite Hkey. destruct (first_error _); [eauto |].
  assert (M : mem i (map Note.id rows) = true).
  { destruct (mem i (map Note.id rows)) eqn:M; [reflexivity |].
    apply mem_false in M. contradiction. }
  rewrite M. eauto.
Qed.

Lemma insert_note_key (ps : list Sql.value) (rows rows' : list Note.row) (i k : Z) :
  insert_note ps rows = inr (i, rows') ->
  rowid_of (parameter ps 0) = inr (Some k) ->
  i = k.
Proof.
  unfold insert_note. destruct (7 <? List.length ps)%nat; [discriminate |].
  intros H Hkey. rewrite Hkey in H. destruct (first_error _); [discriminate |].
  destruct (mem k (map Note.id rows)); [discriminate |]. now injection H.
Qed.

Lemma rowid_of_number (n : num) :
  (exists e, rowid_of (SNum n) = inl e) \/
  (exists z, n = Int z /\ rowid_of (SNum n) = inr (Some z)).
Proof.
  unfold rowid_of. destruct n as [z | b]; [| eauto].
  destruct ((- 2 ^ 63 <? z) && (z <? max_rowid)); eauto.
Qed.

Lemma post_notes_refused (userId : JS.value) (req : Req.t) (c : clock)
  (db : database) (e : error) :
  truthy (Req.title (Req.json req)) = true ->
  truthy (Req.content (Req.json req)) = true ->
  insert_note
    (map bind
       [or_default (Req.id (Req.json req)) (Number (to_number (now_ms c)));
        Req.title (Req.json req); Req.content (Req.json req);
        or_default (Req.createdAt (Req.json req)) (Str (now_iso c));
        or_default (Req.createdAt (Req.json req)) (Str (now_iso c));
        or_default (Req.is_hidden (Req.json req)) (Boolean false); userId])
    (notes db) = inl e ->
  post_notes userId req c db = respond 500 (Res.error (Sql.message e)) db.
Proof.
  intros Ht Hc He. unfold post_notes. rewrite Ht, Hc. simpl orb. cbv iota.
  now rewrite He.
Qed.

Lemma insert_note_mismatch (ps : list Sql.value) (rows : list Note.row)
  (e : error) :
  (List.length ps <= 7)%nat ->
  rowid_of (parameter ps 0) = inl e ->
  insert_note ps rows = inl e.
Proof.
  intros Hlen Hkey. unfold insert_note.
  destruct (Nat.ltb_spec 7 (List.length ps)); [lia |]. now rewrite Hkey.
Qed.

Lemma insert_note_unique (ps : list Sql.value) (rows : list Note.row) (i : Z) :
  (List.length ps <= 7)%nat ->
  rowid_of (parameter ps 0) = inr (Some i) ->
  is_null (apply_affinity TEXT (parameter ps 1)) = false ->
  is_null (apply_affinity TEXT (parameter ps 2)) = false ->
  is_null (apply_affinity NUMERIC (parameter ps 3)) = false ->
  is_null (apply_affinity NUMERIC (parameter ps 4)) = false ->
  is_null (apply_affinity NUMERIC (parameter ps 5)) = false ->
  In i (map Note.id rows) ->
  insert_note ps rows = inl (UniqueFailed "notes.id").
Proof.
  intros Hlen Hkey H1 H2 H3 H4 H5 Hin. unfold insert_note.
  destruct (Nat.ltb_spec 7 (List.length ps)); [lia |]. rewrite Hkey.
  cbn [first_error Note.title Note.content Note.created_at Note.updated_at
       Note.is_hidden]. unfold not_null.
  rewrite H1, H2, H3, H4, H5. cbn [first_error].
  destruct (mem i (map Note.id rows)) eqn:M; [reflexivity |].
  apply mem_false in M. contradiction.
Qed.

Lemma truthy_is_not_null (v : JS.value) :
  truthy v = true -> is_null (apply_affinity TEXT (bind v)) = false.
Proof. destruct v as [| | [] | | n | s]; simpl; try discriminate; reflexivity. Qed.

(** X6: note ids are not scoped by user.  POST /notes with a valid title and
    content and an explicit numeric id that some stored note already has,
    whoever owns that note and deleted or not, answers 500 and leaves the
    database as it was.  When the id lies strictly between the least and the
    largest rowid and is_hidden and createdAt are absent, the message is the
    engine's UNIQUE failure on notes.id; when the id does not lie strictly
    between the two it is bound as a REAL that is no key, and the message is
    the engine's datatype mismatch. *)
Theorem create_with_taken_id_fails (userId : JS.value) (req : Req.t) (c : clock)
  (db : database) (i : Z) :
  truthy (Req.title (Req.json req)) = true ->
  truthy (Req.content (Req.json req)) = true ->
  Req.id (Req.json req) = Number (Int i) ->
  In i (map Note.id (notes db)) ->
  (exists msg, post_notes userId req c db = respond 500 (Res.error msg) db) /\
  (- 2 ^ 63 < i < 2 ^ 63 - 1 ->
   Req.is_hidden (Req.json req) = Undefined ->
   Req.createdAt (Req.json req) = Undefined ->
   post_notes userId req c db =
   respond 500 (Res.error "SQLITE_CONSTRAINT: UNIQUE constraint failed: notes.id") db) /\
  (i <= - 2 ^ 63 \/ 2 ^ 63 - 1 <= i ->
   post_notes userId req c db =
   respond 500 (Res.error "SQLITE_MISMATCH: datatype mismatch") db).
Proof.
  intros Ht Hc Hid Hin.
  set (ps := map bind
               [or_default (Req.id (Req.json req)) (Number (to_number (now_ms c)));
                Req.title (Req.json req); Req.content (Req.json req);
                or_default (Req.createdAt (Req.json req)) (Str (now_iso c));
                or_default (Req.createdAt (Req.json req)) (Str (now_iso c));
                or_default (Req.is_hidden (Req.json req)) (Boolean false); userId]).
  assert (Hlen : (List.length ps <= 7)%nat) by (subst ps; simpl; lia).
  assert (Hkey : rowid_of (parameter ps 0)
                 = if (- 2 ^ 63 <? i) && (i <? max_rowid) then inr (Some i)
                   else inl DatatypeMismatch).
  { subst ps. unfold parameter. cbn [map nth]. rewrite Hid. reflexivity. }
  assert (Hmis : (- 2 ^ 63 <? i) && (i <? max_rowid) = false ->
                 post_notes userId req c db =
                 respond 500 (Res.error "SQLITE_MISMATCH: datatype mismatch") db).
  { intros R. apply (post_notes_refused userId req c db DatatypeMismatch Ht Hc).
    fold ps. apply insert_note_mismatch; [exact Hlen |]. now rewrite Hkey, R. }
  split; [| split].
  - destruct ((- 2 ^ 63 <? i) && (i <? max_rowid)) eqn:R.
    + destruct (insert_note_key_taken ps (notes db) i Hkey Hin) as [e He].
      exists (Sql.message e). now apply post_notes_refused.
    + eexists. now apply Hmis.
  - intros Hrange Hh Hca.
    assert (R : (- 2 ^ 63 <? i) && (i <? max_rowid) = true).
    { apply andb_true_iff. unfold max_rowid. split; apply Z.ltb_lt; lia. }
    rewrite R in Hkey.
    apply (post_notes_refused userId req c db (UniqueFailed "notes.id") Ht Hc).
    fold ps. apply (insert_note_unique ps (notes db) i Hlen Hkey);
      try exact Hin; subst ps; unfold parameter; cbn [map nth].
    + now apply truthy_is_not_null.
    + now apply truthy_is_not_null.
    + rewrite Hca. apply stamp_not_null.
    + rewrite Hca. apply stamp_not_null.
    + rewrite Hh. reflexivity.
  - intros Hout. apply Hmis. apply andb_false_iff. unfold max_rowid.
    destruct Hout; [left | right]; apply Z.ltb_ge; lia.
Qed.

Lemma post_notes_created (userId : JS.value) (req : Req.t) (c : clock)
  (db : database) :
  Res.status (fst (post_notes userId req c db)) = 201 ->
  exists i rows,
    insert_note
      (map bind
         [or_default (Req.id (Req.json req)) (Number (to_number (now_ms c)));
          Req.title (Req.json req); Req.content (Req.json req);
          or_default (Req.createdAt (Req.json req)) (Str (now_iso c));
          or_default (Req.createdAt (Req.json req)) (Str (now_iso c));
          or_default (Req.is_hidden (Req.json req)) (Boolean false); userId])
      (notes db) = inr (i, rows) /\
    snd (post_notes userId req c db) = with_notes db rows /\
    In i (map Note.id rows).
Proof.
  unfold post_notes.
  destruct (negb (truthy (Req.title (Req.json req)))
            || negb (truthy (Req.content (Req.json req)))); [discriminate |].
  destruct (insert_note _ (notes db)) as [e | [i rows]] eqn:I; [discriminate |].
  intros _. exists i, rows. split; [reflexivity |]. split; [reflexivity |].
  destruct (insert_note_inv _ _ _ _ I) as [_ ->].
  apply in_map_iff. eexists. split; [| apply In_insert_by; left; reflexivity].
  reflexivity.
Qed.

(** X7: the default id is the clock.  When a POST /notes without id is
    answered 201, the new rowid is [Date.now()], and a second POST /notes
    without id in the same millisecond, by the same or by another caller, is
    answered 500 and stores nothing. *)
Theorem default_ids_collide_within_a_millisecond (u1 u2 : JS.value)
  (req1 req2 : Req.t) (c1 c2 : clock) (db : database) :
  Req.id (Req.json req1) = Undefined ->
  Req.id (Req.json req2) = Undefined ->
  now_ms c2 = now_ms c1 ->
  truthy (Req.title (Req.json req2)) = true ->
  truthy (Req.content (Req.json req2)) = true ->
  Res.status (fst (post_notes u1 req1 c1 db)) = 201 ->
  let db1 := snd (post_notes u1 req1 c1 db) in
  (exists i, to_number (now_ms c1) = Int i /\ In i (map Note.id (notes db1))) /\
  exists msg, post_notes u2 req2 c2 db1 = respond 500 (Res.error msg) db1.
Proof.
  intros Hid1 Hid2 Hms Ht Hc Hok db1. subst db1.
  destruct (post_notes_created u1 req1 c1 db Hok) as [i [rows [I [-> Hin]]]].
  rewrite Hid1 in I. cbn [or_default map bind] in I.
  destruct (rowid_of_number (to_number (now_ms c1))) as [[e He] | [z [Hz Hk]]].
  - exfalso. unfold insert_note, parameter in I. cbn [nth] in I.
    destruct (7 <? _)%nat; [discriminate |]. rewrite He in I. discriminate.
  - assert (i = z) by (apply (insert_note_key _ _ _ _ _ I); exact Hk). subst z.
    split; [exists i; split; [exact Hz | exact Hin] |].
    destruct (insert_note_key_taken
                (map bind
                   [or_default (Req.id (Req.json req2))
                               (Number (to_number (now_ms c2)));
                    Req.title (Req.json req2); Req.content (Req.json req2);
                    or_default (Req.createdAt (Req.json req2)) (Str (now_iso c2));
                    or_default (Req.createdAt (Req.json req2)) (Str (now_iso c2));
                    or_default (Req.is_hidden (Req.json req2)) (Boolean false); u2])
                rows i) as [e He].
    + rewrite Hid2, Hms. exact Hk.
    + exact Hin.
    + exists (Sql.message e).
      apply (post_notes_refused u2 req2 c2 (with_notes db rows) e Ht Hc). exact He.
Qed.

(** X8: a default applies to an absent property only.  POST /notes with a
    valid title and content and an explicit null for is_hidden or for
    createdAt is answered 500, not given the default, and stores nothing. *)
Theorem create_with_null_field_fails (userId : JS.value) (req : Req.t) (c : clock)
  (db : database) :
  truthy (Req.title (Req.json req)) = true ->
  truthy (Req.content (Req.json req)) = true ->
  Req.is_hidden (Req.json req) = Null \/ Req.createdAt (Req.json req) = Null ->
  exists msg, post_notes userId req c db = respond 500 (Res.error msg) db.
Proof.
  intros Ht Hc Hnull.
  destruct (insert_note
              (map bind
                 [or_default (Req.id (Req.json req)) (Number (to_number (now_ms c)));
                  Req.title (Req.json req); Req.content (Req.json req);
                  or_default (Req.createdAt (Req.json req)) (Str (now_iso c));
                  or_default (Req.createdAt (Req.json req)) (Str (now_iso c));
                  or_default (Req.is_hidden (Req.json req)) (Boolean false); userId])
              (notes db)) as [e | [k rows]] eqn:I.
  - exists (Sql.message e). now apply post_notes_refused.
  - exfalso. unfold insert_note, parameter in I. cbn [map nth List.length] in I.
    destruct (7 <? 7)%nat; [discriminate |].
    destruct (rowid_of _); [discriminate |].
    match type of I with
    | match first_error ?l with _ => _ end = _ =>
        assert (F : first_error l <> None)
    end.
    { destruct Hnull as [H | H]; rewrite H; cbn [or_default bind apply_affinity].
      - apply (first_error_some _ (NotNullFailed "notes.is_hidden")).
        do 4 right. left. reflexivity.
      - apply (first_error_some _ (NotNullFailed "notes.created_at")).
        do 2 right. left. reflexivity. }
    destruct (first_error _); [discriminate | contradiction].
Qed.

(** ** What DELETE and PATCH write *)

Lemma where_owned_true (key owner : Sql.value) (r : Note.row) :
  where_owned key owner r = true <->
  column_eqb INTEGER (SNum (Int (Note.id r))) key = true /\
  column_eqb INTEGER (Note.user_id r) owner = true.
Proof. unfold where_owned. apply andb_true_iff. Qed.

(** X9: DELETE writes deleted_at and nothing else.  It leaves the users
    alone; each note row is either left as it was or had the id and the
    user_id of the request, and then its deleted_at equals the time of the
    request and every other column is as it was; it answers 200 when some row
    has that id and user_id, and every such row is then stored with the time
    of the request, which is not NULL, in deleted_at; otherwise it answers
    404 with the database as it was. *)
Theorem delete_writes_deleted_at_only (userId : JS.value) (req : Req.t)
  (c : clock) (db : database) :
  let owned (r : Note.row) :=
    column_eqb INTEGER (SNum (Int (Note.id r))) (SText (Req.params_id req)) = true /\
    column_eqb INTEGER (Note.user_id r) (bind userId) = true in
  let res := fst (delete_note userId req c db) in
  let db' := snd (delete_note userId req c db) in
  users db' = users db /\
  Forall2 (fun r r' =>
             r' = r \/
             (owned r /\
              r' = Note.with_deleted_at (stamp c) r /\
              Note.deleted_at r' = stamp c /\
              Note.id r' = Note.id r /\
              Note.title r' = Note.title r /\
              Note.content r' = Note.content r /\
              Note.created_at r' = Note.created_at r /\
              Note.updated_at r' = Note.updated_at r /\
              Note.is_hidden r' = Note.is_hidden r /\
              Note.user_id r' = Note.user_id r))
          (notes db) (notes db') /\
  ((exists r, In r (notes db) /\ owned r) ->
   res = {| Res.status := 200; Res.body := Res.message "Note deleted successfully." |} /\
   forall r, In r (notes db) -> owned r ->
     exists r',
       In r' (notes db') /\
       Note.id r' = Note.id r /\
       Note.deleted_at r' = stamp c /\
       Note.deleted_at r' <> SNull /\
       Note.updated_at r' = Note.updated_at r /\
       Note.user_id r' = Note.user_id r) /\
  ((forall r, In r (notes db) -> ~ owned r) ->
   res = {| Res.status := 404;
            Res.body := Res.error
              "Note not found or you do not have permission to delete it." |} /\
   db' = db).
Proof.
  intros owned res db'. subst res db'.
  assert (Hm : forall r, where_owned (SText (Req.params_id req)) (bind userId) r = true
                         <-> owned r) by (intro r; apply where_owned_true).
  destruct (delete_note_inv userId req c db) as [[Hsame Hno] | [Heq [r0 [Hin0 Ho0]]]].
  - rewrite Hsame. split; [reflexivity |]. split; [apply Forall2_same; now left |].
    split.
    + intros [r [Hr Ho]]. exfalso. apply Hno.
      rewrite (delete_note_hit userId req c db); [reflexivity |].
      exists r. split; [exact Hr | now apply Hm].
    + intros Hnone. split; [| reflexivity].
      rewrite delete_note_statement, update_notes_miss; [reflexivity |].
      intros r Hr. destruct (where_owned _ _ r) eqn:O; [| reflexivity].
      exfalso. apply (Hnone r Hr). now apply Hm.
  - rewrite Heq. cbn [fst snd respond with_notes users notes].
    split; [reflexivity |]. split; [| split].
    + apply Forall2_map_hit.
      * intros x Hx. right. split; [now apply Hm |]. repeat split.
      * intros x _. now left.
    + intros _. split; [reflexivity |]. intros r Hr Ho.
      exists (Note.with_deleted_at (stamp c) r). split.
      * apply in_map_iff. exists r. split; [| exact Hr].
        now rewrite (proj2 (Hm r) Ho).
      * split; [reflexivity |]. split; [reflexivity |].
        split; [apply stamp_neq_null |]. split; reflexivity.
    + intros Hnone. exfalso. apply (Hnone r0 Hin0). now apply Hm.
Qed.

Lemma patch_sets_row (title content is_hidden : JS.value) (c : clock)
  (r : Note.row) :
  assign_all (patch_sets title content is_hidden (now_iso c)) r =
  {| Note.id := Note.id r;
     Note.title :=
       if is_undefined title then Note.title r else apply_affinity TEXT (bind title);
     Note.content :=
       if is_undefined content then Note.content r
       else apply_affinity TEXT (bind content);
     Note.created_at := Note.created_at r;
     Note.updated_at := stamp c;
     Note.deleted_at := Note.deleted_at r;
     Note.is_hidden :=
       if is_undefined is_hidden then Note.is_hidden r
       else apply_affinity NUMERIC (bind is_hidden);
     Note.user_id := Note.user_id r |}.
Proof.
  unfold patch_sets.
  destruct (is_undefined title); destruct (is_undefined content);
    destruct (is_undefined is_hidden); reflexivity.
Qed.

(** X10: PATCH touches the supplied fields only.  When it answers 200, every
    row it rewrites holds the value of each property the body has, as the
    column stores it, and keeps title, content or is_hidden where the body
    has no such property; id, created_at, deleted_at and user_id are kept in
    any case.  Rows outside the scope are as they were. *)
Theorem patch_touches_supplied_fields_only (userId : JS.value) (req : Req.t)
  (c : clock) (db : database) :
  Res.status (fst (patch_note userId req c db)) = 200 ->
  let title := Req.title (Req.json req) in
  let content := Req.content (Req.json req) in
  let is_hidden := Req.is_hidden (Req.json req) in
  Forall2
    (fun r r' =>
       if where_live (SText (Req.params_id req)) (bind userId) r then
         Note.id r' = Note.id r /\
         Note.created_at r' = Note.created_at r /\
         Note.deleted_at r' = Note.deleted_at r /\
         Note.user_id r' = Note.user_id r /\
         Note.title r' = (if is_undefined title then Note.title r
                          else apply_affinity TEXT (bind title)) /\
         Note.content r' = (if is_undefined content then Note.content r
                            else apply_affinity TEXT (bind content)) /\
         Note.is_hidden r' = (if is_undefined is_hidden then Note.is_hidden r
                              else apply_affinity NUMERIC (bind is_hidden))
       else r' = r)
    (notes db) (notes (snd (patch_note userId req c db))).
Proof.
  intros Hok title content is_hidden.
  destruct (patch_note_inv userId req c db) as [[_ Hno] | [Heq _]];
    [contradiction |].
  rewrite Heq. cbn [snd respond with_notes notes].
  apply Forall2_map_hit; intros x Hx; rewrite Hx; [| reflexivity].
  rewrite patch_sets_row. cbn. repeat split.
Qed.

Lemma patch_sets_null (title content is_hidden : JS.value) (now : string) :
  title = Null \/ content = Null \/ is_hidden = Null ->
  first_error (map (fun s => assign_check (fst s) (snd s))
                   (patch_sets title content is_hidden now)) <> None.
Proof.
  intros H. unfold patch_sets.
  destruct H as [-> | [-> | ->]]; cbn [is_undefined bind].
  - apply (first_error_some _ (NotNullFailed "notes.title")). now left.
  - apply (first_error_some _ (NotNullFailed "notes.content")).
    destruct (is_undefined title); [now left | right; now left].
  - apply (first_error_some _ (NotNullFailed "notes.is_hidden")).
    destruct (is_undefined title); destruct (is_undefined content);
      cbn; auto.
Qed.

(** X11: PATCH checks presence with [!== undefined], so an explicit null
    passes the check.  For a live note of the caller, a patch with null for
    title, content or is_hidden is answered 500 and changes nothing; where
    the scope matches no row the same patch is answered 404. *)
Theorem patch_with_null_field (userId : JS.value) (req : Req.t) (c : clock)
  (db : database) :
  Req.title (Req.json req) = Null \/
  Req.content (Req.json req) = Null \/
  Req.is_hidden (Req.json req) = Null ->
  snd (patch_note userId req c db) = db /\
  ((exists r, In r (notes db) /\
              where_live (SText (Req.params_id req)) (bind userId) r = true) ->
   Res.status (fst (patch_note userId req c db)) = 500) /\
  ((forall r, In r (notes db) ->
              where_live (SText (Req.params_id req)) (bind userId) r = false) ->
   Res.status (fst (patch_note userId req c db)) = 404).
Proof.
  intros Hnull.
  assert (Hdef : is_undefined (Req.title (Req.json req))
                 && is_undefined (Req.content (Req.json req))
                 && is_undefined (Req.is_hidden (Req.json req)) = false).
  { destruct Hnull as [-> | [-> | ->]]; simpl; rewrite ?andb_false_r; reflexivity. }
  rewrite (patch_note_statement _ _ _ _ Hdef).
  pose proof (patch_sets_null _ _ _ (now_iso c) Hnull) as Hchk.
  unfold update_notes.
  destruct (filter _ (notes db)) as [|h t] eqn:F.
  - cbn. split; [apply with_notes_same |]. split; [| reflexivity].
    intros [r [Hr Mr]]. rewrite filter_nil_iff in F. rewrite (F r Hr) in Mr.
    discriminate.
  - destruct (first_error _) as [e |]; [| contradiction]. cbn.
    split; [reflexivity |]. split; [reflexivity |].
    intros Hnone.
    assert (Hh : In h (filter (where_live (SText (Req.params_id req)) (bind userId))
                              (notes db))) by (rewrite F; now left).
    apply filter_In in Hh. destruct Hh as [Hh Mh].
    rewrite (Hnone h Hh) in Mh. discriminate.
Qed.

(** ** Isolation between callers *)

Lemma In_map_unless (p : Note.row -> bool) (g : Note.row -> Note.row)
  (r : Note.row) (rows : list Note.row) :
  In r rows -> p r = false ->
  In r (map (fun x => if p x then g x else x) rows).
Proof. intros Hin Hp. apply in_map_iff. exists r. now rewrite Hp. Qed.

(** A row whose owner is not the resolved caller is still there, as it was,
    after the handler of any note route. *)
Lemma foreign_row_stays (userId : JS.value) (req : Req.t) (c : clock)
  (db : database) (r : Note.row) :
  In r (notes db) ->
  column_eqb INTEGER (Note.user_id r) (bind userId) = false ->
  In r (notes (snd (get_notes userId req c db))) /\
  In r (notes (snd (post_notes userId req c db))) /\
  In r (notes (snd (patch_note userId req c db))) /\
  In r (notes (snd (delete_note userId req c db))).
Proof.
  intros Hin Hown. split; [exact Hin |]. split; [| split].
  - destruct (post_notes_inv userId req c db) as [[-> _] | [i [-> _]]];
      [exact Hin |].
    simpl. apply In_insert_by. now right.
  - destruct (patch_note_inv userId req c db) as [[-> _] | [-> _]]; [exact Hin |].
    simpl. apply In_map_unless; [exact Hin |].
    unfold where_live. now rewrite Hown, andb_false_r.
  - destruct (delete_note_inv userId req c db) as [[-> _] | [-> _]]; [exact Hin |].
    simpl. apply In_map_unless; [exact Hin |].
    unfold where_owned. now rewrite Hown, andb_false_r.
Qed.

Lemma users_routes_keep_notes (req : Req.t) (c : clock) (db : database) :
  notes (snd (post_users req c db)) = notes db /\
  snd (get_user req c db) = db.
Proof.
  split.
  - destruct (post_users_inv req c db) as [[-> _] | [i [_ [-> _]]]]; reflexivity.
  - rewrite get_user_statement. now destruct (find _ (users db)).
Qed.

(** X12: no request changes a note of another owner.  Whatever the route,
    a stored note whose user_id differs from the id that the request's header
    resolves to is stored afterwards exactly as it was. *)
Theorem requests_leave_foreign_notes (rt : route) (req : Req.t) (c : clock)
  (db : database) (r : Note.row) :
  In r (notes db) ->
  (forall s, Req.x_user_id req = Some s ->
             column_eqb INTEGER (Note.user_id r) (bind (parseInt s)) = false) ->
  In r (notes (snd (app rt req c db))).
Proof.
  intros Hin Hforeign.
  assert (Hmw : forall next : JS.value -> handler,
            (forall userId,
                column_eqb INTEGER (Note.user_id r) (bind userId) = false ->
                In r (notes (snd (next userId req c db)))) ->
            In r (notes (snd (userFromHeader next req c db)))).
  { intros next Hnext.
    destruct (userFromHeader_cases next req c db) as [-> | [s [Hs [_ ->]]]];
      [exact Hin | apply Hnext; now apply Hforeign]. }
  destruct rt; simpl.
  - now rewrite (proj1 (users_routes_keep_notes req c db)).
  - now rewrite (proj2 (users_routes_keep_notes req c db)).
  - apply Hmw. intros u Hu. apply (foreign_row_stays u req c db r Hin Hu).
  - apply Hmw. intros u Hu. apply (foreign_row_stays u req c db r Hin Hu).
  - apply Hmw. intros u Hu. apply (foreign_row_stays u req c db r Hin Hu).
  - apply Hmw. intros u Hu. apply (foreign_row_stays u req c db r Hin Hu).
Qed.

Lemma null_owner_matches_nobody (r : Note.row) (owner : Sql.value) :
  Note.user_id r = SNull -> column_eqb INTEGER (Note.user_id r) owner = false.
Proof. intros ->. reflexivity. Qed.

(** X13: a header without digits makes an orphan.  POST /notes under a
    header that resolves to NaN, when answered 201, stores a note whose
    user_id is NULL; a note whose user_id is NULL is listed for no caller, and
    no request of any caller, with any header, changes it. *)
Theorem notes_without_owner_are_unreachable :
  (forall (req : Req.t) (c : clock) (db : database) (s : string),
     Req.x_user_id req = Some s -> parseInt s = NaN ->
     Res.status (fst (app POST_notes req c db)) = 201 ->
     exists row,
       In row (notes (snd (app POST_notes req c db))) /\
       ~ In (Note.id row) (map Note.id (notes db)) /\
       Note.user_id row = SNull) /\
  (forall (r : Note.row) (db : database),
     In r (notes db) -> Note.user_id r = SNull ->
     (forall (userId : JS.value) (req : Req.t) (c : clock),
        ~ In r (listed (fst (get_notes userId req c db)))) /\
     (forall (rt : route) (req : Req.t) (c : clock),
        In r (notes (snd (app rt req c db))))).
Proof.
  split.
  - intros req c db s Hs Hnan. simpl.
    destruct (userFromHeader_cases post_notes req c db) as [-> | [s' [Hs' [_ ->]]]];
      [discriminate |].
    rewrite Hs in Hs'. injection Hs' as <-. rewrite Hnan. intros Hok.
    destruct (post_notes_inv NaN req c db) as [[_ Hno] | [i [Heq Hfresh]]];
      [contradiction |].
    rewrite Heq. cbn [snd respond with_notes notes].
    eexists. split; [apply In_insert_by; left; reflexivity |].
    split; [exact Hfresh | reflexivity].
  - intros r db Hin Hnull. split.
    + intros userId req c. rewrite get_notes_statement.
      unfold respond, listed. cbn [fst Res.body]. rewrite filter_In.
      intros [_ Hv]. unfold owned_and_live in Hv.
      rewrite (null_owner_matches_nobody r _ Hnull) in Hv. discriminate.
    + intros rt req c.
      assert (Hmw : forall next : JS.value -> handler,
                (forall userId, In r (notes (snd (next userId req c db)))) ->
                In r (notes (snd (userFromHeader next req c db)))).
      { intros next Hnext.
        destruct (userFromHeader_cases next req c db) as [-> | [s [_ [_ ->]]]];
          [exact Hin | apply Hnext]. }
      destruct rt; simpl.
      * now rewrite (proj1 (users_routes_keep_notes req c db)).
      * now rewrite (proj2 (users_routes_keep_notes req c db)).
      * apply Hmw. intros u.
        apply (foreign_row_stays u req c db r Hin (null_owner_matches_nobody r _ Hnull)).
      * apply Hmw. intros u.
        apply (foreign_row_stays u req c db r Hin (null_owner_matches_nobody r _ Hnull)).
      * apply Hmw. intros u.
        apply (foreign_row_stays u req c db r Hin (null_owner_matches_nobody r _ Hnull)).
      * apply Hmw. intros u.
        apply (foreign_row_stays u req c db r Hin (null_owner_matches_nobody r _ Hnull)).
Qed.

(** ** Failures and the two tables *)

(** X14: a request that is not answered 200 or 201 changes nothing: every
    400, 404 and 500 of every route returns the database as it was. *)
Theorem failed_requests_change_nothing (rt : route) (req : Req.t) (c : clock)
  (db : database) :
  Res.status (fst (app rt req c db)) <> 200 ->
  Res.status (fst (app rt req c db)) <> 201 ->
  snd (app rt req c db) = db.
Proof.
  assert (Hmw : forall next : JS.value -> handler,
            (forall userId,
                Res.status (fst (next userId req c db)) <> 200 ->
                Res.status (fst (next userId req c db)) <> 201 ->
                snd (next userId req c db) = db) ->
            Res.status (fst (userFromHeader next req c db)) <> 200 ->
            Res.status (fst (userFromHeader next req c db)) <> 201 ->
            snd (userFromHeader next req c db) = db).
  { intros next Hnext.
    destruct (userFromHeader_cases next req c db) as [-> | [s [_ [_ ->]]]];
      [reflexivity | apply Hnext]. }
  destruct rt; simpl.
  - intros _ H. destruct (post_users_inv req c db) as [[Hs _] | [i [_ [Heq _]]]];
      [exact Hs |]. rewrite Heq in H. simpl in H. contradiction.
  - intros _ _. apply users_routes_keep_notes.
  - apply Hmw. intros u _ _. reflexivity.
  - apply Hmw. intros u _ H.
    destruct (post_notes_inv u req c db) as [[Hs _] | [i [Heq _]]]; [exact Hs |].
    rewrite Heq in H. simpl in H. contradiction.
  - apply Hmw. intros u H _.
    destruct (patch_note_inv u req c db) as [[Hs _] | [Heq _]]; [exact Hs |].
    rewrite Heq in H. simpl in H. contradiction.
  - apply Hmw. intros u H _.
    destruct (delete_note_inv u req c db) as [[Hs _] | [Heq _]]; [exact Hs |].
    rewrite Heq in H. simpl in H. contradiction.
Qed.

(** X15: the routes keep to their table.  The two GET routes return the
    database as it was; POST /users leaves the notes alone; the note routes
    leave the users alone; and no route alters or removes a stored user. *)
Theorem routes_keep_to_their_table (rt : route) (req : Req.t) (c : clock)
  (db : database) :
  (rt = GET_users_id \/ rt = GET_notes -> snd (app rt req c db) = db) /\
  (rt = POST_users -> notes (snd (app rt req c db)) = notes db) /\
  (rt <> POST_users -> users (snd (app rt req c db)) = users db) /\
  (forall u, In u (users db) -> In u (users (snd (app rt req c db)))).
Proof.
  assert (Hmw : forall next : JS.value -> handler,
            (forall userId, users (snd (next userId req c db)) = users db) ->
            users (snd (userFromHeader next req c db)) = users db).
  { intros next Hnext.
    destruct (userFromHeader_cases next req c db) as [-> | [s [_ [_ ->]]]];
      [reflexivity | apply Hnext]. }
  assert (Hnotes : rt <> POST_users -> users (snd (app rt req c db)) = users db).
  { intros Hrt. destruct rt; simpl; try contradiction.
    - now rewrite (proj2 (users_routes_keep_notes req c db)).
    - apply Hmw. reflexivity.
    - apply Hmw. intros u.
      destruct (post_notes_inv u req c db) as [[-> _] | [i [-> _]]]; reflexivity.
    - apply Hmw. intros u.
      destruct (patch_note_inv u req c db) as [[-> _] | [-> _]]; reflexivity.
    - apply Hmw. intros u.
      destruct (delete_note_inv u req c db) as [[-> _] | [-> _]]; reflexivity. }
  split; [| split; [| split; [exact Hnotes |]]].
  - intros [-> | ->]; simpl.
    + apply users_routes_keep_notes.
    + destruct (userFromHeader_cases get_notes req c db) as [-> | [s [_ [_ ->]]]];
        reflexivity.
  - intros ->. simpl. apply users_routes_keep_notes.
  - intros u Hu. destruct rt; try (rewrite Hnotes; [exact Hu | discriminate]).
    simpl. destruct (post_users_inv req c db) as [[-> _] | [i [_ [-> _]]]];
      [exact Hu |].
    simpl. apply In_insert_by. now right.
Qed.

(** ** The keys of the schema *)

Lemma insert_keeps_NoDup {A B : Type} (f : A -> B) (key : A -> Z) (x : A)
  (l : list A) :
  ~ In (f x) (map f l) -> NoDup (map f l) -> NoDup (map f (insert_by key x l)).
Proof.
  destruct (insert_by_split key x l) as [b [a [-> ->]]].
  rewrite !map_app. simpl. intros Hfresh Hnd.
  apply (Permutation_NoDup (Permutation_middle _ _ _)). now constructor.
Qed.

Lemma update_keeps_ids (p : Note.row -> bool) (g : Note.row -> Note.row)
  (rows : list Note.row) :
  (forall r, Note.id (g r) = Note.id r) ->
  map Note.id (map (fun r => if p r then g r else r) rows) = map Note.id rows.
Proof.
  intros Hg. rewrite map_map. apply map_ext. intros r.
  destruct (p r); [apply Hg | reflexivity].
Qed.

Lemma note_routes_keep_ids (userId : JS.value) (req : Req.t) (c : clock)
  (db : database) :
  NoDup (map Note.id (notes db)) ->
  NoDup (map Note.id (notes (snd (post_notes userId req c db)))) /\
  NoDup (map Note.id (notes (snd (patch_note userId req c db)))) /\
  NoDup (map Note.id (notes (snd (delete_note userId req c db)))).
Proof.
  intros Hnd. split; [| split].
  - destruct (post_notes_inv userId req c db) as [[-> _] | [i [-> Hfresh]]];
      [exact Hnd |].
    simpl. now apply insert_keeps_NoDup.
  - destruct (patch_note_inv userId req c db) as [[-> _] | [-> _]]; [exact Hnd |].
    simpl. rewrite update_keeps_ids; [exact Hnd |].
    intros r. apply assign_all_keeps.
  - destruct (delete_note_inv userId req c db) as [[-> _] | [-> _]]; [exact Hnd |].
    simpl. rewrite update_keeps_ids; [exact Hnd | reflexivity].
Qed.

Lemma truthy_is_stored_as_text (v : JS.value) :
  truthy v = true -> exists s, apply_affinity TEXT (bind v) = SText s.
Proof. destruct v as [| | [] | | n | s]; simpl; try discriminate; eauto. Qed.

Lemma names_insert (key : User.row -> Z) (x : User.row) (l : list User.row)
  (s : string) :
  User.username x = SText s ->
  existsb (fun r => eqb (User.username r) (SText s)) l = false ->
  NoDup (filter (fun v => negb (is_null v)) (map User.username l)) ->
  NoDup (filter (fun v => negb (is_null v)) (map User.username (insert_by key x l))).
Proof.
  intros Hx Hex. destruct (insert_by_split key x l) as [b [a [-> ->]]].
  rewrite !map_app, !filter_app. simpl. rewrite Hx. simpl. intros Hnd.
  apply (Permutation_NoDup (Permutation_middle _ _ _)). constructor; [| exact Hnd].
  rewrite <- filter_app, <- map_app, filter_In, in_map_iff.
  intros [[r [Hr Hin]] _].
  rewrite existsb_false_iff in Hex. specialize (Hex r Hin). cbv beta in Hex.
  rewrite Hr in Hex. simpl in Hex. rewrite String.eqb_refl in Hex. discriminate.
Qed.

Lemma app_keeps_keys (rt : route) (req : Req.t) (c : clock) (db : database) :
  keys_intact db -> keys_intact (snd (app rt req c db)).
Proof.
  intros [Hn [Hu Hnames]].
  assert (Hmw : forall next : JS.value -> handler,
            (forall userId, keys_intact (snd (next userId req c db))) ->
            keys_intact (snd (userFromHeader next req c db))).
  { intros next Hnext.
    destruct (userFromHeader_cases next req c db) as [-> | [s [_ [_ ->]]]];
      [repeat split; assumption | apply Hnext]. }
  assert (Hnote : forall db', users db' = users db ->
                              NoDup (map Note.id (notes db')) -> keys_intact db').
  { intros db' Hsame Hnd. unfold keys_intact. rewrite Hsame. auto. }
  destruct rt; simpl.
  - destruct (post_users_inv req c db) as [[-> _] | [i [T [-> [Hfresh Hex]]]]];
      [repeat split; assumption |].
    destruct (truthy_is_stored_as_text _ T) as [s Hs]. rewrite Hs in *.
    unfold keys_intact. cbn [snd respond with_users users notes].
    split; [exact Hn |]. split.
    + now apply insert_keeps_NoDup.
    + now apply (names_insert User.id _ _ s).
  - rewrite (proj2 (users_routes_keep_notes req c db)). repeat split; assumption.
  - apply Hmw. intros u. repeat split; assumption.
  - apply Hmw. intros u. apply Hnote.
    + destruct (post_notes_inv u req c db) as [[-> _] | [i [-> _]]]; reflexivity.
    + now apply note_routes_keep_ids.
  - apply Hmw. intros u. apply Hnote.
    + destruct (patch_note_inv u req c db) as [[-> _] | [-> _]]; reflexivity.
    + now apply note_routes_keep_ids.
  - apply Hmw. intros u. apply Hnote.
    + destruct (delete_note_inv u req c db) as [[-> _] | [-> _]]; reflexivity.
    + now apply note_routes_keep_ids.
Qed.

Lemma serve_cons (rt : route) (req : Req.t) (c : clock)
  (rest : list (route * Req.t * clock)) (db : database) :
  snd (serve ((rt, req, c) :: rest) db) = snd (serve rest (snd (app rt req c db))) /\
  fst (serve ((rt, req, c) :: rest) db)
  = fst (app rt req c db) :: fst (serve rest (snd (app rt req c db))).
Proof.
  cbn [serve]. destruct (app rt req c db) as [res db']. cbn [fst snd].
  destruct (serve rest db') as [rs db'']. split; reflexivity.
Qed.

(** X16: the keys survive every request.  If no two notes share an id, no
    two users share an id and no two users share a username, then the same
    holds after any sequence of requests, whatever they are and however they
    are answered. *)
Theorem requests_keep_keys_intact (requests : list (route * Req.t * clock))
  (db : database) :
  keys_intact db -> keys_intact (snd (serve requests db)).
Proof.
  revert db. induction requests as [|[[rt req] c] rest IH]; intros db Hk.
  - exact Hk.
  - rewrite (proj1 (serve_cons rt req c rest db)). apply IH. now apply app_keeps_keys.
Qed.

Lemma id_match_unique (i j : Z) (key : Sql.value) :
  column_eqb INTEGER (SNum (Int i)) key = true ->
  column_eqb INTEGER (SNum (Int j)) key = true ->
  i = j.
Proof.
  unfold column_eqb. destruct (apply_affinity INTEGER key) as [| [z | b] | s];
    simpl; try discriminate.
  rewrite !Z.eqb_eq. congruence.
Qed.

Lemma map_one_hit (p : Note.row -> bool) (g : Note.row -> Note.row)
  (rows : list Note.row) (r : Note.row) :
  NoDup (map Note.id rows) ->
  (forall x y, p x = true -> p y = true -> Note.id x = Note.id y) ->
  In r rows -> p r = true ->
  exists before after,
    rows = (before ++ r :: after)%list /\
    map (fun x => if p x then g x else x) rows = (before ++ g r :: after)%list.
Proof.
  intros Hnd Hsame Hin Hp.
  destruct (in_split _ _ Hin) as [b [a ->]]. exists b, a. split; [reflexivity |].
  rewrite map_app in Hnd. simpl in Hnd. apply NoDup_remove_2 in Hnd.
  assert (Hmiss : forall x, In x (b ++ a)%list -> p x = false).
  { intros x Hx. destruct (p x) eqn:Px; [| reflexivity].
    exfalso. apply Hnd. rewrite <- map_app, <- (Hsame x r Px Hp). now apply in_map. }
  rewrite map_app. simpl. rewrite Hp. f_equal; [| f_equal];
    apply map_unless_hit; intros x Hx; apply Hmiss; apply in_or_app; auto.
Qed.

(** X17: with distinct note ids, a successful write changes one row.  A
    PATCH or a DELETE answered 200 rewrites exactly one row of the table, in
    place: the row of the requested id, which after a DELETE differs in
    deleted_at only; the rows before and after it are as they were. *)
Theorem successful_write_changes_one_row (userId : JS.value) (req : Req.t)
  (c : clock) (db : database) :
  NoDup (map Note.id (notes db)) ->
  (Res.status (fst (patch_note userId req c db)) = 200 ->
   exists before r r' after,
     notes db = (before ++ r :: after)%list /\
     notes (snd (patch_note userId req c db)) = (before ++ r' :: after)%list /\
     where_live (SText (Req.params_id req)) (bind userId) r = true /\
     Note.id r' = Note.id r) /\
  (Res.status (fst (delete_note userId req c db)) = 200 ->
   exists before r after,
     notes db = (before ++ r :: after)%list /\
     notes (snd (delete_note userId req c db))
     = (before ++ Note.with_deleted_at (stamp c) r :: after)%list /\
     where_owned (SText (Req.params_id req)) (bind userId) r = true).
Proof.
  intros Hnd. split; intros Hok.
  - destruct (patch_note_inv userId req c db) as [[_ Hno] | [Heq [r [Hin Hr]]]];
      [contradiction |].
    destruct (map_one_hit (where_live (SText (Req.params_id req)) (bind userId))
                (assign_all (patch_sets (Req.title (Req.json req))
                               (Req.content (Req.json req))
                               (Req.is_hidden (Req.json req)) (now_iso c)))
                (notes db) r Hnd) as [b [a [Hsplit Hmap]]]; auto.
    { intros x y Hx Hy. apply where_live_true in Hx, Hy.
      destruct Hx as [Hx _], Hy as [Hy _]. exact (id_match_unique _ _ _ Hx Hy). }
    exists b, r,
      (assign_all (patch_sets (Req.title (Req.json req)) (Req.content (Req.json req))
                              (Req.is_hidden (Req.json req)) (now_iso c)) r), a.
    split; [exact Hsplit |]. rewrite Heq.
    cbn [snd respond with_notes notes]. split; [exact Hmap |].
    split; [exact Hr | apply assign_all_keeps].
  - destruct (delete_note_inv userId req c db) as [[_ Hno] | [Heq [r [Hin Hr]]]];
      [contradiction |].
    destruct (map_one_hit (where_owned (SText (Req.params_id req)) (bind userId))
                (Note.with_deleted_at (stamp c))
                (notes db) r Hnd) as [b [a [Hsplit Hmap]]]; auto.
    { intros x y Hx Hy. apply where_owned_true in Hx, Hy.
      destruct Hx as [Hx _], Hy as [Hy _]. exact (id_match_unique _ _ _ Hx Hy). }
    exists b, r, a. split; [exact Hsplit |]. rewrite Heq.
    cbn [snd respond with_notes notes]. split; [exact Hmap | exact Hr].
Qed.

(** ** The life of a note *)

Lemma kept_refl (rows : list Note.row) : owner_and_deletion_kept rows rows.
Proof. intros i r H. exists r. auto. Qed.

Lemma kept_trans (a b d : list Note.row) :
  owner_and_deletion_kept a b -> owner_and_deletion_kept b d ->
  owner_and_deletion_kept a d.
Proof.
  intros Hab Hbd i r H. destruct (Hab i r H) as [r1 [F1 [O1 D1]]].
  destruct (Hbd i r1 F1) as [r2 [F2 [O2 D2]]].
  exists r2. split; [exact F2 |]. split; [congruence | auto].
Qed.

Lemma kept_map (g : Note.row -> Note.row) (rows : list Note.row) :
  (forall r, Note.id (g r) = Note.id r) ->
  (forall r, Note.user_id (g r) = Note.user_id r) ->
  (forall r, Note.deleted_at r <> SNull -> Note.deleted_at (g r) <> SNull) ->
  owner_and_deletion_kept rows (map g rows).
Proof.
  intros Hid Hown Hdel i r H. rewrite (find_note_map g i rows Hid), H. simpl.
  exists (g r). auto.
Qed.

Lemma kept_insert (x : Note.row) (rows : list Note.row) :
  ~ In (Note.id x) (map Note.id rows) ->
  owner_and_deletion_kept rows (insert_by Note.id x rows).
Proof.
  intros Hfresh i r H. exists r. split; [| auto].
  rewrite find_note_insert_other; [exact H |].
  destruct (find_note_some _ _ _ H) as [Hin <-].
  intros Heq. apply Hfresh. rewrite Heq. now apply in_map.
Qed.

Lemma app_keeps_owner_and_deletion (rt : route) (req : Req.t) (c : clock)
  (db : database) :
  owner_and_deletion_kept (notes db) (notes (snd (app rt req c db))).
Proof.
  assert (Hmw : forall next : JS.value -> handler,
            (forall userId,
                owner_and_deletion_kept (notes db) (notes (snd (next userId req c db)))) ->
            owner_and_deletion_kept (notes db)
                                    (notes (snd (userFromHeader next req c db)))).
  { intros next Hnext.
    destruct (userFromHeader_cases next req c db) as [-> | [s [_ [_ ->]]]];
      [apply kept_refl | apply Hnext]. }
  destruct rt; simpl.
  - rewrite (proj1 (users_routes_keep_notes req c db)). apply kept_refl.
  - rewrite (proj2 (users_routes_keep_notes req c db)). apply kept_refl.
  - apply Hmw. intros u. apply kept_refl.
  - apply Hmw. intros u.
    destruct (post_notes_inv u req c db) as [[-> _] | [i [-> Hfresh]]];
      [apply kept_refl | simpl; now apply kept_insert].
  - apply Hmw. intros u.
    destruct (patch_note_inv u req c db) as [[-> _] | [-> _]]; [apply kept_refl |].
    simpl. apply kept_map; intros r; destruct (where_live _ _ r); auto.
    + apply assign_all_keeps.
    + apply assign_all_keeps.
    + now rewrite patch_sets_keeps_deleted_at.
  - apply Hmw. intros u.
    destruct (delete_note_inv u req c db) as [[-> _] | [-> _]]; [apply kept_refl |].
    simpl. apply kept_map; intros r; destruct (where_owned _ _ r); auto.
    intros _. apply stamp_neq_null.
Qed.

Lemma same_id_same_row (rows : list Note.row) (a b : Note.row) :
  NoDup (map Note.id rows) -> In a rows -> In b rows ->
  Note.id a = Note.id b -> a = b.
Proof.
  induction rows as [|x rows IH]; simpl; intros Hnd Ha Hb Hid; [contradiction |].
  inversion Hnd as [| ? ? Hx Hnd']; subst.
  destruct Ha as [<- | Ha], Hb as [<- | Hb]; auto.
  - exfalso. apply Hx. rewrite Hid. now apply in_map.
  - exfalso. apply Hx. rewrite <- Hid. now apply in_map.
Qed.

(** X18: a note is never erased, never changes owner and never comes back.
    After any sequence of requests, a note that could be found by its id can
    still be found, with the same user_id, and with deleted_at set if it was
    set; and when the note ids are distinct, a note with deleted_at set is in
    no listing of GET /notes afterwards, for any caller. *)
Theorem deleted_notes_stay_deleted (requests : list (route * Req.t * clock))
  (db : database) :
  owner_and_deletion_kept (notes db) (notes (snd (serve requests db))) /\
  (keys_intact db ->
   forall i r,
     find_note i (notes db) = Some r -> Note.deleted_at r <> SNull ->
     forall (userId : JS.value) (req : Req.t) (c : clock) (r' : Note.row),
       In r' (listed (fst (get_notes userId req c (snd (serve requests db))))) ->
       Note.id r' <> i).
Proof.
  assert (Hkept : forall reqs d,
            owner_and_deletion_kept (notes d) (notes (snd (serve reqs d)))).
  { induction reqs as [|[[rt rq] ck] rest IH]; intros d.
    - apply kept_refl.
    - rewrite (proj1 (serve_cons rt rq ck rest d)).
      eapply kept_trans; [apply app_keeps_owner_and_deletion | apply IH]. }
  split; [apply Hkept |].
  intros Hk i r Hfind Hdel userId req c r'.
  assert (Hk' : keys_intact (snd (serve requests db))).
  { clear - Hk. revert db Hk.
    induction requests as [|[[rt rq] ck] rest IH]; intros db Hk; [exact Hk |].
    rewrite (proj1 (serve_cons rt rq ck rest db)). apply IH. now apply app_keeps_keys. }
  destruct (Hkept requests db i r Hfind) as [r1 [F1 [_ D1]]].
  specialize (D1 Hdel). destruct (find_note_some _ _ _ F1) as [Hin1 Hid1].
  rewrite get_notes_statement. unfold respond, listed. cbn [fst Res.body].
  rewrite filter_In. intros [Hin' Hvis] Hid'.
  assert (r' = r1).
  { apply (same_id_same_row (notes (snd (serve requests db)))); auto.
    - apply Hk'.
    - congruence. }
  subst r'. unfold owned_and_live in Hvis. apply andb_true_iff in Hvis.
  destruct Hvis as [_ Hnull]. destruct (Note.deleted_at r1); try discriminate.
  now apply D1.
Qed.

(** ** How the operations compose *)

(** X19: a deleted note rejects updates.  After a DELETE answered 200, a
    PATCH by the same caller for the same path segment changes nothing and is
    answered 404 when the body has a field (400 when it has none), at any
    later time. *)
Theorem patch_after_delete_not_found (userId : JS.value) (req req' : Req.t)
  (c c' : clock) (db : database) :
  Res.status (fst (delete_note userId req c db)) = 200 ->
  Req.params_id req' = Req.params_id req ->
  let db1 := snd (delete_note userId req c db) in
  snd (patch_note userId req' c' db1) = db1 /\
  Res.status (fst (patch_note userId req' c' db1))
  = (if is_undefined (Req.title (Req.json req'))
        && is_undefined (Req.content (Req.json req'))
        && is_undefined (Req.is_hidden (Req.json req'))
     then 400 else 404).
Proof.
  intros Hok Hid db1. subst db1.
  destruct (delete_note_inv userId req c db) as [[_ Hno] | [Heq _]];
    [contradiction |].
  rewrite Heq. cbn [snd respond].
  destruct (is_undefined (Req.title (Req.json req'))
            && is_undefined (Req.content (Req.json req'))
            && is_undefined (Req.is_hidden (Req.json req'))) eqn:Hdef.
  - unfold patch_note. rewrite Hdef. split; reflexivity.
  - rewrite (patch_note_statement _ _ _ _ Hdef), update_notes_miss.
    + cbn. split; [apply with_notes_same | reflexivity].
    + cbn [with_notes notes]. intros r Hr. apply in_map_iff in Hr.
      destruct Hr as [r0 [<- _]]. rewrite Hid.
      destruct (where_owned (SText (Req.params_id req)) (bind userId) r0) eqn:O.
      * unfold where_live. cbn [Note.deleted_at Note.with_deleted_at].
        now rewrite stamp_not_null, andb_false_r.
      * unfold where_live, where_owned in *. now rewrite O.
Qed.

(** X20: a created note can be updated by its creator.  After a POST /notes
    by a numeric caller answered 201, a PATCH by the same caller whose path
    segment denotes the new rowid and whose body has a title only is answered
    200, and the stored note then has that title, updated_at at the time of
    the PATCH, and everything else as created: a row with the new rowid
    whose title is the text of the PATCH, whose updated_at is the time of the
    PATCH, whose content, created_at and is_hidden are those returned by the
    POST, whose user_id is the caller and whose deleted_at is NULL. *)
Theorem created_note_can_be_retitled (U : num) (req req' : Req.t) (c c' : clock)
  (db : database) (t : string) :
  Res.status (fst (post_notes (Number U) req c db)) = 201 ->
  Req.title (Req.json req') = Str t ->
  Req.content (Req.json req') = Undefined ->
  Req.is_hidden (Req.json req') = Undefined ->
  exists rowid n,
    fst (post_notes (Number U) req c db)
    = {| Res.status := 201; Res.body := Res.note_created n |} /\
    Res.id n = lastID rowid /\
    In (stored rowid n) (notes (snd (post_notes (Number U) req c db))) /\
    (numeric_of_text (Req.params_id req') = Some (Int rowid) ->
     Res.status (fst (patch_note (Number U) req' c'
                                 (snd (post_notes (Number U) req c db)))) = 200 /\
     In (Note.with_updated_at (stamp c') (Note.with_title (SText t) (stored rowid n)))
        (notes (snd (patch_note (Number U) req' c'
                                (snd (post_notes (Number U) req c db))))) /\
     exists r',
       In r' (notes (snd (patch_note (Number U) req' c'
                                     (snd (post_notes (Number U) req c db))))) /\
       Note.id r' = rowid /\
       Note.title r' = SText t /\
       Note.updated_at r' = stamp c' /\
       Note.updated_at r' <> SNull /\
       Note.content r' = apply_affinity TEXT (bind (Res.content n)) /\
       Note.created_at r' = apply_affinity NUMERIC (bind (Res.created_at n)) /\
       Note.is_hidden r' = apply_affinity NUMERIC (bind (Res.is_hidden n)) /\
       Note.user_id r' = SNum U /\
       Note.deleted_at r' = SNull).
Proof.
  intros Hok Ht Hc Hh.
  destruct (post_notes_inv (Number U) req c db) as [[_ Hno] | [i [Heq Hfresh]]];
    [contradiction |].
  cbv zeta in Heq. eexists i, _. rewrite Heq. unfold respond. cbn [fst snd].
  split; [reflexivity |]. split; [reflexivity |].
  set (db1 := with_notes db _).
  match goal with
  | |- In ?row _ /\ _ => set (row0 := row)
  end.
  assert (Hin : In row0 (notes db1)) by (apply In_insert_by; now left).
  split; [exact Hin |]. intros Hden.
  assert (Hlive : where_live (SText (Req.params_id req')) (SNum U) row0 = true).
  { apply where_live_true. split; [now apply id_matches_text |].
    split; [now apply owner_eqb | reflexivity]. }
  assert (Eq := patch_one_text_field U req' c' db1 Note.set_title t).
  unfold patch_sets in Eq. rewrite Ht, Hc, Hh in Eq.
  specialize (Eq eq_refl (or_introl eq_refl) (ex_intro _ row0 (conj Hin Hlive))).
  rewrite Eq. unfold respond. cbn [fst snd Res.status].
  split; [reflexivity |].
  assert (Hin' : In (Note.with_updated_at (stamp c') (Note.with_title (SText t) row0))
                    (map (fun r => if where_live (SText (Req.params_id req')) (SNum U) r
                                   then Note.with_updated_at (stamp c')
                                          (Note.with_title (SText t) r)
                                   else r) (notes db1))).
  { apply in_map_iff. exists row0. rewrite Hlive. split; [reflexivity | exact Hin]. }
  split; [exact Hin' |].
  exists (Note.with_updated_at (stamp c') (Note.with_title (SText t) row0)).
  split; [exact Hin' |]. split; [reflexivity |]. split; [reflexivity |].
  split; [reflexivity |]. split; [apply stamp_neq_null |].
  repeat split.
Qed.

(** ** Signs and white space in the header *)

Lemma trim_start_white (ws t : string) :
  all_white_space ws = true -> trim_start (ws ++ t) = trim_start t.
Proof.
  induction ws as [|ch ws IH]; cbn [all_white_space append]; [reflexivity |].
  intros H. apply andb_true_iff in H. destruct H as [Hc Hws].
  cbn [trim_start]. rewrite Hc. auto.
Qed.

Lemma parseInt_signed (sign : ascii) (ds rest : string) :
  sign = "+"%char \/ sign = "-"%char ->
  ds <> "" -> all_digits ds = true -> starts_with_digit rest = false ->
  parseInt (String sign (ds ++ rest))
  = Number (to_number ((if Ascii.eqb sign "-" then -1 else 1) * digits_value 0 ds)).
Proof.
  intros Hs Hne Hds Hrest. unfold parseInt.
  destruct Hs as [-> | ->]; cbn [trim_start];
    match goal with
    | |- context [is_white_space ?a] =>
        replace (is_white_space a) with false by (vm_compute; reflexivity)
    end;
    cbv beta iota; rewrite (leading_digits_app ds rest Hds Hrest);
    destruct ds as [|ch ds]; try contradiction; reflexivity.
Qed.

(** X21: the header is read as [parseInt] reads it.  Leading white space is
    skipped and one sign is taken: for digits [ds] followed by no further
    digit, the headers [ws ds], [ws +ds] and [ws -ds] resolve to the value of
    [ds], the same, and its negative, rounded to a double; so a note route runs
    with a negative user id when the header asks for one. *)
Theorem header_sign_and_white_space (ws ds rest : string) :
  all_white_space ws = true ->
  ds <> "" -> all_digits ds = true -> starts_with_digit rest = false ->
  parseInt (ws ++ ds ++ rest) = Number (to_number (digits_value 0 ds)) /\
  parseInt (ws ++ String "+" (ds ++ rest)) = Number (to_number (digits_value 0 ds)) /\
  parseInt (ws ++ String "-" (ds ++ rest))
  = Number (to_number (- digits_value 0 ds)) /\
  forall (next : JS.value -> handler) (req : Req.t) (c : clock) (db : database),
    Req.x_user_id req = Some (String "-" (ds ++ rest)) ->
    userFromHeader next req c db
    = next (Number (to_number (- digits_value 0 ds))) req c db.
Proof.
  intros Hws Hne Hds Hrest.
  assert (Hplain : parseInt (ds ++ rest) = Number (to_number (digits_value 0 ds)))
    by now apply parseInt_digits_prefix.
  assert (Hplus : parseInt (String "+" (ds ++ rest))
                  = Number (to_number (digits_value 0 ds))).
  { rewrite (parseInt_signed "+" ds rest (or_introl eq_refl) Hne Hds Hrest).
    cbn [Ascii.eqb Bool.eqb]. now rewrite Z.mul_1_l. }
  assert (Hminus : parseInt (String "-" (ds ++ rest))
                   = Number (to_number (- digits_value 0 ds))).
  { rewrite (parseInt_signed "-" ds rest (or_intror eq_refl) Hne Hds Hrest).
    cbn [Ascii.eqb Bool.eqb]. do 2 f_equal; lia. }
  assert (Htrim : forall t, parseInt (ws ++ t) = parseInt t).
  { intros t. unfold parseInt. rewrite (trim_start_white ws t Hws). reflexivity. }
  rewrite !Htrim. repeat split; auto.
  intros next req c db Hh. unfold userFromHeader, Req.header. rewrite Hh.
  cbn [truthy String.eqb negb]. now rewrite Hminus.
Qed.

Lemma patch_checks_ignore_clock (title content is_hidden : JS.value)
  (now now' : string) :
  first_error (map (fun s => assign_check (fst s) (snd s))
                   (patch_sets title content is_hidden now))
  = first_error (map (fun s => assign_check (fst s) (snd s))
                     (patch_sets title content is_hidden now')).
Proof.
  assert (Hn : forall s, assign_check Note.set_updated_at (SText s) = None).
  { intros s. unfold assign_check, not_null. simpl.
    now destruct (numeric_of_text s). }
  unfold patch_sets.
  destruct (is_undefined title); destruct (is_undefined content);
    destruct (is_undefined is_hidden);
    cbn [map List.app fst snd first_error]; rewrite !Hn;
    repeat match goal with
           | |- context [assign_check ?a ?v] => destruct (assign_check a v)
           end; reflexivity.
Qed.

Lemma where_live_patched (key owner : Sql.value) (title content is_hidden : JS.value)
  (c : clock) (r : Note.row) :
  where_live key owner
             (assign_all (patch_sets title content is_hidden (now_iso c)) r)
  = where_live key owner r.
Proof. now rewrite patch_sets_row. Qed.

Lemma patch_sets_twice (title content is_hidden : JS.value) (c c' : clock)
  (r : Note.row) :
  assign_all (patch_sets title content is_hidden (now_iso c'))
             (assign_all (patch_sets title content is_hidden (now_iso c)) r)
  = assign_all (patch_sets title content is_hidden (now_iso c')) r.
Proof.
  rewrite !patch_sets_row. cbn.
  destruct (is_undefined title); destruct (is_undefined content);
    destruct (is_undefined is_hidden); reflexivity.
Qed.

(** X22: the last PATCH wins.  When a PATCH is answered 200, repeating the
    same request later is answered 200 again and leaves the database exactly
    as if only the later request had been made: the same fields, updated_at
    at the later time. *)
Theorem patch_twice_is_patch_once (userId : JS.value) (req : Req.t) (c c' : clock)
  (db : database) :
  Res.status (fst (patch_note userId req c db)) = 200 ->
  fst (patch_note userId req c' (snd (patch_note userId req c db)))
  = {| Res.status := 200; Res.body := Res.message "Note updated successfully." |} /\
  snd (patch_note userId req c' (snd (patch_note userId req c db)))
  = snd (patch_note userId req c' db).
Proof.
  intros Hok.
  destruct (patch_note_inv userId req c db) as [[_ Hno] | [Heq [r [Hin Hr]]]];
    [contradiction |].
  assert (Hdef : is_undefined (Req.title (Req.json req))
                 && is_undefined (Req.content (Req.json req))
                 && is_undefined (Req.is_hidden (Req.json req)) = false).
  { destruct (_ && _) eqn:D; [| reflexivity].
    unfold patch_note in Hok. rewrite D in Hok. discriminate. }
  set (m := where_live (SText (Req.params_id req)) (bind userId)) in *.
  set (sets := patch_sets (Req.title (Req.json req)) (Req.content (Req.json req))
                          (Req.is_hidden (Req.json req))) in *.
  assert (Hchk : forall now,
            first_error (map (fun s => assign_check (fst s) (snd s)) (sets now))
            = None).
  { intros now. unfold sets.
    rewrite (patch_checks_ignore_clock _ _ _ now (now_iso c)). fold sets.
    rewrite (patch_note_statement _ _ _ _ Hdef) in Heq. fold m sets in Heq.
    unfold update_notes in Heq.
    destruct (filter m (notes db)) as [|h t] eqn:F.
    - rewrite filter_nil_iff in F. rewrite (F r Hin) in Hr. discriminate.
    - destruct (first_error _); [discriminate | reflexivity]. }
  assert (Hrun : forall d ck,
            (exists x, In x (notes d) /\ m x = true) ->
            patch_note userId req ck d
            = respond 200 (Res.message "Note updated successfully.")
                (with_notes d
                   (map (fun x => if m x then assign_all (sets (now_iso ck)) x else x)
                        (notes d)))).
  { intros d ck Hex. rewrite (patch_note_statement _ _ _ _ Hdef). fold m sets.
    destruct (update_notes_hit (sets (now_iso ck)) m (notes d) Hex (Hchk _))
      as [n [Hn ->]].
    destruct (Z.eqb_spec n 0); [contradiction | reflexivity]. }
  rewrite (Hrun db c (ex_intro _ r (conj Hin Hr))).
  rewrite (Hrun db c' (ex_intro _ r (conj Hin Hr))).
  unfold respond. cbn [fst snd].
  rewrite Hrun.
  - unfold respond, with_notes. cbn [fst snd users notes].
    split; [reflexivity |]. f_equal. rewrite map_map. apply map_ext. intros x.
    destruct (m x) eqn:Mx.
    + subst m sets. rewrite where_live_patched, Mx. apply patch_sets_twice.
    + now rewrite Mx.
  - exists (assign_all (sets (now_iso c)) r). split.
    + cbn [with_notes notes]. apply in_map_iff. exists r. now rewrite Hr.
    + subst m sets. now rewrite where_live_patched.
Qed.

Lemma filter_insert_by_miss {A : Type} (p : A -> bool) (key : A -> Z) (x : A)
  (l : list A) :
  p x = false -> filter p (insert_by key x l) = filter p l.
Proof.
  intros Px. destruct (insert_by_split key x l) as [b [a [-> ->]]].
  rewrite !filter_app. simpl. now rewrite Px.
Qed.

Lemma filter_map_foreign {A : Type} (p q : A -> bool) (g : A -> A) (l : list A) :
  (forall x, q x = true -> p x = false /\ p (g x) = false) ->
  filter p (map (fun x => if q x then g x else x) l) = filter p l.
Proof.
  intros H. induction l as [|a l IH]; simpl; [reflexivity |].
  destruct (q a) eqn:Qa.
  - destruct (H a Qa) as [-> ->]. exact IH.
  - destruct (p a); now rewrite IH.
Qed.

(** What the handlers of another caller do to the listing of [U]. *)
Lemma foreign_handlers_keep_listing (U : num) (userId : JS.value) (req : Req.t)
  (c : clock) (db : database) :
  bind userId <> SNum U ->
  (userId = NaN \/ exists n, userId = Number n) ->
  let mine := filter (owned_and_live (SNum U)) in
  mine (notes (snd (post_notes userId req c db))) = mine (notes db) /\
  mine (notes (snd (patch_note userId req c db))) = mine (notes db) /\
  mine (notes (snd (delete_note userId req c db))) = mine (notes db).
Proof.
  intros Hne Hshape mine. subst mine.
  assert (Hother : forall r, column_eqb INTEGER (Note.user_id r) (bind userId) = true ->
                             owned_and_live (SNum U) r = false).
  { intros r Hr. destruct (owned_and_live (SNum U) r) eqn:O; [| reflexivity].
    apply owned_and_live_true in O. destruct O as [Hu _]. rewrite Hu in Hr.
    exfalso. apply Hne.
    destruct Hshape as [-> | [n ->]]; [discriminate Hr |].
    apply owner_eqb in Hr. simpl. congruence. }
  split; [| split].
  - destruct (post_notes_inv userId req c db) as [[-> _] | [i [-> _]]];
      [reflexivity |].
    cbn [snd respond with_notes notes]. apply filter_insert_by_miss.
    unfold owned_and_live, stored. cbn [Note.user_id Note.deleted_at Res.user_id].
    destruct Hshape as [-> | [n ->]]; [reflexivity |].
    simpl. destruct (num_eqb n U) eqn:N; [| reflexivity].
    apply num_eqb_eq in N. subst. exfalso. now apply Hne.
  - destruct (patch_note_inv userId req c db) as [[-> _] | [-> _]]; [reflexivity |].
    cbn [snd respond with_notes notes]. apply filter_map_foreign.
    intros x Hx. apply where_live_true in Hx. destruct Hx as [_ [Hx _]].
    split; [now apply Hother |]. apply Hother.
    now rewrite (proj2 (proj2 (assign_all_keeps _ x))).
  - destruct (delete_note_inv userId req c db) as [[-> _] | [-> _]]; [reflexivity |].
    cbn [snd respond with_notes notes]. apply filter_map_foreign.
    intros x Hx. apply where_owned_true in Hx. destruct Hx as [_ Hx].
    split; now apply Hother.
Qed.

(** X23: a caller's listing changes by the caller's own requests only.  A
    request whose header does not resolve to [U], on any route, leaves the
    answer of GET /notes for [U] exactly as it was: others can neither add
    to it, nor alter or remove what it shows. *)
Theorem listing_unchanged_by_other_callers (U : num) (rt : route)
  (req req' : Req.t) (c c' : clock) (db : database) :
  (forall s, Req.x_user_id req = Some s -> parseInt s <> Number U) ->
  get_notes (Number U) req' c' (snd (app rt req c db))
  = (fst (get_notes (Number U) req' c' db), snd (app rt req c db)).
Proof.
  intros Hother.
  assert (Hlist : filter (owned_and_live (SNum U)) (notes (snd (app rt req c db)))
                  = filter (owned_and_live (SNum U)) (notes db)).
  { assert (Hmw : forall next : JS.value -> handler,
              (forall userId,
                  bind userId <> SNum U ->
                  (userId = NaN \/ exists n, userId = Number n) ->
                  filter (owned_and_live (SNum U)) (notes (snd (next userId req c db)))
                  = filter (owned_and_live (SNum U)) (notes db)) ->
              filter (owned_and_live (SNum U))
                     (notes (snd (userFromHeader next req c db)))
              = filter (owned_and_live (SNum U)) (notes db)).
    { intros next Hnext.
      destruct (userFromHeader_cases next req c db) as [-> | [s [Hs [_ ->]]]];
        [reflexivity |].
      apply Hnext; [| apply parseInt_cases].
      specialize (Hother s Hs).
      destruct (parseInt_cases s) as [-> | [n Hn]]; [discriminate |].
      rewrite Hn in *. simpl. congruence. }
    destruct rt; simpl.
    - now rewrite (proj1 (users_routes_keep_notes req c db)).
    - now rewrite (proj2 (users_routes_keep_notes req c db)).
    - apply Hmw. reflexivity.
    - apply Hmw. intros u H1 H2. apply (foreign_handlers_keep_listing U u req c db H1 H2).
    - apply Hmw. intros u H1 H2. apply (foreign_handlers_keep_listing U u req c db H1 H2).
    - apply Hmw. intros u H1 H2. apply (foreign_handlers_keep_listing U u req c db H1 H2). }
  rewrite !get_notes_statement. unfold respond. cbn [fst bind]. now rewrite Hlist.
Qed.

(** ** Registration, whatever the username *)

Lemma post_users_outcome (req : Req.t) (c : clock) (db : database) :
  truthy (Req.username (Req.json req)) = true ->
  let u := apply_affinity TEXT (bind (Req.username (Req.json req))) in
  post_users req c db =
  if existsb (fun r => eqb (User.username r) u) (users db) then
    respond 200 (Res.user_row (find (fun r => eqb (User.username r) u) (users db))) db
  else
    match auto_rowid (map User.id (users db)) with
    | Some i =>
        respond 201 (Res.user_created (lastID i) (Req.username (Req.json req)))
          (with_users db
             (insert_by User.id
                {| User.id := i; User.username := u; User.password := SNull |}
                (users db)))
    | None => respond 500 (Res.error "SQLITE_FULL: database or disk is full") db
    end.
Proof.
  intros T u. subst u. unfold post_users. rewrite T. simpl negb. cbv iota.
  unfold insert_user, select_user_by_username, column_eqb, parameter. simpl.
  destruct (existsb _ (users db)); [reflexivity |].
  destruct (auto_rowid (map User.id (users db))); reflexivity.
Qed.

(** X24: the three answers of POST /users.  For any truthy username, the
    answer is 200, 201 or 500 and: a 200 always carries a stored row, whose
    username is the requested one as the column stores it, and changes
    nothing; a 201 means no stored row had that username; a 500 means the
    engine could assign no rowid, and changes nothing. *)
Theorem register_outcomes (req : Req.t) (c : clock) (db : database) :
  truthy (Req.username (Req.json req)) = true ->
  let u := apply_affinity TEXT (bind (Req.username (Req.json req))) in
  let res := fst (post_users req c db) in
  let db' := snd (post_users req c db) in
  (Res.status res = 200 \/ Res.status res = 201 \/ Res.status res = 500) /\
  (Res.status res = 200 ->
   db' = db /\
   exists row, Res.body res = Res.user_row (Some row) /\
               In row (users db) /\ User.username row = u) /\
  (Res.status res = 201 ->
   forall row, In row (users db) -> User.username row <> u) /\
  (Res.status res = 500 ->
   db' = db /\
   Res.body res = Res.error "SQLITE_FULL: database or disk is full" /\
   auto_rowid (map User.id (users db)) = None).
Proof.
  intros T u res db'. subst res db'.
  destruct (truthy_is_stored_as_text _ T) as [s Hs].
  rewrite (post_users_outcome req c db T). fold u. unfold u in *. rewrite Hs.
  destruct (existsb (fun r => eqb (User.username r) (SText s)) (users db)) eqn:X.
  - destruct (existsb_find _ _ X) as [row [F [Hin Prow]]]. rewrite F.
    cbn. split; [auto |]. split; [| split; discriminate].
    intros _. split; [reflexivity |]. exists row. split; [reflexivity |].
    split; [exact Hin | now apply text_eqb].
  - assert (Hnone : forall row, In row (users db) -> User.username row <> SText s).
    { intros row Hin Hname. rewrite existsb_false_iff in X. specialize (X row Hin).
      cbv beta in X. rewrite Hname in X. simpl in X. rewrite String.eqb_refl in X.
      discriminate. }
    destruct (auto_rowid (map User.id (users db))) as [i |]; cbn.
    + split; [auto |]. split; [discriminate |]. split; [| discriminate]. auto.
    + split; [auto |]. split; [discriminate |]. split; [discriminate |]. auto.
Qed.

Lemma fold_max_lt (l : list Z) (a bound : Z) :
  a < bound -> (forall x, In x l -> x < bound) -> fold_left Z.max l a < bound.
Proof.
  revert a. induction l as [|b l IH]; intros a Ha Hl; simpl; [exact Ha |].
  apply IH.
  - specialize (Hl b (or_introl eq_refl)). lia.
  - intros x Hx. apply Hl. now right.
Qed.

Lemma auto_rowid_increasing (ids : list Z) (i : Z) :
  auto_rowid ids = Some i ->
  (ids = [] -> i = 1) /\
  ((forall x, In x ids -> x < max_rowid) -> forall x, In x ids -> x < i).
Proof.
  unfold auto_rowid. destruct ids as [|a rest].
  - intros H. injection H as <-. split; [reflexivity | intros _ x []].
  - destruct (fold_max_ge rest a) as [Ha Hrest].
    destruct (Z.ltb_spec (fold_left Z.max rest a) max_rowid) as [Hlt | Hge].
    + intros H. injection H as <-. split; [discriminate |].
      intros _ x [<- | Hx]; [lia |]. specialize (Hrest x Hx). lia.
    + intros _. split; [discriminate |]. intros Hall. exfalso.
      assert (fold_left Z.max rest a < max_rowid).
      { apply fold_max_lt; [apply Hall; now left | intros x Hx; apply Hall; now right]. }
      lia.
Qed.

(** X25: user ids are handed out in increasing order.  When POST /users is
    answered 201, the stored user's id is 1 if there was no user, and is
    larger than every stored user id as long as the largest possible rowid
    is not in use. *)
Theorem new_user_id_is_the_largest (req : Req.t) (c : clock) (db : database) :
  Res.status (fst (post_users req c db)) = 201 ->
  exists i,
    fst (post_users req c db)
    = {| Res.status := 201;
         Res.body := Res.user_created (lastID i) (Req.username (Req.json req)) |} /\
    In i (map User.id (users (snd (post_users req c db)))) /\
    (users db = [] -> i = 1) /\
    ((forall u, In u (users db) -> User.id u < max_rowid) ->
     forall u, In u (users db) -> User.id u < i).
Proof.
  intros Hok.
  assert (T : truthy (Req.username (Req.json req)) = true).
  { destruct (truthy _) eqn:T; [reflexivity |].
    unfold post_users in Hok. rewrite T in Hok. discriminate. }
  rewrite (post_users_outcome req c db T) in *.
  destruct (existsb _ (users db)); [discriminate |].
  destruct (auto_rowid (map User.id (users db))) as [i |] eqn:A; [| discriminate].
  destruct (auto_rowid_increasing _ _ A) as [Hempty Hinc].
  exists i. cbn [fst snd respond with_users users]. split; [reflexivity |]. split.
  - apply in_map_iff. eexists. split; [| apply In_insert_by; left; reflexivity].
    reflexivity.
  - split.
    + intros Hnil. apply Hempty. now rewrite Hnil.
    + intros Hall u Hu. apply Hinc; [| now apply in_map].
      intros x Hx. apply in_map_iff in Hx. destruct Hx as [r [<- Hr]]. now apply Hall.
Qed.

End Coverage.

(** * The further properties at work on the sample database *)

Section CoverageInstances.
Import Sample.

(** A PATCH without the header. *)
Lemma patch_without_header :
  app PATCH_notes_id (request None "1" (body_title (Str "X"))) t1 db0
  = respond 400 (Res.error "User ID header is required.") db0.
Proof.
  apply note_routes_require_header; [left; reflexivity | discriminate | discriminate].
Defined.

(** A registration without a username. *)
Lemma register_nobody :
  post_users (request None "" no_body) t0 db0
  = respond 400 (Res.error "Username is required.") db0.
Proof.
  exact (proj1 (proj2 (register_requires_username (request None "" no_body) t0 db0))
               eq_refl).
Defined.

(** A note without content. *)
Lemma create_without_content :
  post_notes (Number (Int 1)) (request (Some "1") "" (body_title (Str "T"))) t1 db0
  = respond 400 (Res.error "Title and content are required.") db0.
Proof.
  exact (proj2 (create_requires_title_and_content (Number (Int 1))
                  (request (Some "1") "" (body_title (Str "T"))) t1 db0)
               (or_intror eq_refl)).
Defined.

(** GET /users/abc. *)
Lemma fetch_user_abc :
  numeric_of_text "abc" = None /\
  Res.status (fst (get_user (request None "abc" no_body) t0 db0)) = 404.
Proof.
  split; [reflexivity |].
  exact (proj2 (proj2 (fetch_user_by_id (request None "abc" no_body) t0 db0)) eq_refl).
Defined.

(** "carol" registers and is fetched as user 3. *)
Lemma carol_is_fetched :
  Res.status (fst (post_users (request None "" (body_username (Str "carol"))) t0 db0))
  = 201 /\
  get_user (request None "3" no_body) t1
           (snd (post_users (request None "" (body_username (Str "carol"))) t0 db0))
  = respond 200 (Res.user_found (registered 3 "carol"))
      (snd (post_users (request None "" (body_username (Str "carol"))) t0 db0)).
Proof.
  assert (Hok : Res.status (fst (post_users
                  (request None "" (body_username (Str "carol"))) t0 db0)) = 201)
    by (vm_compute; reflexivity).
  split; [exact Hok |].
  destruct (registered_user_can_be_fetched
              (request None "" (body_username (Str "carol")))
              (request None "3" no_body) t0 t1 db0 Hok) as [i [_ [Hin Hget]]].
  assert (L : users (snd (post_users (request None "" (body_username (Str "carol")))
                                     t0 db0))
              = [registered 1 "alice"; registered 2 "bob"; registered 3 "carol"])
    by (vm_compute; reflexivity).
  rewrite L in Hin. cbn in Hin.
  destruct Hin as [H | [H | [H | []]]]; try discriminate H.
  injection H as Hi. subst i. apply Hget. reflexivity.
Defined.

(** User 2 asks for the id of the note of user 1, and for the least rowid,
    which is bound as a REAL. *)
Lemma create_with_id_of_another_user :
  post_notes (Number (Int 2))
             (request (Some "2") "" (with_id (Number (Int 1)) (new_note "A" "B"))) t1 db0
  = respond 500 (Res.error "SQLITE_CONSTRAINT: UNIQUE constraint failed: notes.id") db0 /\
  post_notes (Number (Int 2))
             (request (Some "2") "" (with_id (Number (Int (- 2 ^ 63))) (new_note "A" "B")))
             t1 db4
  = respond 500 (Res.error "SQLITE_MISMATCH: datatype mismatch") db4.
Proof.
  split.
  - apply (proj1 (proj2 (create_with_taken_id_fails (Number (Int 2))
                           (request (Some "2") ""
                                    (with_id (Number (Int 1)) (new_note "A" "B")))
                           t1 db0 1 eq_refl eq_refl eq_refl (or_introl eq_refl))));
      [split; reflexivity | reflexivity | reflexivity].
  - apply (proj2 (proj2 (create_with_taken_id_fails (Number (Int 2))
                           (request (Some "2") ""
                                    (with_id (Number (Int (- 2 ^ 63))) (new_note "A" "B")))
                           t1 db4 (- 2 ^ 63) eq_refl eq_refl eq_refl
                           (or_introl eq_refl)))).
    left. apply Z.le_refl.
Defined.

(** Two users create a note in the same millisecond. *)
Lemma two_notes_in_one_millisecond :
  Res.status (fst (post_notes (Number (Int 1))
                              (request (Some "1") "" (new_note "A" "B")) t1 db0)) = 201 /\
  Res.status
    (fst (post_notes (Number (Int 2)) (request (Some "2") "" (new_note "D" "E")) t1
            (snd (post_notes (Number (Int 1))
                             (request (Some "1") "" (new_note "A" "B")) t1 db0))))
  = 500.
Proof.
  assert (Hok : Res.status (fst (post_notes (Number (Int 1))
                  (request (Some "1") "" (new_note "A" "B")) t1 db0)) = 201)
    by (vm_compute; reflexivity).
  split; [exact Hok |].
  destruct (default_ids_collide_within_a_millisecond
              (Number (Int 1)) (Number (Int 2))
              (request (Some "1") "" (new_note "A" "B"))
              (request (Some "2") "" (new_note "D" "E")) t1 t1 db0
              eq_refl eq_refl eq_refl eq_refl eq_refl Hok) as [_ [msg Heq]].
  now rewrite Heq.
Defined.

(** is_hidden: null. *)
Lemma create_with_null_flag :
  Res.status (fst (post_notes (Number (Int 1))
                              (request (Some "1") "" (with_flag Null (new_note "A" "B")))
                              t1 db0))
  = 500.
Proof.
  destruct (create_with_null_field_fails (Number (Int 1))
              (request (Some "1") "" (with_flag Null (new_note "A" "B"))) t1 db0
              eq_refl eq_refl (or_introl eq_refl)) as [msg Heq].
  now rewrite Heq.
Defined.

(** User 2 deletes the note of user 1: 404.  User 1 deletes it: the stored
    row holds the time of the request in deleted_at, updated_at is kept. *)
Lemma delete_foreign_note_not_found :
  (fst (delete_note (Number (Int 2)) (request (Some "2") "1" no_body) t1 db0)
   = {| Res.status := 404;
        Res.body := Res.error
          "Note not found or you do not have permission to delete it." |} /\
   snd (delete_note (Number (Int 2)) (request (Some "2") "1" no_body) t1 db0) = db0) /\
  exists r',
    In r' (notes (snd (delete_note (Number (Int 1)) (request (Some "1") "1" no_body)
                                   t1 db0))) /\
    Note.id r' = 1 /\
    Note.deleted_at r' = SText "2023-11-14T22:14:20.000Z" /\
    Note.updated_at r' = SText "2023-11-14T22:13:20.000Z".
Proof.
  split.
  - apply (proj2 (proj2 (proj2 (delete_writes_deleted_at_only
                                  (Number (Int 2)) (request (Some "2") "1" no_body)
                                  t1 db0)))).
    intros r [<- | [<- | []]] [H1 H2]; vm_compute in H1, H2; discriminate.
  - assert (L : In (note_of 1 1 SNull) (notes db0)) by (left; reflexivity).
    assert (O : column_eqb INTEGER (SNum (Int 1)) (SText "1") = true /\
                column_eqb INTEGER (SNum (Int 1)) (SNum (Int 1)) = true)
      by (split; reflexivity).
    destruct (proj2 (proj1 (proj2 (proj2 (delete_writes_deleted_at_only
                                            (Number (Int 1))
                                            (request (Some "1") "1" no_body) t1 db0)))
                           (ex_intro _ (note_of 1 1 SNull) (conj L O)))
                    (note_of 1 1 SNull) L O)
      as [r' [Hin [Hid [Hd [_ [Hu _]]]]]].
    exists r'. split; [exact Hin |]. split; [exact Hid |]. split; [exact Hd | exact Hu].
Defined.

(** User 1 retitles the own note: content and flag stay. *)
Lemma retitle_keeps_content :
  Res.status (fst (patch_note (Number (Int 1))
                              (request (Some "1") "1" (body_title (Str "T2"))) t1 db0))
  = 200 /\
  Forall2
    (fun r r' =>
       if where_live (SText "1") (SNum (Int 1)) r then
         Note.id r' = Note.id r /\
         Note.created_at r' = Note.created_at r /\
         Note.deleted_at r' = Note.deleted_at r /\
         Note.user_id r' = Note.user_id r /\
         Note.title r' = SText "T2" /\
         Note.content r' = Note.content r /\
         Note.is_hidden r' = Note.is_hidden r
       else r' = r)
    (notes db0)
    (notes (snd (patch_note (Number (Int 1))
                            (request (Some "1") "1" (body_title (Str "T2"))) t1 db0))).
Proof.
  split; [reflexivity |].
  exact (patch_touches_supplied_fields_only (Number (Int 1))
           (request (Some "1") "1" (body_title (Str "T2"))) t1 db0 eq_refl).
Defined.

(** title: null on the own note. *)
Lemma patch_title_null :
  Res.status (fst (patch_note (Number (Int 1))
                              (request (Some "1") "1" (body_title Null)) t1 db0))
  = 500.
Proof.
  apply (proj1 (proj2 (patch_with_null_field (Number (Int 1))
                         (request (Some "1") "1" (body_title Null)) t1 db0
                         (or_introl eq_refl)))).
  exists (note_of 1 1 SNull). split; [left; reflexivity | reflexivity].
Defined.

(** User 2 tries to delete the note of user 1. *)
Lemma foreign_delete_leaves_note :
  In (note_of 1 1 SNull)
     (notes (snd (app DELETE_notes_id (request (Some "2") "1" no_body) t1 db0))).
Proof.
  apply requests_leave_foreign_notes; [left; reflexivity |].
  intros s H. injection H as <-. reflexivity.
Defined.

(** The note without owner survives a DELETE under any header. *)
Lemma stray_note_survives :
  In stray (notes (snd (app DELETE_notes_id (request (Some "abc") "3" no_body) t1 db2))).
Proof.
  apply (proj2 notes_without_owner_are_unreachable stray db2).
  - right. right. left. reflexivity.
  - reflexivity.
Defined.

(** A PATCH answered 404. *)
Lemma not_found_changes_nothing :
  snd (app PATCH_notes_id (request (Some "2") "1" (body_title (Str "X"))) t1 db0) = db0.
Proof.
  apply failed_requests_change_nothing; vm_compute; discriminate.
Defined.

(** POST /notes leaves the users alone. *)
Lemma create_keeps_users :
  users (snd (app POST_notes (request (Some "1") "" (new_note "A" "B")) t1 db0))
  = users db0.
Proof.
  apply (proj1 (proj2 (proj2 (routes_keep_to_their_table
                                POST_notes (request (Some "1") "" (new_note "A" "B"))
                                t1 db0)))).
  discriminate.
Defined.

Lemma db0_keys_intact : keys_intact db0.
Proof.
  unfold keys_intact. simpl.
  repeat split; repeat constructor; simpl; intuition (try discriminate; try lia).
Defined.

(** The keys after a registration, a creation and a deletion. *)
Lemma keys_after_three_requests :
  keys_intact db0 /\
  keys_intact
    (snd (serve [ (POST_users, request None "" (body_username (Str "carol")), t0);
                  (POST_notes, request (Some "3") "" (new_note "A" "B"), t1);
                  (DELETE_notes_id, request (Some "1") "1" no_body, t2) ]
                db0)).
Proof.
  split; [exact db0_keys_intact |].
  apply requests_keep_keys_intact. exact db0_keys_intact.
Defined.

(** User 1 deletes the own note: one row is rewritten. *)
Lemma delete_rewrites_one_row :
  NoDup (map Note.id (notes db0)) /\
  exists before r after,
    notes db0 = (before ++ r :: after)%list /\
    notes (snd (delete_note (Number (Int 1)) (request (Some "1") "1" no_body) t1 db0))
    = (before ++ Note.with_deleted_at (stamp t1) r :: after)%list /\
    where_owned (SText "1") (SNum (Int 1)) r = true.
Proof.
  split; [exact (proj1 db0_keys_intact) |].
  exact (proj2 (successful_write_changes_one_row (Number (Int 1))
                  (request (Some "1") "1" no_body) t1 db0 (proj1 db0_keys_intact))
               eq_refl).
Defined.

Lemma db1_keys_intact : keys_intact db1.
Proof.
  unfold keys_intact. simpl.
  repeat split; repeat constructor; simpl; intuition (try discriminate; try lia).
Defined.

(** The deleted note 1 is not listed after a PATCH and a creation. *)
Lemma deleted_note_stays_out :
  find_note 1 (notes db1) = Some (note_of 1 1 (SText "2023-11-14T22:14:20.000Z")) /\
  forall r',
    In r' (listed (fst (get_notes (Number (Int 1)) (request (Some "1") "" no_body) t2
                          (snd (serve
                                  [ (PATCH_notes_id,
                                     request (Some "1") "1" (body_title (Str "X")), t2);
                                    (POST_notes,
                                     request (Some "1") "" (new_note "A" "B"), t2) ]
                                  db1))))) ->
    Note.id r' <> 1.
Proof.
  split; [reflexivity |].
  intros r'.
  apply (proj2 (deleted_notes_stay_deleted _ db1) db1_keys_intact 1
               (note_of 1 1 (SText "2023-11-14T22:14:20.000Z")) eq_refl).
  discriminate.
Defined.

(** User 1 deletes the own note and then tries to retitle it. *)
Lemma retitle_after_delete :
  Res.status (fst (delete_note (Number (Int 1)) (request (Some "1") "1" no_body) t1 db0))
  = 200 /\
  Res.status
    (fst (patch_note (Number (Int 1)) (request (Some "1") "1" (body_title (Str "T3"))) t2
            (snd (delete_note (Number (Int 1)) (request (Some "1") "1" no_body) t1 db0))))
  = 404.
Proof.
  split; [reflexivity |].
  exact (proj2 (patch_after_delete_not_found (Number (Int 1))
                  (request (Some "1") "1" no_body)
                  (request (Some "1") "1" (body_title (Str "T3")))
                  t1 t2 db0 eq_refl eq_refl)).
Defined.

(** User 1 creates a note at [t1] and retitles it at [t2]. *)
Lemma create_then_retitle :
  Res.status (fst (post_notes (Number (Int 1))
                              (request (Some "1") "" (new_note "A" "B")) t1 db0)) = 201 /\
  Res.status
    (fst (patch_note (Number (Int 1))
            (request (Some "1") "1700000060000" (body_title (Str "A2"))) t2
            (snd (post_notes (Number (Int 1))
                             (request (Some "1") "" (new_note "A" "B")) t1 db0))))
  = 200 /\
  exists r',
    In r' (notes (snd (patch_note (Number (Int 1))
                         (request (Some "1") "1700000060000" (body_title (Str "A2"))) t2
                         (snd (post_notes (Number (Int 1))
                                (request (Some "1") "" (new_note "A" "B")) t1 db0))))) /\
    Note.id r' = 1700000060000 /\
    Note.title r' = SText "A2" /\
    Note.updated_at r' = SText "2023-11-14T22:15:20.000Z" /\
    Note.content r' = SText "B" /\
    Note.created_at r' = SText "2023-11-14T22:14:20.000Z".
Proof.
  assert (Hok : Res.status (fst (post_notes (Number (Int 1))
                  (request (Some "1") "" (new_note "A" "B")) t1 db0)) = 201)
    by (vm_compute; reflexivity).
  split; [exact Hok |].
  destruct (created_note_can_be_retitled (Int 1)
              (request (Some "1") "" (new_note "A" "B"))
              (request (Some "1") "1700000060000" (body_title (Str "A2")))
              t1 t2 db0 "A2" Hok eq_refl eq_refl eq_refl)
    as [rowid [n [Hres [_ [Hin Hpatch]]]]].
  assert (L : notes (snd (post_notes (Number (Int 1))
                            (request (Some "1") "" (new_note "A" "B")) t1 db0))
              = [ note_of 1 1 SNull; note_of 2 2 SNull;
                  {| Note.id := 1700000060000; Note.title := SText "A";
                     Note.content := SText "B";
                     Note.created_at := SText "2023-11-14T22:14:20.000Z";
                     Note.updated_at := SText "2023-11-14T22:14:20.000Z";
                     Note.deleted_at := SNull; Note.is_hidden := SNum (Int 0);
                     Note.user_id := SNum (Int 1) |} ])
    by (vm_compute; reflexivity).
  assert (R : fst (post_notes (Number (Int 1))
                     (request (Some "1") "" (new_note "A" "B")) t1 db0)
              = {| Res.status := 201;
                   Res.body := Res.note_created
                     {| Res.id := Number (Int 1700000060000); Res.title := Str "A";
                        Res.content := Str "B";
                        Res.created_at := Str "2023-11-14T22:14:20.000Z";
                        Res.updated_at := Str "2023-11-14T22:14:20.000Z";
                        Res.is_hidden := Boolean false;
                        Res.user_id := Number (Int 1) |} |})
    by (vm_compute; reflexivity).
  rewrite R in Hres. injection Hres as <-.
  rewrite L in Hin. unfold stored in Hin. cbn in Hin.
  destruct Hin as [H | [H | [H | []]]]; try discriminate H.
  injection H as Hi. subst rowid.
  destruct Hpatch as [Hs [_ [r' [Hr [Hid [Ht [Hu [_ [Hc [Hcr _]]]]]]]]]];
    [vm_compute; reflexivity |].
  split; [exact Hs |]. exists r'.
  split; [exact Hr |]. split; [exact Hid |]. split; [exact Ht |].
  split; [exact Hu |]. split; [exact Hc | exact Hcr].
Defined.

(** The header " -7abc". *)
Lemma header_minus_7 :
  parseInt (" " ++ String "-" ("7" ++ "abc")) = Number (to_number (- digits_value 0 "7")) /\
  to_number (- digits_value 0 "7") = Int (-7).
Proof.
  split; [| reflexivity].
  exact (proj1 (proj2 (proj2 (header_sign_and_white_space " " "7" "abc"
                                eq_refl ltac:(discriminate) eq_refl eq_refl)))).
Defined.

(** User 1 sends the same PATCH at [t1] and at [t2]. *)
Lemma same_patch_twice :
  snd (patch_note (Number (Int 1)) (request (Some "1") "1" (body_title (Str "T2"))) t2
         (snd (patch_note (Number (Int 1))
                          (request (Some "1") "1" (body_title (Str "T2"))) t1 db0)))
  = snd (patch_note (Number (Int 1)) (request (Some "1") "1" (body_title (Str "T2")))
                    t2 db0).
Proof.
  exact (proj2 (patch_twice_is_patch_once (Number (Int 1))
                  (request (Some "1") "1" (body_title (Str "T2"))) t1 t2 db0 eq_refl)).
Defined.

(** What user 1 sees after user 2 has created a note. *)
Lemma listing_after_foreign_create :
  fst (get_notes (Number (Int 1)) (request (Some "1") "" no_body) t2
         (snd (app POST_notes (request (Some "2") "" (new_note "A" "B")) t1 db0)))
  = fst (get_notes (Number (Int 1)) (request (Some "1") "" no_body) t2 db0).
Proof.
  rewrite (listing_unchanged_by_other_callers (Int 1) POST_notes
             (request (Some "2") "" (new_note "A" "B"))
             (request (Some "1") "" no_body) t1 t2 db0); [reflexivity |].
  intros s H. injection H as <-. vm_compute. discriminate.
Defined.

(** "alice" registers again. *)
Lemma alice_is_known :
  snd (post_users (request None "" (body_username (Str "alice"))) t1 db0) = db0 /\
  exists row,
    Res.body (fst (post_users (request None "" (body_username (Str "alice"))) t1 db0))
    = Res.user_row (Some row) /\
    In row (users db0) /\
    User.username row = SText "alice".
Proof.
  exact (proj1 (proj2 (register_outcomes
                         (request None "" (body_username (Str "alice"))) t1 db0
                         eq_refl))
               eq_refl).
Defined.

(** "carol" gets an id above those of "alice" and "bob". *)
Lemma carol_gets_the_largest_id :
  Res.status (fst (post_users (request None "" (body_username (Str "carol"))) t0 db0))
  = 201 /\
  exists i,
    In i (map User.id
              (users (snd (post_users (request None "" (body_username (Str "carol")))
                                      t0 db0)))) /\
    forall u, In u (users db0) -> User.id u < i.
Proof.
  assert (Hok : Res.status (fst (post_users
                  (request None "" (body_username (Str "carol"))) t0 db0)) = 201)
    by (vm_compute; reflexivity).
  split; [exact Hok |].
  destruct (new_user_id_is_the_largest
              (request None "" (body_username (Str "carol"))) t0 db0 Hok)
    as [i [_ [Hin [_ Hlt]]]].
  exists i. split; [exact Hin |]. apply Hlt.
  intros u [<- | [<- | []]]; vm_compute; reflexivity.
Defined.

End CoverageInstances.
